(** * Tai/Xiu dice bot: a shallow embedding of [bot.py] and its settlement engine

    The development follows [src/bot.py]: the global [data] dictionary is an
    explicit record that every handler takes and returns, Python dictionaries
    keyed by user id or round id are finite maps, the per-round bet
    dictionary is an insertion-ordered association list (the settlement loops
    iterate over it), Python floats are binary64 primitive floats, and the
    exceptions that the arithmetic can raise in the middle of a settlement are
    an explicit outcome carrying the state reached so far. *)

From Stdlib Require Import ZArith List Bool Lia String Ascii Sorted Permutation.
From Stdlib Require Import Floats.
From stdpp Require Import gmap list fin_maps.
Import ListNotations.

Set Warnings "-inexact-float".

Local Open Scope Z_scope.

(** ** Python numbers *)

Module Py.

(** [float(n)] for a Python int: correctly rounded to binary64 (ties to even),
    [OverflowError] ([None]) when the integer is beyond the largest float. *)
Definition float_of_int (n : Z) : option float :=
  let f := SF2Prim (binary_normalize prec emax n 0 false) in
  if is_infinity f then None else Some f.

(** [n * x] with [n] an int and [x] a float: the int is converted first. *)
Definition int_mul_float (n : Z) (x : float) : option float :=
  match float_of_int n with
  | Some f => Some (f * x)%float
  | None => None
  end.

(** Nearest integer to [m * 2^e] for [m > 0], ties to the even integer. *)
Definition round_half_even (m : positive) (e : Z) : Z :=
  match e with
  | Zneg p =>
      let d := Z.pow_pos 2 p in
      let q := Z.pos m / d in
      let r := Z.pos m mod d in
      match 2 * r ?= d with
      | Lt => q
      | Gt => q + 1
      | Eq => if Z.even q then q else q + 1
      end
  | _ => Z.pos m * 2 ^ e
  end.

(** [int(round(x))]: [round] of a float without [ndigits] is the nearest
    integer, ties to even, computed exactly; it raises on infinities and NaN. *)
Definition round (x : float) : option Z :=
  match Prim2SF x with
  | S754_zero _ => Some 0
  | S754_finite s m e =>
      let r := round_half_even m e in Some (if s then - r else r)
  | S754_infinity _ | S754_nan => None
  end.

(** [int(x)] of a float: truncation toward zero; raises on infinities, NaN. *)
Definition int_of_float (x : float) : option Z :=
  match Prim2SF x with
  | S754_zero _ => Some 0
  | S754_finite s m e =>
      let r := match e with
               | Zneg p => Z.pos m / Z.pow_pos 2 p
               | _ => Z.pos m * 2 ^ e
               end in
      Some (if s then - r else r)
  | S754_infinity _ | S754_nan => None
  end.

(** [a / b] on two ints (true division): the correctly rounded quotient.
    The quotient of the magnitudes is computed to at least 55 bits plus a
    sticky bit, then rounded once.  [ZeroDivisionError] and [OverflowError]
    are [None]. *)
Definition truediv (a b : Z) : option float :=
  if b =? 0 then None
  else
    let neg := xorb (a <? 0) (b <? 0) in
    if a =? 0 then Some (if neg then neg_zero else zero)
    else
      let a' := Z.abs a in
      let b' := Z.abs b in
      let k := Z.max 0 (56 + Z.log2 b' - Z.log2 a') in
      let n := a' * 2 ^ k in
      let q := n / b' in
      let sticky := if n mod b' =? 0 then 0 else 1 in
      let m := 2 * q + sticky in
      let f := SF2Prim (binary_normalize prec emax (if neg then - m else m) (- k - 1) false) in
      if is_infinity f then None else Some f.

(** [sum] of a list of ints. *)
Definition sum (l : list Z) : Z := fold_right Z.add 0 l.

(** [l.count(x)] *)
Definition count (x : Z) (l : list Z) : Z :=
  Z.of_nat (length (List.filter (fun y => y =? x) l)).

End Py.

(** ** Data model ([default_data]) *)

Inductive side := T | X.

Definition side_eqb (a b : side) : bool :=
  match a, b with
  | T, T | X, X => true
  | _, _ => false
  end.

(** [{'side': 'T'/'X', 'amount': int}] *)
Record bet := { bet_side : side; amount : Z }.

(** [{balance, first_bonus_given, streak, best_streak, history}] *)
Record user := {
  balance : Z;
  first_bonus_given : bool;
  streak : Z;
  best_streak : Z;
  user_history : list Z
}.

Inductive round_status := StIdle | StOpen | StClosed.

Definition status_eqb (a b : round_status) : bool :=
  match a, b with
  | StIdle, StIdle | StOpen, StOpen | StClosed, StClosed => true
  | _, _ => false
  end.

(** [data['round']].  [forced_next] is [None] or whatever string an admin
    stored; [bias] is [None] or the dictionary [{'T': v, 'X': 1-v}], of which
    only the ['T'] entry is ever read. *)
Record round_cfg := {
  round_id : Z;
  status : round_status;
  scheduled_roll_ts : option Z;
  forced_next : option string;
  bias : option float
}.

Inductive request_status := Pending | Approved | Denied.

(** [{id, user_id, amount, time, status, admin_id}] *)
Record request := {
  req_id : Z;
  user_id : Z;
  req_amount : Z;
  req_time : Z;
  req_status : request_status;
  admin_id : option Z
}.

(** An insertion-ordered Python dict with int keys. *)
Definition dict (V : Type) := list (Z * V).

Fixpoint dict_get {V} (k : Z) (d : dict V) : option V :=
  match d with
  | [] => None
  | (k', v) :: d' => if k' =? k then Some v else dict_get k d'
  end.

(** [d[k] = v]: an existing key keeps its position, a new key goes last. *)
Fixpoint dict_set {V} (k : Z) (v : V) (d : dict V) : dict V :=
  match d with
  | [] => [(k, v)]
  | (k', v') :: d' =>
      if k' =? k then (k, v) :: d' else (k', v') :: dict_set k v d'
  end.

Definition keys {V} (d : dict V) : list Z := List.map fst d.

(** One entry of [data['history']]. *)
Record hist_rec := {
  h_id : Z;
  h_timestamp : Z;
  h_dice : list Z;
  h_total : Z;
  h_side : side;
  h_bets : dict bet;
  h_payouts : dict Z;
  h_pot_before : Z;
  h_pot_after : Z;
  h_distributed_from_pot : Z
}.

(** The global [data]. *)
Record data := {
  users : gmap Z user;
  bets : gmap Z (dict bet);
  round : round_cfg;
  history : list hist_rec;
  pot : Z;
  withdraw_requests : list request;
  deposit_requests : list request
}.

Definition default_data : data := {|
  users := ∅;
  bets := ∅;
  round := {| round_id := 0; status := StIdle; scheduled_roll_ts := None;
              forced_next := None; bias := None |};
  history := [];
  pot := 0;
  withdraw_requests := [];
  deposit_requests := []
|}.

Definition INITIAL_BONUS : Z := 10000.
Definition MAX_BONUS_BET : Z := 1000.

(** Field updates of the records above. *)
Definition with_users (f : gmap Z user -> gmap Z user) (d : data) : data :=
  {| users := f (users d); bets := bets d; round := round d;
     history := history d; pot := pot d;
     withdraw_requests := withdraw_requests d;
     deposit_requests := deposit_requests d |}.

Definition with_bets (f : gmap Z (dict bet) -> gmap Z (dict bet)) (d : data) : data :=
  {| users := users d; bets := f (bets d); round := round d;
     history := history d; pot := pot d;
     withdraw_requests := withdraw_requests d;
     deposit_requests := deposit_requests d |}.

Definition with_round (f : round_cfg -> round_cfg) (d : data) : data :=
  {| users := users d; bets := bets d; round := f (round d);
     history := history d; pot := pot d;
     withdraw_requests := withdraw_requests d;
     deposit_requests := deposit_requests d |}.

Definition with_history (f : list hist_rec -> list hist_rec) (d : data) : data :=
  {| users := users d; bets := bets d; round := round d;
     history := f (history d); pot := pot d;
     withdraw_requests := withdraw_requests d;
     deposit_requests := deposit_requests d |}.

Definition with_pot (f : Z -> Z) (d : data) : data :=
  {| users := users d; bets := bets d; round := round d;
     history := history d; pot := f (pot d);
     withdraw_requests := withdraw_requests d;
     deposit_requests := deposit_requests d |}.

Definition with_withdraw_requests (f : list request -> list request) (d : data) : data :=
  {| users := users d; bets := bets d; round := round d;
     history := history d; pot := pot d;
     withdraw_requests := f (withdraw_requests d);
     deposit_requests := deposit_requests d |}.

Definition with_deposit_requests (f : list request -> list request) (d : data) : data :=
  {| users := users d; bets := bets d; round := round d;
     history := history d; pot := pot d;
     withdraw_requests := withdraw_requests d;
     deposit_requests := f (deposit_requests d) |}.

Definition set_id (i : Z) (r : round_cfg) : round_cfg :=
  {| round_id := i; status := status r; scheduled_roll_ts := scheduled_roll_ts r;
     forced_next := forced_next r; bias := bias r |}.

Definition set_status (s : round_status) (r : round_cfg) : round_cfg :=
  {| round_id := round_id r; status := s; scheduled_roll_ts := scheduled_roll_ts r;
     forced_next := forced_next r; bias := bias r |}.

Definition set_scheduled_roll_ts (t : option Z) (r : round_cfg) : round_cfg :=
  {| round_id := round_id r; status := status r; scheduled_roll_ts := t;
     forced_next := forced_next r; bias := bias r |}.

Definition set_forced_next (f : option string) (r : round_cfg) : round_cfg :=
  {| round_id := round_id r; status := status r; scheduled_roll_ts := scheduled_roll_ts r;
     forced_next := f; bias := bias r |}.

Definition set_bias (b : option float) (r : round_cfg) : round_cfg :=
  {| round_id := round_id r; status := status r; scheduled_roll_ts := scheduled_roll_ts r;
     forced_next := forced_next r; bias := b |}.

Definition set_balance (b : Z) (i : user) : user :=
  {| balance := b; first_bonus_given := first_bonus_given i; streak := streak i;
     best_streak := best_streak i; user_history := user_history i |}.

Definition set_first_bonus_given (b : bool) (i : user) : user :=
  {| balance := balance i; first_bonus_given := b; streak := streak i;
     best_streak := best_streak i; user_history := user_history i |}.

Definition set_streak (s : Z) (i : user) : user :=
  {| balance := balance i; first_bonus_given := first_bonus_given i; streak := s;
     best_streak := best_streak i; user_history := user_history i |}.

Definition set_best_streak (s : Z) (i : user) : user :=
  {| balance := balance i; first_bonus_given := first_bonus_given i; streak := streak i;
     best_streak := s; user_history := user_history i |}.

(** ** UTIL: the ledger

    [save_data] writes [data] to disk and changes nothing in memory; it is
    the identity here.  User ids are ints; [str(uid)] keys and [int(uid_str)]
    round-trip, so maps are keyed by the int. *)

Definition new_user : user :=
  {| balance := 0; first_bonus_given := false; streak := 0; best_streak := 0;
     user_history := [] |}.

Definition ensure_user (u : Z) (d : data) : data :=
  match users d !! u with
  | Some _ => d
  | None => with_users (insert u new_user) d
  end.

(** [data['users'][str(u)][field] = ...] on a user that exists. *)
Definition update_user (f : user -> user) (u : Z) (d : data) : data :=
  with_users (alter f u) d.

Definition give_first_bonus_if_needed (u : Z) (d : data) : bool * data :=
  let d := ensure_user u d in
  match users d !! u with
  | Some i =>
      if negb (first_bonus_given i) then
        let d := update_user (fun i => set_balance (balance i + INITIAL_BONUS) i) u d in
        let d := update_user (set_first_bonus_given true) u d in
        (true, d)
      else (false, d)
  | None => (false, d)
  end.

Definition add_balance (u : Z) (a : Z) (d : data) : data :=
  let d := ensure_user u d in
  update_user (fun i => set_balance (balance i + a) i) u d.

Definition sub_balance (u : Z) (a : Z) (d : data) : data :=
  let d := ensure_user u d in
  update_user (fun i => set_balance (balance i - a) i) u d.

Definition get_balance (u : Z) (d : data) : Z * data :=
  let d := ensure_user u d in
  (match users d !! u with Some i => balance i | None => 0 end, d).

(** What [get_balance] reports, as an observation that creates no user. *)
Definition balance_of (u : Z) (d : data) : Z :=
  match users d !! u with Some i => balance i | None => 0 end.

(** [info.get('best_streak', 0)], as the leaderboard reads it. *)
Definition best_streak_of (u : Z) (d : data) : Z :=
  match users d !! u with Some i => best_streak i | None => 0 end.

Definition streak_of (u : Z) (d : data) : Z :=
  match users d !! u with Some i => streak i | None => 0 end.

(** ** The random source

    [random.randint] and [random.random] draw from a tape of raw integers;
    [randint lo hi] lands in [lo..hi] and [random()] is a multiple of [2^-53]
    in [0, 1), as the library documents. *)

Record rng := { tape : nat -> Z; pos : nat }.

Definition advance (g : rng) : rng := {| tape := tape g; pos := S (pos g) |}.

Definition randint (lo hi : Z) (g : rng) : Z * rng :=
  (lo + tape g (pos g) mod (hi - lo + 1), advance g).

Definition random (g : rng) : float * rng :=
  (SF2Prim (binary_normalize prec emax (tape g (pos g) mod 2 ^ 53) (-53) false),
   advance g).

(** [[random.randint(1,6) for _ in range(3)]] *)
Definition roll3 (g : rng) : list Z * rng :=
  let '(a, g) := randint 1 6 g in
  let '(b, g) := randint 1 6 g in
  let '(c, g) := randint 1 6 g in
  ([a; b; c], g).

(** A handler either returns or is left by an exception; the state reached
    is kept in both cases, since every write goes to the global [data]. *)
Inductive outcome (A : Type) := Return (a : A) | Raise.
Arguments Return {A} a.
Arguments Raise {A}.

(** ** BET / ROUND LOGIC *)

Section Bot.

(** Configuration read from the environment at start-up. *)
Variable ADMINS : list Z.
Variable ROLL_INTERVAL : Z.

Definition is_admin (u : Z) : bool := existsb (Z.eqb u) ADMINS.

Definition open_new_round (now : Z) (d : data) : Z * data :=
  let d := with_round (set_id (round_id (round d) + 1)) d in
  let rid := round_id (round d) in
  let d := with_round (set_status StOpen) d in
  let d := with_round (set_scheduled_roll_ts (Some (now + ROLL_INTERVAL))) d in
  let d := with_bets (insert rid []) d in
  (rid, d).

(** ['T' if 11 <= total <= 17 else 'X'] *)
Definition side_of_total (total : Z) : side :=
  if (11 <=? total) && (total <=? 17) then T else X.

(** The [for _ in range(200)] loop of [generate_dice_for_side] with [n]
    iterations left; [None] when the loop runs out without a match. *)
Fixpoint generate_loop (n : nat) (s : side) (g : rng) : option (list Z) * rng :=
  match n with
  | O => (None, g)
  | S n' =>
      let '(d, g') := roll3 g in
      if side_eqb (side_of_total (Py.sum d)) s then (Some d, g')
      else generate_loop n' s g'
  end.

Definition generate_dice_for_side (s : side) (g : rng) : list Z * rng :=
  match generate_loop 200 s g with
  | (Some d, g') => (d, g')
  | (None, g') => roll3 g'
  end.

(** The dice of a round: forced side, biased side, or a plain roll. *)
Definition roll_dice (r : round_cfg) (g : rng) : list Z * rng :=
  match forced_next r with
  | Some "T"%string => generate_dice_for_side T g
  | Some "X"%string => generate_dice_for_side X g
  | _ =>
      match bias r with
      | Some pT =>
          let '(x, g) := random g in
          generate_dice_for_side (if (x <? pT)%float then T else X) g
      | None => roll3 g
      end
  end.

Definition PAY_MULTI : float := 1.97.

Definition is_winner (s : side) (ub : Z * bet) : bool := side_eqb (bet_side (snd ub)) s.
Definition is_loser (s : side) (ub : Z * bet) : bool := negb (side_eqb (bet_side (snd ub)) s).

(** [[int(uid) for uid in bets_for_round if bets_for_round[uid]['side']==side]] *)
Definition winners_of (s : side) (bs : dict bet) : list Z :=
  List.map fst (List.filter (is_winner s) bs).

Definition losers_of (s : side) (bs : dict bet) : list Z :=
  List.map fst (List.filter (is_loser s) bs).

(** [sum(bets_for_round[uid]['amount'] for uid in bets_for_round if ...)] *)
Definition total_stake (keep : Z * bet -> bool) (bs : dict bet) : Z :=
  Py.sum (List.map (fun ub => amount (snd ub)) (List.filter keep bs)).

(** [int(round(amt * m))] *)
Definition round_mul (amt : Z) (m : float) : option Z :=
  match Py.int_mul_float amt m with
  | Some f => Py.round f
  | None => None
  end.

(** The basic payout loop: [payouts[uid] = int(round(amt * PAY_MULTI))] for a
    bet on the resolved side and [0] otherwise.  [None] when an
    arithmetic conversion raises. *)
Fixpoint basic_payouts (s : side) (bs : dict bet) (payouts : dict Z) : option (dict Z) :=
  match bs with
  | [] => Some payouts
  | (uid, b) :: bs' =>
      if side_eqb (bet_side b) s then
        match round_mul (amount b) PAY_MULTI with
        | Some pay => basic_payouts s bs' (dict_set uid pay payouts)
        | None => None
        end
      else basic_payouts s bs' (dict_set uid 0 payouts)
  end.

(** [sum(int(round(amount * m)) for each bet on the resolved side)] *)
Fixpoint profit_sum (m : float) (s : side) (bs : dict bet) : option Z :=
  match bs with
  | [] => Some 0
  | (_, b) :: bs' =>
      if side_eqb (bet_side b) s then
        match round_mul (amount b) m, profit_sum m s bs' with
        | Some p, Some rest => Some (p + rest)
        | _, _ => None
        end
      else profit_sum m s bs'
  end.

(** One turn of the crediting loop over [payouts.items()]. *)
Definition credit_one (d : data) (up : Z * Z) : data :=
  let '(uid, pay) := up in
  if 0 <? pay then
    let d := add_balance uid pay d in
    let d := ensure_user uid d in
    let d := update_user (fun i => set_streak (streak i + 1) i) uid d in
    update_user (fun i => set_best_streak (Z.max (best_streak i) (streak i)) i) uid d
  else
    let d := ensure_user uid d in
    update_user (set_streak 0) uid d.

Definition credit_payouts (payouts : dict Z) (d : data) : data :=
  fold_left credit_one payouts d.

(** [int(round(pot_amount * (stake / total_winner_stakes)))
     if total_winner_stakes>0 else int(pot_amount/len(winners))] *)
Definition jackpot_share (pot_amount stake total_winner_stakes n : Z) : option Z :=
  if 0 <? total_winner_stakes then
    match Py.truediv stake total_winner_stakes with
    | Some q => round_mul pot_amount q
    | None => None
    end
  else
    match Py.truediv pot_amount n with
    | Some q => Py.int_of_float q
    | None => None
    end.

(** [[bets_for_round[str(uid)]['amount'] for uid in winners]]; a missing key
    is a [KeyError]. *)
Fixpoint stakes_of (bs : dict bet) (ws : list Z) : option (list Z) :=
  match ws with
  | [] => Some []
  | uid :: ws' =>
      match dict_get uid bs, stakes_of bs ws' with
      | Some b, Some rest => Some (amount b :: rest)
      | _, _ => None
      end
  end.

(** The loop that credits every winner's share of the pot. *)
Fixpoint distribute (pot_amount total n : Z) (bs : dict bet) (ws : list Z) (d : data)
  : outcome unit * data :=
  match ws with
  | [] => (Return tt, d)
  | uid :: ws' =>
      match dict_get uid bs with
      | None => (Raise, d)
      | Some b =>
          match jackpot_share pot_amount (amount b) total n with
          | None => (Raise, d)
          | Some share => distribute pot_amount total n bs ws' (add_balance uid share d)
          end
      end
  end.

(** [dice.count(1) == 3 or dice.count(6) == 3] *)
Definition is_triple (dice : list Z) : bool :=
  (Py.count 1 dice =? 3) || (Py.count 6 dice =? 3).

(** The special pot distribution; returns [distributed_from_pot]. *)
Definition jackpot (dice : list Z) (winners : list Z) (bs : dict bet) (d : data)
  : outcome Z * data :=
  if is_triple dice then
    match winners with
    | [] => (Return 0, d)
    | _ :: _ =>
        let pot_amount := pot d in
        match stakes_of bs winners with
        | None => (Raise, d)
        | Some stakes =>
            let total_winner_stakes := Py.sum stakes in
            match distribute pot_amount total_winner_stakes
                    (Z.of_nat (length winners)) bs winners d with
            | (Raise, d) => (Raise, d)
            | (Return _, d) => (Return pot_amount, with_pot (fun _ => 0) d)
            end
        end
    end
  else (Return 0, d).

(** [close_betting_and_roll]: [Return None] when no round is open, otherwise
    the history record of the resolved round. *)
Definition close_betting_and_roll (g : rng) (now : Z) (d : data)
  : outcome (option hist_rec) * data :=
  let rid := round_id (round d) in
  if negb (status_eqb (status (round d)) StOpen) then (Return None, d)
  else
    let d := with_round (set_status StClosed) d in
    let '(dice, _) := roll_dice (round d) g in
    let total := Py.sum dice in
    let side := side_of_total total in
    let pot_before := pot d in
    let bets_for_round := default [] (bets d !! rid) in
    let winners := winners_of side bets_for_round in
    let losers_total_stake := total_stake (is_loser side) bets_for_round in
    match basic_payouts side bets_for_round [] with
    | None => (Raise, d)
    | Some payouts =>
        let d := with_pot (fun p => p + losers_total_stake) d in
        match profit_sum (PAY_MULTI - 1)%float side bets_for_round with
        | None => (Raise, d)
        | Some winners_profit =>
            match round_mul winners_profit 0.30 with
            | None => (Raise, d)
            | Some winners_profit_cut =>
                let d := with_pot (fun p => p + winners_profit_cut) d in
                let d := credit_payouts payouts d in
                match jackpot dice winners bets_for_round d with
                | (Raise, d) => (Raise, d)
                | (Return distributed_from_pot, d) =>
                    match bets d !! rid with
                    | None => (Raise, d)
                    | Some recorded =>
                        let hist := {|
                          h_id := rid;
                          h_timestamp := now;
                          h_dice := dice;
                          h_total := total;
                          h_side := side;
                          h_bets := recorded;
                          h_payouts := payouts;
                          h_pot_before := pot_before;
                          h_pot_after := pot d;
                          h_distributed_from_pot := distributed_from_pot |} in
                        let d := with_history (fun h => h ++ [hist]) d in
                        let d := with_bets (delete rid) d in
                        let d := with_round (set_status StIdle) d in
                        let d := with_round (set_forced_next None) d in
                        (Return (Some hist), d)
                    end
                end
            end
        end
    end.

(** ** BOT HANDLERS

    The chat transport is outside the model: a handler is modelled from the
    point where its text has been matched and its numbers parsed, and the
    replies it sends are the returned value, where one matters. *)

Definition start_cmd (uid : Z) (d : data) : bool * data :=
  let d := ensure_user uid d in
  give_first_bonus_if_needed uid d.

Definition balance_cmd (uid : Z) (d : data) : Z * data :=
  let d := ensure_user uid d in
  get_balance uid d.

Inductive bet_reply :=
  | BettingClosed
  | BonusLimit
  | InvalidAmount
  | InsufficientFunds
  | Accepted (rid : Z) (new_balance : Z).

(** [/T<amt>] and [/X<amt>] *)
Definition handle_bet_command (uid : Z) (sd : side) (amt : Z) (d : data)
  : bet_reply * data :=
  let rid := round_id (round d) in
  if negb (status_eqb (status (round d)) StOpen) then (BettingClosed, d)
  else
    let d := ensure_user uid d in
    let '(bal, d) := get_balance uid d in
    let bonus := match users d !! uid with
                 | Some i => first_bonus_given i
                 | None => false
                 end in
    if bonus && (bal =? INITIAL_BONUS) && (MAX_BONUS_BET <? amt) then (BonusLimit, d)
    else if amt <=? 0 then (InvalidAmount, d)
    else if bal <? amt then (InsufficientFunds, d)
    else
      let d := sub_balance uid amt d in
      let bids := default [] (bets d !! rid) in
      let d := with_bets (insert rid (dict_set uid {| bet_side := sd; amount := amt |} bids)) d in
      let '(bal', d) := get_balance uid d in
      (Accepted rid bal', d).

(** [/openbet] *)
Definition open_bet_cmd (sender : Z) (now : Z) (d : data) : option Z * data :=
  if negb (is_admin sender) then (None, d)
  else let '(rid, d) := open_new_round now d in (Some rid, d).

Definition new_request (rid uid amt now : Z) : request :=
  {| req_id := rid; user_id := uid; req_amount := amt; req_time := now;
     req_status := Pending; admin_id := None |}.

(** [/naptien <amt>]; [now_ms] is [int(time.time()*1000)]. *)
Definition deposit_cmd (uid amt now_ms now : Z) (d : data) : data :=
  with_deposit_requests (fun l => l ++ [new_request now_ms uid amt now]) d.

(** [/ruttien <amt>]; [true] when the request was queued. *)
Definition withdraw_cmd (uid amt now_ms now : Z) (d : data) : bool * data :=
  if amt <? 100000 then (false, d)
  else
    let '(bal, d) := get_balance uid d in
    if bal <? amt then (false, d)
    else (true, with_withdraw_requests (fun l => l ++ [new_request now_ms uid amt now]) d).

Definition decided (st : request_status) (admin : Z) (r : request) : request :=
  {| req_id := req_id r; user_id := user_id r; req_amount := req_amount r;
     req_time := req_time r; req_status := st; admin_id := Some admin |}.

(** [for r in requests: if r['id']==rid: ...; return]: the first request with
    the id is decided in place and handed back; [None] when no id matches. *)
Fixpoint decide_first (rid : Z) (st : request_status) (admin : Z) (l : list request)
  : option request * list request :=
  match l with
  | [] => (None, [])
  | r :: l' =>
      if req_id r =? rid then (Some r, decided st admin r :: l')
      else let '(found, l'') := decide_first rid st admin l' in (found, r :: l'')
  end.

(** The payload of an inline button, after [split(':')] and [int(...)]. *)
Inductive callback :=
  | approve_deposit (rid : Z)
  | deny_deposit (rid : Z)
  | approve_withdraw (rid : Z)
  | deny_withdraw (rid : Z)
  | force_next (val : string)
  | other_callback.

Definition callback_query_handler (sender : Z) (cb : callback) (d : data) : data :=
  if negb (is_admin sender) then d
  else
    match cb with
    | approve_deposit rid =>
        let '(found, l) := decide_first rid Approved sender (deposit_requests d) in
        match found with
        | Some r =>
            let d := with_deposit_requests (fun _ => l) d in
            add_balance (user_id r) (req_amount r) d
        | None => d
        end
    | deny_deposit rid =>
        let '(found, l) := decide_first rid Denied sender (deposit_requests d) in
        match found with
        | Some r => with_deposit_requests (fun _ => l) d
        | None => d
        end
    | approve_withdraw rid =>
        let '(found, l) := decide_first rid Approved sender (withdraw_requests d) in
        match found with
        | Some r =>
            let d := with_withdraw_requests (fun _ => l) d in
            sub_balance (user_id r) (req_amount r) d
        | None => d
        end
    | deny_withdraw rid =>
        let '(found, l) := decide_first rid Denied sender (withdraw_requests d) in
        match found with
        | Some r => with_withdraw_requests (fun _ => l) d
        | None => d
        end
    | force_next val => with_round (set_forced_next (Some val)) d
    | other_callback => d
    end.

(** [/setnext T|X|NONE], after the argument check; [None] is [NONE]. *)
Definition admin_setnext (sender : Z) (val : option side) (d : data) : data :=
  if negb (is_admin sender) then d
  else
    match val with
    | None => with_round (set_forced_next None) d
    | Some T => with_round (set_forced_next (Some "T"%string)) d
    | Some X => with_round (set_forced_next (Some "X"%string)) d
    end.

(** [/setbias T:v] *)
Definition admin_setbias (sender : Z) (v : float) (d : data) : data :=
  if negb (is_admin sender) then d
  else if (v <? 0)%float || (1 <? v)%float then d
  else with_round (set_bias (Some v)) d.

(** [/credit <user_id> <amount>] *)
Definition admin_credit (sender : Z) (uid amt : Z) (d : data) : data :=
  if negb (is_admin sender) then d
  else add_balance uid amt d.

(** ** SCHEDULER: the two state-changing steps of one turn of the loop *)

Definition scheduler_open (now : Z) (d : data) : option Z * data :=
  if status_eqb (status (round d)) StIdle then
    let '(rid, d) := open_new_round now d in (Some rid, d)
  else (None, d).

(** Every entry point that writes to [data].  [/history], [/leaderboard],
    [/pot], the result animation and the crash monitor only read it. *)
Inductive op :=
  | OpStart (uid : Z)
  | OpBalance (uid : Z)
  | OpBet (uid : Z) (sd : side) (amt : Z)
  | OpOpenBet (sender : Z) (now : Z)
  | OpDeposit (uid amt now_ms now : Z)
  | OpWithdraw (uid amt now_ms now : Z)
  | OpCallback (sender : Z) (cb : callback)
  | OpSetNext (sender : Z) (val : option side)
  | OpSetBias (sender : Z) (v : float)
  | OpCredit (sender : Z) (uid amt : Z)
  | OpSchedulerOpen (now : Z)
  | OpSchedulerClose (g : rng) (now : Z).

Definition step (o : op) (d : data) : data :=
  match o with
  | OpStart uid => snd (start_cmd uid d)
  | OpBalance uid => snd (balance_cmd uid d)
  | OpBet uid sd amt => snd (handle_bet_command uid sd amt d)
  | OpOpenBet sender now => snd (open_bet_cmd sender now d)
  | OpDeposit uid amt now_ms now => deposit_cmd uid amt now_ms now d
  | OpWithdraw uid amt now_ms now => snd (withdraw_cmd uid amt now_ms now d)
  | OpCallback sender cb => callback_query_handler sender cb d
  | OpSetNext sender val => admin_setnext sender val d
  | OpSetBias sender v => admin_setbias sender v d
  | OpCredit sender uid amt => admin_credit sender uid amt d
  | OpSchedulerOpen now => snd (scheduler_open now d)
  | OpSchedulerClose g now => snd (close_betting_and_roll g now d)
  end.

Definition run (ops : list op) (d : data) : data := fold_left (fun d o => step o d) ops d.

End Bot.

(** ** Read-only handlers and the loops *)

(** [user_display_mask], on the characters of [str(user_id)]:
    [s[:2] + "..." + s[-3:]] for five characters or more, [s] otherwise. *)
Definition user_display_mask (s : list ascii) : list ascii :=
  if (5 <=? length s)%nat then
    firstn 2 s ++ ["."; "."; "."]%char ++ skipn (length s - 3) s
  else s.

(** [/history]: [data['history'][-10:]], newest first; [None] is the reply
    that there is no history yet. *)
Definition show_history_cmd (d : data) : option (list hist_rec) :=
  let h := skipn (length (history d) - 10) (history d) in
  match h with
  | [] => None
  | _ :: _ => Some (rev h)
  end.

(** A row [(uid, best_streak, balance)] of the leaderboard. *)
Definition row : Type := Z * Z * Z.

Definition row_streak (r : row) : Z := snd (fst r).

(** [users.sort(key=lambda x: x[1], reverse=True)]: a stable sort, largest
    best streak first; rows with equal streaks keep their order. *)
Fixpoint insert_row (x : row) (l : list row) : list row :=
  match l with
  | [] => [x]
  | y :: l' =>
      if row_streak y <=? row_streak x then x :: y :: l'
      else y :: insert_row x l'
  end.

Definition sort_rows (l : list row) : list row := fold_right insert_row [] l.

(** [/leaderboard], from the rows in the order of [data['users'].items()]:
    the ten best streaks. *)
Definition leaderboard_cmd (rows : list row) : list row := firstn 10 (sort_rows rows).

(** The test of [crash_monitor_loop]: the last history record is older than
    three roll intervals. *)
Definition crash_alert (ROLL_INTERVAL now : Z) (d : data) : bool :=
  match last (history d) with
  | Some r => ROLL_INTERVAL * 3 <? now - h_timestamp r
  | None => false
  end.

(** One turn of [scheduler_loop] with nobody acting in between: open a round
    if idle, then close and roll. *)
Definition scheduler_turn (ROLL_INTERVAL : Z) (g : rng) (now_open now_close : Z) (d : data)
  : outcome (option hist_rec) * data :=
  close_betting_and_roll g now_close (snd (scheduler_open ROLL_INTERVAL now_open d)).

(** ** Scenarios used to exercise the model *)

(** A random source whose every raw draw is [x]. *)
Definition constant_rng (x : Z) : rng := {| tape := fun _ => x; pos := 0 |}.

(** A random source that counts up: the dice come out 1, 2, 3, 4, 5, 6, 1, ... *)
Definition counting_rng : rng := {| tape := fun n => Z.of_nat n; pos := 0 |}.

(** Admin 1 credits user 7 with 5000, round 1 opens, user 7 stakes 1000 on T. *)
Definition one_bet_open : data :=
  run [1] 60 [OpCredit 1 7 5000; OpSchedulerOpen 0; OpBet 7 T 1000] default_data.

(** That round resolved with dice 4, 4, 4: T wins. *)
Definition one_bet_record : hist_rec := {|
  h_id := 1; h_timestamp := 5; h_dice := [4; 4; 4]; h_total := 12; h_side := T;
  h_bets := [(7, {| bet_side := T; amount := 1000 |})];
  h_payouts := [(7, 1970)];
  h_pot_before := 0; h_pot_after := 291; h_distributed_from_pot := 0 |}.

Definition one_bet_resolved : data :=
  snd (close_betting_and_roll (constant_rng 3) 5 one_bet_open).


Definition one_bet_lost : data :=
  snd (close_betting_and_roll (constant_rng 0) 5 one_bet_open).

(** Admin 1 credits user 7 with 1000 and round 1 opens. *)
Definition funded_open : data :=
  run [1] 60 [OpCredit 1 7 1000; OpSchedulerOpen 0] default_data.

(** User 7 holds 100000 and files two withdraw requests of 100000, each of
    which passes the balance check made when a request is filed. *)
Definition two_withdrawals_pending : data :=
  run [1] 60 [OpCredit 1 7 100000;
              OpWithdraw 7 100000 1001 1; OpWithdraw 7 100000 1002 1] default_data.

(** User 7 files deposit request 1001 for 500. *)
Definition deposit_pending : data :=
  run [1] 60 [OpDeposit 7 500 1001 1] default_data.

(** Three users are credited, round 1 opens, user 7 stakes 100 on T and
    users 8 and 9 stake 300 and 700 on X. *)
Definition three_bets_open : data :=
  run [1] 60 [OpCredit 1 7 1000; OpCredit 1 8 1000; OpCredit 1 9 1000;
              OpSchedulerOpen 0;
              OpBet 7 T 100; OpBet 8 X 300; OpBet 9 X 700] default_data.

(** That round resolved with dice 1, 1, 1: X wins and the jackpot triggers. *)
Definition three_bets_record : hist_rec := {|
  h_id := 1; h_timestamp := 5; h_dice := [1; 1; 1]; h_total := 3; h_side := X;
  h_bets := [(7, {| bet_side := T; amount := 100 |});
             (8, {| bet_side := X; amount := 300 |});
             (9, {| bet_side := X; amount := 700 |})];
  h_payouts := [(7, 0); (8, 591); (9, 1379)];
  h_pot_before := 0; h_pot_after := 0; h_distributed_from_pot := 391 |}.

Definition three_bets_resolved : data :=
  snd (close_betting_and_roll (constant_rng 0) 5 three_bets_open).

(** User 7 starts with the bonus, round 1 opens, user 7 stakes 500 on T, and
    an admin forces the next result to X. *)
Definition bonus_bet_forced : data :=
  run [1] 60 [OpStart 7; OpSchedulerOpen 0; OpBet 7 T 500; OpSetNext 1 (Some X)]
    default_data.

(** The pot holds 4418, round 1 opens and user 7 stakes 2000 on X. *)
Definition pot_and_one_bet : data :=
  run [1] 60 [OpCredit 1 7 2000; OpSchedulerOpen 0; OpBet 7 X 2000]
    (with_pot (fun _ => 4418) default_data).

(** ** Notions used by the statements *)

(** [d'] differs from [d] in the users table at most. *)
Definition users_only (d d' : data) : Prop :=
  bets d' = bets d /\ round d' = round d /\ history d' = history d /\
  pot d' = pot d /\ withdraw_requests d' = withdraw_requests d /\
  deposit_requests d' = deposit_requests d.

(** The state in which the jackpot check runs: betting closed, the pot fed,
    the basic payouts credited. *)
Definition settled (d : data) (side : side) (bs : dict bet) (payouts : dict Z) (cut : Z) : data :=
  credit_payouts payouts
    (with_pot (fun p => p + cut)
       (with_pot (fun p => p + total_stake (is_loser side) bs)
          (with_round (set_status StClosed) d))).

(** The record under which the ledger sees user [u]: the stored one, or the
    one [ensure_user] would create. *)
Definition account (u : Z) (d : data) : user := default new_user (users d !! u).

(** What the payout loop stores for one bet. *)
Definition payout_of (s : side) (b : bet) (p : Z) : Prop :=
  if side_eqb (bet_side b) s then round_mul (amount b) PAY_MULTI = Some p else p = 0.

(** The pot contribution of a round, in the words of the specification:
    the losing stakes, plus 30% (rounded) of the sum over winners of
    [round(stake * 0.97)]. *)
Definition pot_contribution (s : side) (bs : dict bet) : option Z :=
  match profit_sum 0.97 s bs with
  | Some profit =>
      match round_mul profit 0.30 with
      | Some cut => Some (total_stake (is_loser s) bs + cut)
      | None => None
      end
  | None => None
  end.

(** All the stakes of a bet set. *)
Definition all_stakes (bs : dict bet) : Z := total_stake (fun _ => true) bs.

(** What a resolved round paid out, and what it added to the pot before any
    jackpot drain, as read from its history record. *)
Definition paid_out (rec : hist_rec) : Z := Py.sum (List.map snd (h_payouts rec)).

Definition pot_fed (rec : hist_rec) : Z :=
  h_pot_after rec + h_distributed_from_pot rec - h_pot_before rec.

(** The stake recorded for user [u] in a bet set, [0] when there is none. *)
Definition recorded_stake (u : Z) (bs : dict bet) : Z :=
  match dict_get u bs with Some b => amount b | None => 0 end.

(** The bet set of the current round. *)
Definition current_bets (d : data) : dict bet := default [] (bets d !! round_id (round d)).

(** The first request with id [rid], as the approval loop finds it. *)
Definition find_request (rid : Z) (l : list request) : option request :=
  List.find (fun r => req_id r =? rid) l.

(** Every stored bet set is a dictionary: no user id occurs twice. *)
Definition wf_bets (d : data) : Prop :=
  forall rid bs, bets d !! rid = Some bs -> NoDup (keys bs).

(** Streaks are counted from 0 and the best streak is at least the current one. *)
Definition streaks_ok (d : data) : Prop :=
  forall u, 0 <= streak_of u d <= best_streak_of u d.

(** What identifies a request and never changes once it is filed. *)
Definition req_core (r : request) : Z * Z * Z * Z :=
  (req_id r, user_id r, req_amount r, req_time r).

(** The history lists rounds by strictly increasing id, none beyond the
    current round, and none for the current round while it is open. *)
Definition history_ok (d : data) : Prop :=
  StronglySorted Z.lt (List.map h_id (history d)) /\
  Forall (fun r => h_id r < round_id (round d) \/
                   (h_id r = round_id (round d) /\ status (round d) <> StOpen))
         (history d).

(** The frame of a state change that leaves round, bets, history, pot and
    both request queues as they were. *)
Definition same_frame (d d' : data) : Prop :=
  history d' = history d /\ pot d' = pot d /\ round d' = round d /\
  bets d' = bets d /\
  withdraw_requests d' = withdraw_requests d /\
  deposit_requests d' = deposit_requests d.

(** Round 1 is open with a bet of user 7 when an admin opens round 2. *)
Definition reopened : data := step [1] 60 (OpOpenBet 1 9) one_bet_open.

(** An entry point as a plain user can trigger it: a user command, or an
    admin command sent by somebody who is not an admin. *)
Definition unprivileged (ADMINS : list Z) (o : op) : bool :=
  match o with
  | OpStart _ | OpBalance _ | OpBet _ _ _ | OpDeposit _ _ _ _ | OpWithdraw _ _ _ _ => true
  | OpOpenBet s _ | OpCallback s _ | OpSetNext s _ | OpSetBias s _ | OpCredit s _ _ =>
      negb (is_admin ADMINS s)
  | OpSchedulerOpen _ | OpSchedulerClose _ _ => false
  end.

(** The admin commands. *)
Definition admin_command (o : op) : option Z :=
  match o with
  | OpOpenBet s _ | OpCallback s _ | OpSetNext s _ | OpSetBias s _ | OpCredit s _ _ => Some s
  | _ => None
  end.

(** The string an admin stores to force a side. *)
Definition forced_string (s : side) : string :=
  match s with T => "T"%string | X => "X"%string end.

(** User 7 holds and stakes 2^1024, more than any float, on T. *)
Definition overflow_bet_open : data :=
  run [1] 60 [OpCredit 1 7 (2 ^ 1024); OpSchedulerOpen 0; OpBet 7 T (2 ^ 1024)]
    default_data.

(** * Properties *)

(** ** The float layer agrees with the literals of the source *)

Lemma pay_multi_minus_one : (PAY_MULTI - 1)%float = 0.97%float.
Proof. reflexivity. Qed.

Example round_mul_1000 : round_mul 1000 PAY_MULTI = Some 1970.
Proof. reflexivity. Qed.

Example round_mul_half_to_even : round_mul 50 PAY_MULTI = Some 98.
Proof. reflexivity. Qed.

Example round_mul_cut_970 : round_mul 970 0.30 = Some 291.
Proof. reflexivity. Qed.

Example truediv_third : Py.truediv 1 3 = Some (1 / 3)%float.
Proof. reflexivity. Qed.

Example float_of_int_overflow : Py.float_of_int (2 ^ 1024) = None.
Proof. reflexivity. Qed.

(** ** Scenarios of the specification *)

(** A lost bet is not refunded: balance 9500, streak 0, pot up by 500, and
    the forced side is cleared. *)
Example forced_under_scenario :
  let d' := snd (close_betting_and_roll counting_rng 5 bonus_bet_forced) in
  balance_of 7 bonus_bet_forced = 9500 /\
  balance_of 7 d' = 9500 /\ streak_of 7 d' = 0 /\ pot d' = 500 /\
  forced_next (round d') = None.
Proof. cbn zeta. repeat split; vm_compute; reflexivity. Qed.

(** Triple six, one winner staking 2000, pot 5000 before the jackpot check:
    the pot drains and the winner receives 3940 + 5000. *)
Example triple_six_scenario :
  let r := close_betting_and_roll (constant_rng 5) 5 pot_and_one_bet in
  option_map h_dice (match fst r with Return o => o | Raise => None end) = Some [6; 6; 6] /\
  pot (snd r) = 0 /\
  balance_of 7 (snd r) = balance_of 7 pot_and_one_bet + 3940 + 5000.
Proof. cbn zeta. repeat split; vm_compute; reflexivity. Qed.

(** A bet above the bonus ceiling is refused while the balance is the bonus. *)
Example bonus_ceiling_scenario :
  fst (handle_bet_command 7 T 1500 (run [1] 60 [OpStart 7; OpSchedulerOpen 0] default_data))
  = BonusLimit.
Proof. vm_compute. reflexivity. Qed.

(** ** Dice *)

Lemma side_eqb_eq a b : side_eqb a b = true <-> a = b.
Proof. destruct a, b; simpl; split; congruence. Qed.

Lemma randint_range lo hi g :
  lo <= hi -> lo <= fst (randint lo hi g) <= hi.
Proof.
  intros Hle. unfold randint; simpl.
  pose proof (Z.mod_pos_bound (tape g (pos g)) (hi - lo + 1)). lia.
Qed.

Lemma roll3_spec g :
  length (fst (roll3 g)) = 3%nat /\
  Forall (fun x => 1 <= x <= 6) (fst (roll3 g)) /\
  pos (snd (roll3 g)) = (pos g + 3)%nat /\
  tape (snd (roll3 g)) = tape g.
Proof.
  unfold roll3; simpl. repeat split.
  - repeat constructor;
      match goal with
      | |- _ <= 1 + ?t mod _ => pose proof (Z.mod_pos_bound t (6 - 1 + 1)); lia
      | |- 1 + ?t mod _ <= _ => pose proof (Z.mod_pos_bound t (6 - 1 + 1)); lia
      end.
  - lia.
Qed.

Lemma generate_loop_spec n s g :
  match generate_loop n s g with
  | (Some d, g') =>
      exists k : nat, (1 <= k <= n)%nat /\ pos g' = (pos g + 3 * k)%nat /\
        tape g' = tape g /\ length d = 3%nat /\
        Forall (fun x => 1 <= x <= 6) d /\ side_of_total (Py.sum d) = s
  | (None, g') => pos g' = (pos g + 3 * n)%nat /\ tape g' = tape g
  end.
Proof.
  revert g. induction n as [|n IH]; intros g; cbn [generate_loop].
  - split; [lia | reflexivity].
  - destruct (roll3 g) as [d g1] eqn:Hroll.
    pose proof (roll3_spec g) as (Hlen & Hall & Hpos & Htape).
    rewrite Hroll in Hlen, Hall, Hpos, Htape; cbn [fst snd] in *.
    destruct (side_eqb (side_of_total (Py.sum d)) s) eqn:Hs.
    + exists 1%nat. apply side_eqb_eq in Hs.
      repeat split; try lia; assumption.
    + specialize (IH g1). destruct (generate_loop n s g1) as [[d'|] g2].
      * destruct IH as (k & Hk & Hp & Ht & Hl & Hf & Hside).
        exists (S k). repeat split; try lia; try assumption; congruence.
      * destruct IH as (Hp & Ht). split; [lia | congruence].
Qed.

(** C9. The forced/biased sampler draws at most 200 constrained triples plus
    one fallback triple, always returns three dice in 1..6, and a triple
    returned from within the 200 attempts sums to the requested side.  The
    number of triples drawn, [k], is read off the random source. *)
Theorem generate_dice_for_side_bounded (s : side) (g : rng) :
  exists k : nat,
    (1 <= k <= 201)%nat /\
    pos (snd (generate_dice_for_side s g)) = (pos g + 3 * k)%nat /\
    length (fst (generate_dice_for_side s g)) = 3%nat /\
    Forall (fun x => 1 <= x <= 6) (fst (generate_dice_for_side s g)) /\
    ((k <= 200)%nat -> side_of_total (Py.sum (fst (generate_dice_for_side s g))) = s).
Proof.
  unfold generate_dice_for_side.
  pose proof (generate_loop_spec 200 s g) as H.
  destruct (generate_loop 200 s g) as [[d|] g'].
  - destruct H as (k & Hk & Hp & _ & Hl & Hf & Hs).
    exists k. cbn [fst snd]. repeat split; try lia; auto.
  - destruct H as (Hp & Ht).
    pose proof (roll3_spec g') as (Hlen & Hall & Hpos & _).
    exists 201%nat. repeat split; try lia; auto.
Qed.

Lemma generate_dice_for_side_bounded_witness :
  pos (snd (generate_dice_for_side T counting_rng)) = 6%nat /\
  side_of_total (Py.sum (fst (generate_dice_for_side T counting_rng))) = T.
Proof.
  destruct (generate_dice_for_side_bounded T counting_rng)
    as (k & Hk & Hpos & _ & _ & Hside).
  assert (H6 : pos (snd (generate_dice_for_side T counting_rng)) = 6%nat) by reflexivity.
  split; [exact H6|].
  apply Hside. rewrite H6 in Hpos. cbn [pos counting_rng] in Hpos. lia.
Defined.

(** ** Frames: what the ledger operations leave alone *)

Lemma users_only_refl d : users_only d d.
Proof. repeat split. Qed.

Lemma users_only_trans d1 d2 d3 :
  users_only d1 d2 -> users_only d2 d3 -> users_only d1 d3.
Proof.
  unfold users_only. intros (?&?&?&?&?&?) (?&?&?&?&?&?).
  repeat split; congruence.
Qed.

Lemma users_only_with_users f d : users_only d (with_users f d).
Proof. repeat split. Qed.

Lemma users_only_ensure_user u d : users_only d (ensure_user u d).
Proof.
  unfold ensure_user. destruct (users d !! u);
    [apply users_only_refl | apply users_only_with_users].
Qed.

Lemma users_only_update_user f u d : users_only d (update_user f u d).
Proof. apply users_only_with_users. Qed.

Lemma users_only_add_balance u a d : users_only d (add_balance u a d).
Proof.
  unfold add_balance.
  eapply users_only_trans; [apply users_only_ensure_user | apply users_only_update_user].
Qed.

Lemma users_only_sub_balance u a d : users_only d (sub_balance u a d).
Proof.
  unfold sub_balance.
  eapply users_only_trans; [apply users_only_ensure_user | apply users_only_update_user].
Qed.

Lemma users_only_credit_one d up : users_only d (credit_one d up).
Proof.
  destruct up as [uid pay]. unfold credit_one. destruct (0 <? pay).
  - eapply users_only_trans; [|apply users_only_update_user].
    eapply users_only_trans; [|apply users_only_update_user].
    eapply users_only_trans; [|apply users_only_ensure_user].
    apply users_only_add_balance.
  - eapply users_only_trans; [apply users_only_ensure_user | apply users_only_update_user].
Qed.

Lemma users_only_credit_payouts payouts d : users_only d (credit_payouts payouts d).
Proof.
  unfold credit_payouts. revert d.
  induction payouts as [|up l IH]; intros d; simpl.
  - apply users_only_refl.
  - eapply users_only_trans; [apply users_only_credit_one | apply IH].
Qed.

Lemma users_only_distribute pot_amount total n bs ws d :
  users_only d (snd (distribute pot_amount total n bs ws d)).
Proof.
  revert d. induction ws as [|uid ws IH]; intros d; simpl.
  - apply users_only_refl.
  - destruct (dict_get uid bs) as [b|]; [|apply users_only_refl].
    destruct (jackpot_share pot_amount (amount b) total n) as [share|];
      [|apply users_only_refl].
    eapply users_only_trans; [apply users_only_add_balance | apply IH].
Qed.

(** The jackpot step touches only balances and the pot. *)
Lemma jackpot_frame dice ws bs d :
  bets (snd (jackpot dice ws bs d)) = bets d /\
  round (snd (jackpot dice ws bs d)) = round d /\
  history (snd (jackpot dice ws bs d)) = history d.
Proof.
  unfold jackpot. destruct (is_triple dice); [|repeat split].
  destruct ws as [|w ws]; [repeat split|].
  destruct (stakes_of bs (w :: ws)) as [stakes|]; [|repeat split].
  pose proof (users_only_distribute (pot d) (Py.sum stakes)
                (Z.of_nat (length (w :: ws))) bs (w :: ws) d) as (Hb & Hr & Hh & _).
  destruct (distribute (pot d) (Py.sum stakes) (Z.of_nat (length (w :: ws))) bs (w :: ws) d)
    as [[[]|] dj]; cbn [fst snd] in *; repeat split; assumption.
Qed.

(** ** Resolution, step by step *)

Lemma roll_dice_set_status st r g : roll_dice (set_status st r) g = roll_dice r g.
Proof. reflexivity. Qed.

(** What a call that returns a record went through. *)
Lemma close_resolved_inv g now d rec d' :
  close_betting_and_roll g now d = (Return (Some rec), d') ->
  exists bs payouts wp cut dist dj,
    status (round d) = StOpen /\
    bets d !! round_id (round d) = Some bs /\
    basic_payouts (h_side rec) bs [] = Some payouts /\
    profit_sum (PAY_MULTI - 1)%float (h_side rec) bs = Some wp /\
    round_mul wp 0.30 = Some cut /\
    jackpot (h_dice rec) (winners_of (h_side rec) bs) bs
      (settled d (h_side rec) bs payouts cut) = (Return dist, dj) /\
    rec = {| h_id := round_id (round d);
             h_timestamp := now;
             h_dice := fst (roll_dice (round d) g);
             h_total := Py.sum (fst (roll_dice (round d) g));
             h_side := side_of_total (Py.sum (fst (roll_dice (round d) g)));
             h_bets := bs;
             h_payouts := payouts;
             h_pot_before := pot d;
             h_pot_after := pot dj;
             h_distributed_from_pot := dist |} /\
    d' = with_round (set_forced_next None)
           (with_round (set_status StIdle)
              (with_bets (delete (round_id (round d)))
                 (with_history (fun h => h ++ [rec]) dj))).
Proof.
  unfold close_betting_and_roll. intros H.
  destruct (status_eqb (status (round d)) StOpen) eqn:Hst; [|discriminate].
  cbn [negb] in H.
  change (round (with_round (set_status StClosed) d)) with (set_status StClosed (round d)) in H.
  rewrite roll_dice_set_status in H.
  destruct (roll_dice (round d) g) as [dice g'] eqn:Hroll.
  change (bets (with_round (set_status StClosed) d)) with (bets d) in H.
  change (pot (with_round (set_status StClosed) d)) with (pot d) in H.
  set (side := side_of_total (Py.sum dice)) in *.
  set (bs0 := default [] (bets d !! round_id (round d))) in *.
  destruct (basic_payouts side bs0 []) as [payouts|] eqn:Hpay; [|discriminate].
  destruct (profit_sum (PAY_MULTI - 1)%float side bs0) as [wp|] eqn:Hwp; [|discriminate].
  destruct (round_mul wp 0.30) as [cut|] eqn:Hcut; [|discriminate].
  fold (settled d side bs0 payouts cut) in H.
  pose proof (jackpot_frame dice (winners_of side bs0) bs0 (settled d side bs0 payouts cut))
    as (Hb & _ & _).
  destruct (jackpot dice (winners_of side bs0) bs0 (settled d side bs0 payouts cut))
    as [[dist|] dj] eqn:Hjack; [|discriminate].
  cbn [snd] in Hb.
  assert (Hbets : bets dj = bets d).
  { rewrite Hb. unfold settled.
    pose proof (users_only_credit_payouts payouts
      (with_pot (fun p => p + cut)
         (with_pot (fun p => p + total_stake (is_loser side) bs0)
            (with_round (set_status StClosed) d)))) as (Hb' & _).
    rewrite Hb'. reflexivity. }
  rewrite Hbets in H.
  destruct (bets d !! round_id (round d)) as [recorded|] eqn:Hrec; [|discriminate].
  cbn [default] in bs0. subst bs0.
  injection H as Hrecd Hd'.
  assert (Hside : h_side rec = side) by (rewrite <- Hrecd; reflexivity).
  assert (Hdice : h_dice rec = dice) by (rewrite <- Hrecd; reflexivity).
  rewrite Hside, Hdice.
  exists recorded, payouts, wp, cut, dist, dj.
  repeat split; try assumption; try reflexivity.
  - destruct (status (round d)); simpl in Hst; congruence.
  - symmetry; exact Hrecd.
  - rewrite <- Hd', <- Hrecd. reflexivity.
Qed.

(** ** A second call for the same round *)

Lemma close_not_open g now d :
  status (round d) <> StOpen -> close_betting_and_roll g now d = (Return None, d).
Proof.
  intros H. unfold close_betting_and_roll.
  destruct (status (round d)); try reflexivity. congruence.
Qed.

Lemma settled_round d side bs payouts cut :
  round (settled d side bs payouts cut) = set_status StClosed (round d).
Proof.
  unfold settled.
  pose proof (users_only_credit_payouts payouts
    (with_pot (fun p => p + cut)
       (with_pot (fun p => p + total_stake (is_loser side) bs)
          (with_round (set_status StClosed) d)))) as (_ & Hr & _).
  rewrite Hr. reflexivity.
Qed.

(** Whatever a call did, it does not leave a round open. *)
Lemma close_leaves_not_open g now d :
  status (round (snd (close_betting_and_roll g now d))) <> StOpen.
Proof.
  unfold close_betting_and_roll.
  destruct (status_eqb (status (round d)) StOpen) eqn:Hst; cbn [negb].
  2:{ cbn [snd]. destruct (status (round d)); simpl in Hst; congruence. }
  change (round (with_round (set_status StClosed) d)) with (set_status StClosed (round d)).
  rewrite roll_dice_set_status.
  destruct (roll_dice (round d) g) as [dice g'].
  change (bets (with_round (set_status StClosed) d)) with (bets d).
  set (side := side_of_total (Py.sum dice)).
  set (bs0 := default [] (bets d !! round_id (round d))).
  destruct (basic_payouts side bs0 []) as [payouts|]; [|cbn; discriminate].
  destruct (profit_sum (PAY_MULTI - 1)%float side bs0) as [wp|]; [|cbn; discriminate].
  destruct (round_mul wp 0.30) as [cut|]; [|cbn; discriminate].
  fold (settled d side bs0 payouts cut).
  pose proof (jackpot_frame dice (winners_of side bs0) bs0 (settled d side bs0 payouts cut))
    as (_ & Hr & _).
  rewrite settled_round in Hr.
  destruct (jackpot dice (winners_of side bs0) bs0 (settled d side bs0 payouts cut))
    as [[dist|] dj]; cbn [snd] in *.
  - destruct (bets dj !! round_id (round d)); cbn [snd].
    + cbn. discriminate.
    + rewrite Hr. cbn. discriminate.
  - rewrite Hr. cbn. discriminate.
Qed.

(** C4 (amended). A second call for the same round changes no state, because
    the guard on the status is met by every state a first call leaves
    behind; it returns [None], not the record of the round. *)
Theorem close_twice_is_noop (g1 g2 : rng) (now1 now2 : Z) (d : data) :
  close_betting_and_roll g2 now2 (snd (close_betting_and_roll g1 now1 d)) =
  (Return None, snd (close_betting_and_roll g1 now1 d)).
Proof. apply close_not_open, close_leaves_not_open. Qed.

(** C4 as stated fails: the first call returns the record of round 1, the
    second call returns [None]. *)
Lemma close_twice_loses_result :
  exists rec,
    fst (close_betting_and_roll (constant_rng 3) 5 one_bet_open) = Return (Some rec) /\
    fst (close_betting_and_roll (constant_rng 3) 6
           (snd (close_betting_and_roll (constant_rng 3) 5 one_bet_open)))
    <> Return (Some rec).
Proof.
  eexists. split.
  - vm_compute. reflexivity.
  - vm_compute. discriminate.
Qed.

(** ** Opening a round *)

(** C7 (amended). [open_new_round] has no guard: from every state it
    allocates the next round id, opens the round, schedules the roll, starts
    an empty bet set and returns the id.  An admin's [/openbet] is that call,
    whatever the status; only the scheduler asks for an idle round first, and
    leaves the state alone otherwise. *)
Theorem open_new_round_any_state (ADMINS : list Z) (ROLL_INTERVAL now : Z) (d : data) :
  let r := open_new_round ROLL_INTERVAL now d in
  fst r = round_id (round d) + 1 /\
  round_id (round d) < fst r /\
  round_id (round (snd r)) = fst r /\
  status (round (snd r)) = StOpen /\
  scheduled_roll_ts (round (snd r)) = Some (now + ROLL_INTERVAL) /\
  bets (snd r) !! fst r = Some [] /\
  (forall sender, is_admin ADMINS sender = true ->
     open_bet_cmd ADMINS ROLL_INTERVAL sender now d = (Some (fst r), snd r)) /\
  (status (round d) = StIdle ->
     scheduler_open ROLL_INTERVAL now d = (Some (fst r), snd r)) /\
  (status (round d) <> StIdle -> scheduler_open ROLL_INTERVAL now d = (None, d)).
Proof.
  cbn zeta. unfold open_new_round. cbn [fst snd].
  split; [reflexivity|]. split; [cbn; lia|].
  do 3 (split; [reflexivity|]).
  split; [|split; [|split]].
  - cbn. apply lookup_insert_eq.
  - intros sender Hadm. unfold open_bet_cmd. rewrite Hadm. reflexivity.
  - intros Hidle. unfold scheduler_open. rewrite Hidle. reflexivity.
  - intros Hnot. unfold scheduler_open.
    destruct (status (round d)); try reflexivity. congruence.
Qed.

Lemma open_new_round_any_state_witness :
  status (round one_bet_open) = StOpen /\
  open_bet_cmd [1] 60 1 5 one_bet_open =
    (Some (round_id (round one_bet_open) + 1), snd (open_new_round 60 5 one_bet_open)) /\
  scheduler_open 60 5 one_bet_open = (None, one_bet_open) /\
  scheduler_open 60 5 default_data =
    (Some (round_id (round default_data) + 1), snd (open_new_round 60 5 default_data)).
Proof.
  pose proof (open_new_round_any_state [1] 60 5 one_bet_open)
    as (Hid & _ & _ & _ & _ & _ & Hadmin & _ & Hbusy).
  pose proof (open_new_round_any_state [1] 60 5 default_data)
    as (Hid0 & _ & _ & _ & _ & _ & _ & Hidle & _).
  split; [reflexivity|]. split; [|split].
  - rewrite <- Hid. apply Hadmin. reflexivity.
  - apply Hbusy. vm_compute. discriminate.
  - rewrite <- Hid0. apply Hidle. reflexivity.
Defined.

(** C7 as stated fails: with round 1 open, [/openbet] from an admin succeeds,
    returns round 2 and changes the state. *)
Lemma open_while_open_succeeds :
  status (round one_bet_open) = StOpen /\
  fst (open_bet_cmd [1] 60 1 5 one_bet_open) = Some 2 /\
  round_id (round (snd (open_bet_cmd [1] 60 1 5 one_bet_open)))
    <> round_id (round one_bet_open) /\
  snd (open_bet_cmd [1] 60 1 5 one_bet_open) <> one_bet_open.
Proof.
  split; [reflexivity|]. split; [reflexivity|]. split.
  - vm_compute. discriminate.
  - intros H. apply (f_equal (fun d => round_id (round d))) in H.
    vm_compute in H. discriminate.
Qed.

(** ** The users table *)

Lemma balance_of_account u d : balance_of u d = balance (account u d).
Proof. unfold balance_of, account. destruct (users d !! u); reflexivity. Qed.

Lemma best_streak_of_account u d : best_streak_of u d = best_streak (account u d).
Proof. unfold best_streak_of, account. destruct (users d !! u); reflexivity. Qed.

Lemma streak_of_account u d : streak_of u d = streak (account u d).
Proof. unfold streak_of, account. destruct (users d !! u); reflexivity. Qed.

Lemma ensure_user_lookup u d : users (ensure_user u d) !! u = Some (account u d).
Proof.
  unfold ensure_user, account. destruct (users d !! u) as [i|] eqn:Hu; cbn.
  - exact Hu.
  - apply lookup_insert_eq.
Qed.

Lemma account_ensure_user v u d : account u (ensure_user v d) = account u d.
Proof.
  unfold account at 1. destruct (decide (v = u)) as [->|Hne].
  - rewrite ensure_user_lookup. reflexivity.
  - unfold ensure_user, account. destruct (users d !! v); cbn; [reflexivity|].
    rewrite lookup_insert_ne by assumption. reflexivity.
Qed.

Lemma account_update_user_ne f v u d :
  v <> u -> account u (update_user f v d) = account u d.
Proof.
  intros Hne. unfold account, update_user. cbn.
  rewrite lookup_alter_ne by assumption. reflexivity.
Qed.

(** Updating a user that [ensure_user] has put in place. *)
Lemma account_update_ensured f u d :
  account u (update_user f u (ensure_user u d)) = f (account u d).
Proof.
  unfold account at 1, update_user. cbn.
  rewrite lookup_alter_eq, ensure_user_lookup. reflexivity.
Qed.

Lemma account_update_user_eq f u d i :
  users d !! u = Some i -> account u (update_user f u d) = f i.
Proof.
  intros Hu. unfold account, update_user. cbn.
  rewrite lookup_alter_eq, Hu. reflexivity.
Qed.

Lemma account_add_balance v a u d :
  account u (add_balance v a d) =
  if decide (v = u) then set_balance (balance (account u d) + a) (account u d)
  else account u d.
Proof.
  unfold add_balance. destruct (decide (v = u)) as [->|Hne].
  - rewrite account_update_ensured. reflexivity.
  - rewrite account_update_user_ne by assumption. apply account_ensure_user.
Qed.

Lemma account_sub_balance v a u d :
  account u (sub_balance v a d) =
  if decide (v = u) then set_balance (balance (account u d) - a) (account u d)
  else account u d.
Proof.
  unfold sub_balance. destruct (decide (v = u)) as [->|Hne].
  - rewrite account_update_ensured. reflexivity.
  - rewrite account_update_user_ne by assumption. apply account_ensure_user.
Qed.

Lemma users_lookup_add_balance u a d :
  users (add_balance u a d) !! u =
  Some (set_balance (balance (account u d) + a) (account u d)).
Proof.
  unfold add_balance, update_user. cbn.
  rewrite lookup_alter_eq, ensure_user_lookup. reflexivity.
Qed.

(** One turn of the crediting loop, seen from user [u]. *)
Lemma account_credit_one u d v pay :
  account u (credit_one d (v, pay)) =
  if decide (v = u) then
    if 0 <? pay then
      {| balance := balance (account u d) + pay;
         first_bonus_given := first_bonus_given (account u d);
         streak := streak (account u d) + 1;
         best_streak := Z.max (best_streak (account u d)) (streak (account u d) + 1);
         user_history := user_history (account u d) |}
    else set_streak 0 (account u d)
  else account u d.
Proof.
  unfold credit_one. destruct (decide (v = u)) as [->|Hne].
  - destruct (0 <? pay).
    + pose proof (users_lookup_add_balance u pay d) as H0.
      generalize dependent (add_balance u pay d). intros d1 H0.
      assert (H1 : ensure_user u d1 = d1) by (unfold ensure_user; rewrite H0; reflexivity).
      rewrite H1.
      erewrite account_update_user_eq.
      2:{ unfold update_user. cbn. rewrite lookup_alter_eq, H0. reflexivity. }
      reflexivity.
    + rewrite account_update_ensured. reflexivity.
  - destruct (0 <? pay).
    + rewrite !account_update_user_ne by assumption.
      rewrite account_ensure_user, account_add_balance.
      destruct (decide (v = u)); [contradiction | reflexivity].
    + rewrite account_update_user_ne by assumption. apply account_ensure_user.
Qed.

(** ** Best streak *)

Lemma best_ensure_user v u d : best_streak_of u (ensure_user v d) = best_streak_of u d.
Proof. rewrite !best_streak_of_account, account_ensure_user. reflexivity. Qed.

Lemma best_add_balance v a u d : best_streak_of u (add_balance v a d) = best_streak_of u d.
Proof.
  rewrite !best_streak_of_account, account_add_balance.
  destruct (decide (v = u)); reflexivity.
Qed.

Lemma best_sub_balance v a u d : best_streak_of u (sub_balance v a d) = best_streak_of u d.
Proof.
  rewrite !best_streak_of_account, account_sub_balance.
  destruct (decide (v = u)); reflexivity.
Qed.

Lemma best_with_bets f u d : best_streak_of u (with_bets f d) = best_streak_of u d.
Proof. reflexivity. Qed.

Lemma best_with_round f u d : best_streak_of u (with_round f d) = best_streak_of u d.
Proof. reflexivity. Qed.

Lemma best_with_history f u d : best_streak_of u (with_history f d) = best_streak_of u d.
Proof. reflexivity. Qed.

Lemma best_with_pot f u d : best_streak_of u (with_pot f d) = best_streak_of u d.
Proof. reflexivity. Qed.

Lemma best_with_withdraw_requests f u d :
  best_streak_of u (with_withdraw_requests f d) = best_streak_of u d.
Proof. reflexivity. Qed.

Lemma best_with_deposit_requests f u d :
  best_streak_of u (with_deposit_requests f d) = best_streak_of u d.
Proof. reflexivity. Qed.

Lemma best_give_first_bonus v u d :
  best_streak_of u (snd (give_first_bonus_if_needed v d)) = best_streak_of u d.
Proof.
  unfold give_first_bonus_if_needed.
  rewrite ensure_user_lookup.
  destruct (negb (first_bonus_given (account v d))); cbn [snd].
  - rewrite !best_streak_of_account.
    destruct (decide (v = u)) as [->|Hne].
    + erewrite account_update_user_eq.
      2:{ unfold update_user. cbn [users with_users].
          rewrite lookup_alter_eq, ensure_user_lookup. reflexivity. }
      reflexivity.
    + rewrite !account_update_user_ne by assumption. apply f_equal, account_ensure_user.
  - apply best_ensure_user.
Qed.

Lemma best_get_balance v u d : best_streak_of u (snd (get_balance v d)) = best_streak_of u d.
Proof. unfold get_balance. cbn [snd]. apply best_ensure_user. Qed.

Create Rewrite HintDb best.

#[local] Hint Rewrite best_ensure_user best_add_balance best_sub_balance best_with_bets
  best_with_round best_with_history best_with_pot best_with_withdraw_requests
  best_with_deposit_requests best_give_first_bonus best_get_balance : best.

Lemma best_credit_one u d up :
  best_streak_of u d <= best_streak_of u (credit_one d up).
Proof.
  destruct up as [v pay]. rewrite !best_streak_of_account, account_credit_one.
  destruct (decide (v = u)); [destruct (0 <? pay)|]; cbn; lia.
Qed.

Lemma best_credit_payouts u payouts d :
  best_streak_of u d <= best_streak_of u (credit_payouts payouts d).
Proof.
  unfold credit_payouts. revert d.
  induction payouts as [|up l IH]; intros d; cbn [fold_left]; [lia|].
  pose proof (best_credit_one u d up). specialize (IH (credit_one d up)). lia.
Qed.

Lemma best_distribute pot_amount total n bs ws u d :
  best_streak_of u (snd (distribute pot_amount total n bs ws d)) = best_streak_of u d.
Proof.
  revert d. induction ws as [|w ws IH]; intros d; cbn [distribute]; [reflexivity|].
  destruct (dict_get w bs) as [b|]; [|reflexivity].
  destruct (jackpot_share pot_amount (amount b) total n); [|reflexivity].
  rewrite IH. apply best_add_balance.
Qed.

Lemma best_jackpot dice ws bs u d :
  best_streak_of u (snd (jackpot dice ws bs d)) = best_streak_of u d.
Proof.
  unfold jackpot. destruct (is_triple dice); [|reflexivity].
  destruct ws as [|w ws]; [reflexivity|].
  destruct (stakes_of bs (w :: ws)) as [stakes|]; [|reflexivity].
  pose proof (best_distribute (pot d) (Py.sum stakes) (Z.of_nat (length (w :: ws)))
                bs (w :: ws) u d) as H.
  destruct (distribute (pot d) (Py.sum stakes) (Z.of_nat (length (w :: ws))) bs (w :: ws) d)
    as [[[]|] dj]; cbn [snd] in *; assumption.
Qed.

Lemma best_close g now u d :
  best_streak_of u d <= best_streak_of u (snd (close_betting_and_roll g now d)).
Proof.
  unfold close_betting_and_roll.
  destruct (negb (status_eqb (status (round d)) StOpen)); [cbn [snd]; lia|].
  destruct (roll_dice (round (with_round (set_status StClosed) d)) g) as [dice g'].
  set (side := side_of_total (Py.sum dice)).
  set (bs0 := default [] (bets (with_round (set_status StClosed) d) !! round_id (round d))).
  destruct (basic_payouts side bs0 []) as [payouts|]; [|cbn [snd]; reflexivity].
  destruct (profit_sum (PAY_MULTI - 1)%float side bs0) as [wp|]; [|cbn [snd]; reflexivity].
  destruct (round_mul wp 0.30) as [cut|]; [|cbn [snd]; reflexivity].
  set (d3 := with_pot (fun p => p + cut)
               (with_pot (fun p => p + total_stake (is_loser side) bs0)
                  (with_round (set_status StClosed) d))).
  pose proof (best_credit_payouts u payouts d3) as Hc.
  pose proof (best_jackpot dice (winners_of side bs0) bs0 u (credit_payouts payouts d3)) as Hj.
  change (best_streak_of u d3) with (best_streak_of u d) in Hc.
  destruct (jackpot dice (winners_of side bs0) bs0 (credit_payouts payouts d3))
    as [[dist|] dj]; cbn [snd] in *.
  - destruct (bets dj !! round_id (round d)); cbn [snd].
    + change (best_streak_of u d <= best_streak_of u dj). lia.
    + lia.
  - lia.
Qed.

Lemma best_decide_callback ADMINS sender cb u d :
  best_streak_of u (callback_query_handler ADMINS sender cb d) = best_streak_of u d.
Proof.
  unfold callback_query_handler.
  destruct (negb (is_admin ADMINS sender)); [reflexivity|].
  destruct cb as [rid|rid|rid|rid|val|]; try reflexivity.
  - destruct (decide_first rid Approved sender (deposit_requests d)) as [[r|] l];
      autorewrite with best; reflexivity.
  - destruct (decide_first rid Denied sender (deposit_requests d)) as [[r|] l];
      autorewrite with best; reflexivity.
  - destruct (decide_first rid Approved sender (withdraw_requests d)) as [[r|] l];
      autorewrite with best; reflexivity.
  - destruct (decide_first rid Denied sender (withdraw_requests d)) as [[r|] l];
      autorewrite with best; reflexivity.
Qed.

Lemma best_handle_bet uid sd amt u d :
  best_streak_of u (snd (handle_bet_command uid sd amt d)) = best_streak_of u d.
Proof.
  unfold handle_bet_command.
  destruct (negb (status_eqb (status (round d)) StOpen)); [reflexivity|].
  unfold get_balance.
  repeat match goal with
         | |- context [if ?c then _ else _] => destruct c
         end; cbn [snd]; autorewrite with best; reflexivity.
Qed.

(** Every entry point other than the settlement leaves best streaks alone. *)
Lemma best_step_other ADMINS ROLL_INTERVAL o u d :
  (forall g now, o <> OpSchedulerClose g now) ->
  best_streak_of u (step ADMINS ROLL_INTERVAL o d) = best_streak_of u d.
Proof.
  intros Hno. destruct o; cbn [step].
  - unfold start_cmd. autorewrite with best. reflexivity.
  - unfold balance_cmd. autorewrite with best. reflexivity.
  - apply best_handle_bet.
  - unfold open_bet_cmd. destruct (negb (is_admin ADMINS sender)); reflexivity.
  - reflexivity.
  - unfold withdraw_cmd. destruct (amt <? 100000); [reflexivity|].
    unfold get_balance. destruct (_ <? amt); cbn [snd]; autorewrite with best; reflexivity.
  - apply best_decide_callback.
  - unfold admin_setnext. destruct (negb (is_admin ADMINS sender)); [reflexivity|].
    destruct val as [[]|]; reflexivity.
  - unfold admin_setbias. destruct (negb (is_admin ADMINS sender)); [reflexivity|].
    destruct (_ || _); reflexivity.
  - unfold admin_credit. destruct (negb (is_admin ADMINS sender)); [reflexivity|].
    apply best_add_balance.
  - unfold scheduler_open. destruct (status_eqb _ _); reflexivity.
  - exfalso. eapply Hno. reflexivity.
Qed.

Lemma best_step ADMINS ROLL_INTERVAL o u d :
  best_streak_of u d <= best_streak_of u (step ADMINS ROLL_INTERVAL o d).
Proof.
  destruct o; try (rewrite best_step_other by discriminate; lia).
  apply best_close.
Qed.

Lemma best_run ADMINS ROLL_INTERVAL ops u d :
  best_streak_of u d <= best_streak_of u (run ADMINS ROLL_INTERVAL ops d).
Proof.
  unfold run. revert d. induction ops as [|o ops IH]; intros d; cbn [fold_left]; [lia|].
  pose proof (best_step ADMINS ROLL_INTERVAL o u d).
  specialize (IH (step ADMINS ROLL_INTERVAL o d)). lia.
Qed.

(** C10. A user's best streak never goes down, under any entry point and
    along any run; every entry point but the settlement leaves it as it is,
    and a turn of the settlement's crediting loop sets it to the maximum of
    its old value and the incremented streak (a losing turn leaves it). *)
Theorem best_streak_monotone (ADMINS : list Z) (ROLL_INTERVAL : Z) (u : Z) (d : data) :
  (forall o, best_streak_of u d <= best_streak_of u (step ADMINS ROLL_INTERVAL o d)) /\
  (forall ops, best_streak_of u d <= best_streak_of u (run ADMINS ROLL_INTERVAL ops d)) /\
  (forall o, (forall g now, o <> OpSchedulerClose g now) ->
     best_streak_of u (step ADMINS ROLL_INTERVAL o d) = best_streak_of u d) /\
  (forall v pay,
     best_streak_of u (credit_one d (v, pay)) =
     if decide (v = u) then
       if 0 <? pay then Z.max (best_streak_of u d) (streak_of u d + 1)
       else best_streak_of u d
     else best_streak_of u d).
Proof.
  split; [|split; [|split]].
  - intros o. apply best_step.
  - intros ops. apply best_run.
  - intros o Ho. apply best_step_other. exact Ho.
  - intros v pay.
    rewrite !best_streak_of_account, streak_of_account, account_credit_one.
    destruct (decide (v = u)); [destruct (0 <? pay)|]; reflexivity.
Qed.

Lemma best_streak_monotone_witness :
  best_streak_of 7 (step [1] 60 (OpBet 7 X 200) one_bet_open) = best_streak_of 7 one_bet_open /\
  best_streak_of 7 one_bet_open <= best_streak_of 7 one_bet_resolved.
Proof.
  destruct (best_streak_monotone [1] 60 7 one_bet_open) as (Hstep & _ & Hother & _).
  split.
  - apply Hother. intros g now. discriminate.
  - exact (Hstep (OpSchedulerClose (constant_rng 3) 5)).
Defined.

(** ** Dictionaries *)

Lemma dict_set_fresh {V} k (v : V) d :
  ~ In k (keys d) -> dict_set k v d = d ++ [(k, v)].
Proof.
  induction d as [|[k' v'] d IH]; cbn; intros Hn; [reflexivity|].
  destruct (Z.eqb_spec k' k) as [->|Hne].
  - exfalso. apply Hn. left. reflexivity.
  - rewrite IH; [reflexivity|]. intros Hin. apply Hn. right. exact Hin.
Qed.

Lemma dict_get_notin {V} k (d : dict V) : ~ In k (keys d) -> dict_get k d = None.
Proof.
  induction d as [|[k' v'] d IH]; cbn; intros Hn; [reflexivity|].
  destruct (Z.eqb_spec k' k) as [->|Hne].
  - exfalso. apply Hn. left. reflexivity.
  - apply IH. intros Hin. apply Hn. right. exact Hin.
Qed.

Lemma dict_get_in {V} k (v : V) d :
  NoDup (keys d) -> In (k, v) d -> dict_get k d = Some v.
Proof.
  induction d as [|[k' v'] d IH]; cbn; intros Hnd Hin; [contradiction|].
  apply NoDup_cons in Hnd as [Hk Hnd].
  destruct Hin as [Heq|Hin].
  - injection Heq as -> ->. rewrite Z.eqb_refl. reflexivity.
  - destruct (Z.eqb_spec k' k) as [->|Hne].
    + exfalso. apply Hk, list_elem_of_In.
      change k with (fst (k, v)). apply in_map. exact Hin.
    + apply IH; assumption.
Qed.

Lemma keys_filter_in {V} (f : Z * V -> bool) (d : dict V) k :
  In k (keys (List.filter f d)) -> In k (keys d).
Proof.
  unfold keys. rewrite !in_map_iff. intros ([k' v] & Hk & Hin).
  apply filter_In in Hin as [Hin _]. exists (k', v). split; assumption.
Qed.

Lemma keys_filter_NoDup {V} (f : Z * V -> bool) (d : dict V) :
  NoDup (keys d) -> NoDup (keys (List.filter f d)).
Proof.
  induction d as [|[k v] d IH]; cbn; intros Hnd; [constructor|].
  apply NoDup_cons in Hnd as [Hk Hnd].
  destruct (f (k, v)); cbn.
  - constructor; [|apply IH; exact Hnd].
    intros Hin. apply Hk, list_elem_of_In. eapply keys_filter_in.
    apply list_elem_of_In. exact Hin.
  - apply IH. exact Hnd.
Qed.

(** ** The payout loop *)

Lemma basic_payouts_struct s bs : forall acc r,
  NoDup (keys acc ++ keys bs) ->
  basic_payouts s bs acc = Some r ->
  exists ps, r = acc ++ ps /\
    Forall2 (fun ub up => fst up = fst ub /\ payout_of s (snd ub) (snd up)) bs ps.
Proof.
  induction bs as [|[u b] bs IH]; intros acc r Hnd H; cbn in H.
  - injection H as <-. exists []. split; [symmetry; apply app_nil_r | constructor].
  - assert (Hfresh : ~ In u (keys acc)).
    { intros Hin. apply NoDup_app in Hnd as (_ & Hdisj & _).
      apply (Hdisj u); [apply list_elem_of_In; exact Hin|].
      apply list_elem_of_In. left. reflexivity. }
    assert (Hnd' : forall p, NoDup (keys (acc ++ [(u, p)]) ++ keys bs)).
    { intros p. unfold keys in *. rewrite map_app. cbn. rewrite <- app_assoc. exact Hnd. }
    destruct (side_eqb (bet_side b) s) eqn:Hs.
    + destruct (round_mul (amount b) PAY_MULTI) as [pay|] eqn:Hpay; [|discriminate].
      rewrite dict_set_fresh in H by assumption.
      destruct (IH _ _ (Hnd' pay) H) as (ps & -> & Hall).
      exists ((u, pay) :: ps). split; [rewrite <- app_assoc; reflexivity|].
      constructor; [|exact Hall]. split; [reflexivity|].
      unfold payout_of. cbn. rewrite Hs. exact Hpay.
    + rewrite dict_set_fresh in H by assumption.
      destruct (IH _ _ (Hnd' 0) H) as (ps & -> & Hall).
      exists ((u, 0) :: ps). split; [rewrite <- app_assoc; reflexivity|].
      constructor; [|exact Hall]. split; [reflexivity|].
      unfold payout_of. cbn. rewrite Hs. reflexivity.
Qed.

(** With distinct keys in the bet set, [payouts] lists one entry per bet, in
    the order of the bets. *)
Lemma basic_payouts_entries s bs payouts :
  NoDup (keys bs) ->
  basic_payouts s bs [] = Some payouts ->
  Forall2 (fun ub up => fst up = fst ub /\ payout_of s (snd ub) (snd up)) bs payouts.
Proof.
  intros Hnd H. destruct (basic_payouts_struct s bs [] payouts Hnd H) as (ps & -> & Hall).
  exact Hall.
Qed.

Lemma entries_keys s bs ps :
  Forall2 (fun ub up => fst up = fst ub /\ payout_of s (snd ub) (snd up)) bs ps ->
  keys ps = keys bs.
Proof.
  induction 1 as [|ub up bs ps [Hk _] _ IH]; cbn; [reflexivity|].
  rewrite Hk. f_equal. exact IH.
Qed.

Lemma entries_lookup s bs ps u b :
  Forall2 (fun ub up => fst up = fst ub /\ payout_of s (snd ub) (snd up)) bs ps ->
  NoDup (keys bs) -> In (u, b) bs ->
  exists p, In (u, p) ps /\ dict_get u ps = Some p /\ payout_of s b p.
Proof.
  intros Hall Hnd Hin.
  assert (Hndp : NoDup (keys ps)) by (rewrite (entries_keys _ _ _ Hall); exact Hnd).
  revert Hnd Hndp Hin.
  induction Hall as [|[u0 b0] [u1 p1] bs ps [Hk Hp] Hall IH]; intros Hnd Hndp Hin;
    [contradiction|].
  cbn in Hk, Hp. subst u1.
  destruct Hin as [Heq|Hin].
  - injection Heq as -> ->. exists p1. split; [left; reflexivity|]. split; [|exact Hp].
    cbn. rewrite Z.eqb_refl. reflexivity.
  - cbn in Hnd, Hndp. apply NoDup_cons in Hnd as [Hk Hnd].
    apply NoDup_cons in Hndp as [Hkp Hndp].
    destruct (IH Hnd Hndp Hin) as (p & Hinp & Hget & Hpay).
    exists p. split; [right; exact Hinp|]. split; [|exact Hpay].
    cbn. destruct (Z.eqb_spec u0 u) as [->|Hne]; [|exact Hget].
    exfalso. apply Hk, list_elem_of_In.
    change u with (fst (u, b)). apply in_map. exact Hin.
Qed.




(** ** Settlement: payouts and the pot *)

Lemma one_bet_resolves :
  close_betting_and_roll (constant_rng 3) 5 one_bet_open =
  (Return (Some one_bet_record), one_bet_resolved).
Proof. vm_compute. reflexivity. Qed.

Lemma three_bets_resolve :
  close_betting_and_roll (constant_rng 0) 5 three_bets_open =
  (Return (Some three_bets_record), three_bets_resolved).
Proof. vm_compute. reflexivity. Qed.

Lemma settled_pot d s bs payouts cut :
  pot (settled d s bs payouts cut) = pot d + total_stake (is_loser s) bs + cut.
Proof.
  unfold settled.
  pose proof (users_only_credit_payouts payouts
    (with_pot (fun p => p + cut)
       (with_pot (fun p => p + total_stake (is_loser s) bs)
          (with_round (set_status StClosed) d)))) as (_ & _ & _ & Hp & _).
  rewrite Hp. reflexivity.
Qed.

(** The two ways through the jackpot check. *)
Lemma jackpot_cases dice ws bs d dist dj :
  jackpot dice ws bs d = (Return dist, dj) ->
  (is_triple dice = true /\ ws <> [] /\ dist = pot d /\
   exists stakes dj0,
     stakes_of bs ws = Some stakes /\
     distribute (pot d) (Py.sum stakes) (Z.of_nat (length ws)) bs ws d = (Return tt, dj0) /\
     dj = with_pot (fun _ => 0) dj0) \/
  ((is_triple dice = false \/ ws = []) /\ dist = 0 /\ dj = d).
Proof.
  unfold jackpot. intros H.
  destruct (is_triple dice).
  2:{ right. injection H as <- <-. auto. }
  destruct ws as [|w ws].
  { right. injection H as <- <-. auto. }
  left. destruct (stakes_of bs (w :: ws)) as [stakes|]; [|discriminate].
  destruct (distribute (pot d) (Py.sum stakes) (Z.of_nat (length (w :: ws))) bs (w :: ws) d)
    as [[[]|] dj0] eqn:Hd; [|discriminate].
  injection H as <- <-.
  split; [reflexivity|]. split; [discriminate|]. split; [reflexivity|].
  exists stakes, dj0. auto.
Qed.


Lemma pot_contribution_eq s bs wp cut :
  profit_sum (PAY_MULTI - 1)%float s bs = Some wp ->
  round_mul wp 0.30 = Some cut ->
  pot_contribution s bs = Some (total_stake (is_loser s) bs + cut).
Proof.
  rewrite pay_multi_minus_one. unfold pot_contribution. intros -> ->. reflexivity.
Qed.



(** ** Settlement: balances *)

Lemma credit_payouts_account_notin u ps : forall d,
  ~ In u (keys ps) -> account u (credit_payouts ps d) = account u d.
Proof.
  unfold credit_payouts. induction ps as [|[v p] ps IH]; intros d Hn; cbn [fold_left];
    [reflexivity|].
  rewrite IH by (intros Hin; apply Hn; right; exact Hin).
  rewrite account_credit_one. destruct (decide (v = u)) as [->|_]; [|reflexivity].
  exfalso. apply Hn. left. reflexivity.
Qed.

(** The crediting loop adds a positive payout to its user's balance, once. *)
Lemma credit_payouts_balance u p ps : forall d,
  NoDup (keys ps) -> In (u, p) ps ->
  balance_of u (credit_payouts ps d) = balance_of u d + Z.max 0 p.
Proof.
  induction ps as [|[v q] ps IH]; intros d Hnd Hin; [contradiction|].
  cbn in Hnd. apply NoDup_cons in Hnd as [Hv Hnd].
  change (credit_payouts ((v, q) :: ps) d) with (credit_payouts ps (credit_one d (v, q))).
  destruct Hin as [Heq|Hin].
  - injection Heq as -> ->.
    rewrite !balance_of_account, credit_payouts_account_notin
      by (intros Hin; apply Hv, list_elem_of_In; exact Hin).
    rewrite account_credit_one. destruct (decide (u = u)) as [_|Hne]; [|contradiction].
    destruct (Z.ltb_spec 0 p); cbn; lia.
  - rewrite (IH _ Hnd Hin). rewrite !balance_of_account, account_credit_one.
    destruct (decide (v = u)) as [->|_]; [|reflexivity].
    exfalso. apply Hv, list_elem_of_In. change u with (fst (u, p)). apply in_map. exact Hin.
Qed.

Lemma distribute_account_notin pa total n bs u ws : forall d,
  ~ In u ws -> account u (snd (distribute pa total n bs ws d)) = account u d.
Proof.
  induction ws as [|w ws IH]; intros d Hn; cbn [distribute]; [reflexivity|].
  destruct (dict_get w bs) as [b|]; [|reflexivity].
  destruct (jackpot_share pa (amount b) total n) as [share|]; [|reflexivity].
  rewrite IH by (intros Hin; apply Hn; right; exact Hin).
  rewrite account_add_balance. destruct (decide (w = u)) as [->|_]; [|reflexivity].
  exfalso. apply Hn. left. reflexivity.
Qed.

(** The distribution loop adds to each winner the share of their own stake. *)
Lemma distribute_balance pa total n bs u ws : forall d d',
  distribute pa total n bs ws d = (Return tt, d') ->
  NoDup ws -> In u ws ->
  exists b share,
    dict_get u bs = Some b /\
    jackpot_share pa (amount b) total n = Some share /\
    balance_of u d' = balance_of u d + share.
Proof.
  induction ws as [|w ws IH]; intros d d' H Hnd Hin; [contradiction|].
  cbn [distribute] in H. apply NoDup_cons in Hnd as [Hw Hnd].
  destruct (dict_get w bs) as [b|] eqn:Hget; [|discriminate].
  destruct (jackpot_share pa (amount b) total n) as [share|] eqn:Hsh; [|discriminate].
  destruct Hin as [->|Hin].
  - exists b, share. split; [exact Hget|]. split; [exact Hsh|].
    pose proof (distribute_account_notin pa total n bs u ws (add_balance u share d)) as Hacc.
    rewrite H in Hacc. cbn [snd] in Hacc.
    rewrite !balance_of_account, Hacc by (intros Hin; apply Hw, list_elem_of_In; exact Hin).
    rewrite account_add_balance. destruct (decide (u = u)); [reflexivity | contradiction].
  - destruct (IH _ _ H Hnd Hin) as (b' & share' & Hg & Hs & Hbal).
    exists b', share'. split; [exact Hg|]. split; [exact Hs|].
    rewrite Hbal, !balance_of_account, account_add_balance.
    destruct (decide (w = u)) as [->|_]; [|reflexivity].
    exfalso. apply Hw, list_elem_of_In. exact Hin.
Qed.

Lemma stakes_of_sub bs l :
  NoDup (keys bs) -> (forall ub, In ub l -> In ub bs) ->
  stakes_of bs (List.map fst l) = Some (List.map (fun ub => amount (snd ub)) l).
Proof.
  intros Hnd. induction l as [|[u b] l IH]; intros Hsub; cbn; [reflexivity|].
  rewrite (dict_get_in u b bs Hnd) by (apply Hsub; left; reflexivity).
  rewrite IH by (intros ub Hin; apply Hsub; right; exact Hin). reflexivity.
Qed.

(** [total_winner_stakes] is the sum of the stakes on the resolved side. *)
Lemma stakes_of_winners s bs stakes :
  NoDup (keys bs) ->
  stakes_of bs (winners_of s bs) = Some stakes ->
  Py.sum stakes = total_stake (is_winner s) bs.
Proof.
  intros Hnd H. unfold winners_of in H.
  rewrite (stakes_of_sub bs (List.filter (is_winner s) bs) Hnd) in H.
  - injection H as <-. reflexivity.
  - intros ub Hin. apply filter_In in Hin as [Hin _]. exact Hin.
Qed.

Lemma winners_of_in s bs u b :
  In (u, b) bs -> bet_side b = s -> In u (winners_of s bs).
Proof.
  intros Hin Hs. unfold winners_of. change u with (fst (u, b)). apply in_map.
  apply filter_In. split; [exact Hin|]. unfold is_winner. cbn. apply side_eqb_eq. exact Hs.
Qed.

(** ** The jackpot *)

(** C3. After a resolved round whose dice are three 1s or three 6s and which
    has a winner, the pot is 0, the whole pot as it stood after the round's
    contribution is the amount distributed, and each winner is credited, on
    top of the basic payout, the share
    [int(round(pot * (stake / total_winner_stakes)))] of their own stake.  In
    every other resolved round (no triple, or a triple without winners) the
    pot keeps the value the settlement gave it, nothing is distributed, and
    balances receive the basic payouts only. *)
Theorem jackpot_drains_pot (g : rng) (now : Z) (d d' : data) (rec : hist_rec) :
  close_betting_and_roll g now d = (Return (Some rec), d') ->
  NoDup (keys (h_bets rec)) ->
  exists c,
    pot_contribution (h_side rec) (h_bets rec) = Some c /\
    (is_triple (h_dice rec) = true ->
     winners_of (h_side rec) (h_bets rec) <> [] ->
     pot d' = 0 /\
     h_pot_after rec = 0 /\
     h_distributed_from_pot rec = pot d + c /\
     forall u b, In (u, b) (h_bets rec) -> bet_side b = h_side rec ->
       exists pay share,
         dict_get u (h_payouts rec) = Some pay /\
         jackpot_share (pot d + c) (amount b)
           (total_stake (is_winner (h_side rec)) (h_bets rec))
           (Z.of_nat (length (winners_of (h_side rec) (h_bets rec)))) = Some share /\
         (0 < total_stake (is_winner (h_side rec)) (h_bets rec) ->
          exists q,
            Py.truediv (amount b) (total_stake (is_winner (h_side rec)) (h_bets rec)) = Some q /\
            round_mul (pot d + c) q = Some share) /\
         balance_of u d' = balance_of u d + Z.max 0 pay + share) /\
    (is_triple (h_dice rec) = false \/ winners_of (h_side rec) (h_bets rec) = [] ->
     pot d' = pot d + c /\
     h_pot_after rec = pot d + c /\
     h_distributed_from_pot rec = 0 /\
     forall u b, In (u, b) (h_bets rec) ->
       exists pay,
         dict_get u (h_payouts rec) = Some pay /\
         balance_of u d' = balance_of u d + Z.max 0 pay).
Proof.
  intros H Hnd.
  destruct (close_resolved_inv _ _ _ _ _ H)
    as (bs & payouts & wp & cut & dist & dj & Hst & Hbs & Hpay & Hwp & Hcut & Hj & Hrec & Hd').
  assert (Hb : h_bets rec = bs) by (rewrite Hrec; reflexivity).
  assert (Hp : h_payouts rec = payouts) by (rewrite Hrec; reflexivity).
  assert (Hpa : h_pot_after rec = pot dj) by (rewrite Hrec; reflexivity).
  assert (Hdist : h_distributed_from_pot rec = dist) by (rewrite Hrec; reflexivity).
  assert (Hpot' : pot d' = pot dj) by (rewrite Hd'; reflexivity).
  assert (Hbal' : forall u, balance_of u d' = balance_of u dj) by (intros u; rewrite Hd'; reflexivity).
  rewrite Hb in *. rewrite Hp, Hpa, Hdist, Hpot'.
  set (side := h_side rec) in *.
  pose proof (basic_payouts_entries _ _ _ Hnd Hpay) as Hall.
  assert (Hndp : NoDup (keys payouts)) by (rewrite (entries_keys _ _ _ Hall); exact Hnd).
  assert (Hcredit : forall u b, In (u, b) bs ->
            exists pay, dict_get u payouts = Some pay /\
              balance_of u (settled d side bs payouts cut) = balance_of u d + Z.max 0 pay).
  { intros u b Hin.
    destruct (entries_lookup _ _ _ u b Hall Hnd Hin) as (pay & Hinp & Hget & _).
    exists pay. split; [exact Hget|].
    unfold settled. rewrite (credit_payouts_balance u pay payouts _ Hndp Hinp). reflexivity. }
  pose proof (settled_pot d side bs payouts cut) as Hsp.
  exists (total_stake (is_loser side) bs + cut).
  split; [eapply pot_contribution_eq; eassumption|].
  destruct (jackpot_cases _ _ _ _ _ _ Hj)
    as [(Htr & Hws & -> & stakes & dj0 & Hstakes & Hdistr & ->) | (Hno & -> & ->)].
  - split.
    + intros _ _. split; [reflexivity|]. split; [reflexivity|]. split; [lia|].
      intros u b Hin Hside.
      destruct (Hcredit u b Hin) as (pay & Hget & Hbal).
      pose proof (stakes_of_winners side bs stakes Hnd Hstakes) as Htot.
      rewrite Htot in Hdistr.
      assert (Hndw : NoDup (winners_of side bs)) by (apply (keys_filter_NoDup _ _ Hnd)).
      destruct (distribute_balance _ _ _ _ u _ _ _ Hdistr Hndw (winners_of_in _ _ _ _ Hin Hside))
        as (b' & share & Hgetb & Hshare & Hbalj).
      rewrite (dict_get_in u b bs Hnd Hin) in Hgetb. injection Hgetb as <-.
      rewrite Hsp in Hshare.
      replace (pot d + total_stake (is_loser side) bs + cut)
        with (pot d + (total_stake (is_loser side) bs + cut)) in Hshare by lia.
      exists pay, share. split; [exact Hget|]. split; [exact Hshare|]. split.
      * intros Hpos. unfold jackpot_share in Hshare.
        apply Z.ltb_lt in Hpos. rewrite Hpos in Hshare.
        destruct (Py.truediv (amount b) (total_stake (is_winner side) bs)) as [q|];
          [|discriminate].
        exists q. split; [reflexivity | exact Hshare].
      * rewrite Hbal'. change (balance_of u (with_pot (fun _ => 0) dj0)) with (balance_of u dj0).
        rewrite Hbalj, Hbal. reflexivity.
    + intros [Hf | Hnil]; [congruence | contradiction].
  - split.
    + intros Htr Hws. destruct Hno as [Hf | Hnil]; [congruence | contradiction].
    + intros _. split; [lia|]. split; [lia|]. split; [reflexivity|].
      intros u b Hin. destruct (Hcredit u b Hin) as (pay & Hget & Hbal).
      exists pay. split; [exact Hget|]. rewrite Hbal'. exact Hbal.
Qed.

Lemma jackpot_drains_pot_witness :
  NoDup (keys (h_bets three_bets_record)) /\
  is_triple (h_dice three_bets_record) = true /\
  winners_of (h_side three_bets_record) (h_bets three_bets_record) <> [] /\
  pot three_bets_resolved = 0 /\
  h_distributed_from_pot three_bets_record = pot three_bets_open + 391 /\
  balance_of 8 three_bets_resolved = balance_of 8 three_bets_open + 591 + 117 /\
  balance_of 9 three_bets_resolved = balance_of 9 three_bets_open + 1379 + 274.
Proof.
  assert (Hnd : NoDup (keys (h_bets three_bets_record)))
    by (apply (bool_decide_unpack _); vm_compute; exact I).
  assert (Htr : is_triple (h_dice three_bets_record) = true) by reflexivity.
  assert (Hws : winners_of (h_side three_bets_record) (h_bets three_bets_record) <> [])
    by (vm_compute; discriminate).
  destruct (jackpot_drains_pot _ _ _ _ _ three_bets_resolve Hnd) as (c & Hc & Hjack & _).
  assert (c = 391) as -> by (vm_compute in Hc; congruence).
  destruct (Hjack Htr Hws) as (Hpot & _ & Hdist & Hshares).
  split; [exact Hnd|]. split; [exact Htr|]. split; [exact Hws|].
  split; [exact Hpot|]. split; [exact Hdist|]. split.
  - destruct (Hshares 8 {| bet_side := X; amount := 300 |}) as (pay & share & Hp & Hs & _ & Hb).
    { right. left. reflexivity. } { reflexivity. }
    vm_compute in Hp. vm_compute in Hs.
    assert (pay = 591) as -> by congruence. assert (share = 117) as -> by congruence.
    exact Hb.
  - destruct (Hshares 9 {| bet_side := X; amount := 700 |}) as (pay & share & Hp & Hs & _ & Hb).
    { right. right. left. reflexivity. } { reflexivity. }
    vm_compute in Hp. vm_compute in Hs.
    assert (pay = 1379) as -> by congruence. assert (share = 274) as -> by congruence.
    exact Hb.
Defined.

(** ** Money in a round *)



Lemma round_mul_zero m : m = 0.30%float -> round_mul 0 m = Some 0.
Proof. intros ->. reflexivity. Qed.



(** C8 fails on the code: in the round where user 7 staked 1000 on the
    winning side, the winner is credited the full 1970, nothing of the 30% cut
    being taken off it, and 291 is added to the pot besides: 2261 in all
    against a bound of 1970.  With the cut taken off the payout, as the
    module docstring has it, the two would add up to 1970. *)
Theorem conservation_bound_fails :
  close_betting_and_roll (constant_rng 3) 5 one_bet_open =
    (Return (Some one_bet_record), one_bet_resolved) /\
  all_stakes (h_bets one_bet_record) = 1000 /\
  paid_out one_bet_record = 1970 /\
  balance_of 7 one_bet_resolved = balance_of 7 one_bet_open + 1970 /\
  pot_fed one_bet_record = 291 /\
  pot one_bet_resolved = pot one_bet_open + 291 /\
  ~ (100 * (paid_out one_bet_record + pot_fed one_bet_record)
     <= 197 * all_stakes (h_bets one_bet_record)) /\
  100 * ((paid_out one_bet_record - pot_fed one_bet_record) + pot_fed one_bet_record)
    <= 197 * all_stakes (h_bets one_bet_record).
Proof.
  split; [exact one_bet_resolves|].
  repeat (split; [vm_compute; reflexivity|]).
  split; vm_compute; [intros H; apply H; reflexivity | discriminate].
Qed.

(** ** Placing bets *)

Lemma bets_ensure_user u d : bets (ensure_user u d) = bets d.
Proof. apply users_only_ensure_user. Qed.

Lemma round_ensure_user u d : round (ensure_user u d) = round d.
Proof. apply users_only_ensure_user. Qed.

Lemma bets_sub_balance u a d : bets (sub_balance u a d) = bets d.
Proof. apply users_only_sub_balance. Qed.

Lemma round_sub_balance u a d : round (sub_balance u a d) = round d.
Proof. apply users_only_sub_balance. Qed.

Create Rewrite HintDb frame.

#[local] Hint Rewrite bets_ensure_user round_ensure_user bets_sub_balance
  round_sub_balance : frame.

Lemma all_stakes_dict_set u b bs :
  all_stakes (dict_set u b bs) = all_stakes bs + amount b - recorded_stake u bs.
Proof.
  unfold all_stakes, total_stake, recorded_stake.
  induction bs as [|[k v] bs IH]; cbn; [lia|].
  destruct (k =? u); cbn; [lia|]. unfold Py.sum in *. lia.
Qed.

(** An accepted bet debits its stake and replaces the user's recorded stake:
    the stake of an earlier bet by the same user in the round leaves the
    record without being returned. *)
Lemma accepted_bet_accounting uid sd amt d rid bal d' :
  handle_bet_command uid sd amt d = (Accepted rid bal, d') ->
  balance_of uid d - balance_of uid d' = amt /\
  all_stakes (current_bets d') =
    all_stakes (current_bets d) + amt - recorded_stake uid (current_bets d).
Proof.
  unfold handle_bet_command.
  destruct (negb (status_eqb (status (round d)) StOpen)); [discriminate|].
  unfold get_balance.
  repeat match goal with
         | |- context [if ?c then _ else _] => destruct c; [discriminate|]
         end.
  intros H. injection H as _ _ <-.
  split.
  - rewrite !balance_of_account, !account_ensure_user.
    change (account uid (with_bets ?f ?x)) with (account uid x).
    rewrite account_sub_balance, !account_ensure_user.
    destruct (decide (uid = uid)); [cbn; lia | contradiction].
  - unfold current_bets.
    autorewrite with frame. cbn [bets round with_bets].
    autorewrite with frame.
    rewrite lookup_insert_eq. cbn [default].
    apply all_stakes_dict_set.
Qed.

(** A user's first bet in a round is debited and recorded alike. *)
Lemma first_bet_accounting uid sd amt d rid bal d' :
  handle_bet_command uid sd amt d = (Accepted rid bal, d') ->
  dict_get uid (current_bets d) = None ->
  all_stakes (current_bets d') - all_stakes (current_bets d) =
  balance_of uid d - balance_of uid d'.
Proof.
  intros H Hnone. destruct (accepted_bet_accounting _ _ _ _ _ _ _ H) as (Hdebit & Hrec).
  unfold recorded_stake in Hrec. rewrite Hnone in Hrec. lia.
Qed.

(** C1 fails on the code at a second bet by the same user: both bets are
    accepted, 300 is debited, and the bet set of the round, also at
    resolution time, records 200. *)
Theorem second_bet_loses_first_stake :
  let r1 := handle_bet_command 7 T 100 funded_open in
  let r2 := handle_bet_command 7 X 200 (snd r1) in
  fst r1 = Accepted 1 900 /\
  fst r2 = Accepted 1 700 /\
  balance_of 7 funded_open - balance_of 7 (snd r2) = 300 /\
  current_bets (snd r2) = [(7, {| bet_side := X; amount := 200 |})] /\
  all_stakes (current_bets (snd r2)) = 200 /\
  exists rec,
    fst (close_betting_and_roll (constant_rng 3) 5 (snd r2)) = Return (Some rec) /\
    all_stakes (h_bets rec) = 200.
Proof.
  cbn zeta. repeat (split; [vm_compute; reflexivity|]).
  eexists. split; vm_compute; reflexivity.
Qed.

(** ** Debits *)

(** The betting path does check: a stake above the balance is never accepted,
    and a refused bet leaves the balance as it was. *)
Lemma bet_above_balance_refused uid sd amt d :
  balance_of uid d < amt ->
  forall rid bal, fst (handle_bet_command uid sd amt d) <> Accepted rid bal.
Proof.
  intros Hlt rid bal. unfold handle_bet_command.
  destruct (negb (status_eqb (status (round d)) StOpen)); [discriminate|].
  unfold get_balance.
  rewrite ensure_user_lookup, !account_ensure_user, <- balance_of_account.
  destruct (_ && _); [discriminate|].
  destruct (amt <=? 0); [discriminate|].
  destruct (Z.ltb_spec (balance_of uid d) amt); [discriminate | lia].
Qed.

Lemma refused_bet_keeps_balance uid sd amt d u :
  (forall rid bal, fst (handle_bet_command uid sd amt d) <> Accepted rid bal) ->
  balance_of u (snd (handle_bet_command uid sd amt d)) = balance_of u d.
Proof.
  unfold handle_bet_command.
  destruct (negb (status_eqb (status (round d)) StOpen)); [reflexivity|].
  unfold get_balance. intros H.
  repeat match goal with
         | |- context [if ?c then _ else _] =>
             destruct c;
             [cbn [snd]; rewrite !balance_of_account, !account_ensure_user; reflexivity|]
         end.
  exfalso. cbn [fst] in H. eapply H. reflexivity.
Qed.

(** So does the filing of a withdraw request. *)
Lemma withdraw_above_balance_not_filed uid amt now_ms now d :
  balance_of uid d < amt ->
  fst (withdraw_cmd uid amt now_ms now d) = false.
Proof.
  intros Hlt. unfold withdraw_cmd. destruct (amt <? 100000); [reflexivity|].
  unfold get_balance. rewrite ensure_user_lookup, <- balance_of_account.
  destruct (Z.ltb_spec (balance_of uid d) amt); [reflexivity | lia].
Qed.

(** C5 fails on the code: [sub_balance] subtracts without a check, and the
    approval of a withdraw request calls it without one.  Two requests filed
    against the same 100000 are both approved and leave the balance at
    -100000. *)
Theorem approved_withdrawals_overdraw :
  balance_of 7 (sub_balance 7 5 default_data) = -5 /\
  balance_of 7 two_withdrawals_pending = 100000 /\
  List.map req_status (withdraw_requests two_withdrawals_pending) = [Pending; Pending] /\
  balance_of 7 (run [1] 60 [OpCallback 1 (approve_withdraw 1001);
                            OpCallback 1 (approve_withdraw 1002)]
                  two_withdrawals_pending) = -100000.
Proof. repeat split; vm_compute; reflexivity. Qed.

(** ** Admin decisions *)

Lemma decide_first_find rid st admin l :
  fst (decide_first rid st admin l) = find_request rid l.
Proof.
  unfold find_request. induction l as [|r l IH]; cbn; [reflexivity|].
  destruct (req_id r =? rid); [reflexivity|].
  destruct (decide_first rid st admin l) as [found l']. exact IH.
Qed.

Lemma find_after_decide rid st admin l :
  find_request rid (snd (decide_first rid st admin l)) =
  option_map (decided st admin) (find_request rid l).
Proof.
  unfold find_request. induction l as [|r l IH]; cbn; [reflexivity|].
  destruct (req_id r =? rid) eqn:Hid.
  - cbn. rewrite Hid. reflexivity.
  - destruct (decide_first rid st admin l) as [found l']. cbn in *. rewrite Hid. exact IH.
Qed.

Lemma deposit_requests_add_balance u a d :
  deposit_requests (add_balance u a d) = deposit_requests d.
Proof. apply users_only_add_balance. Qed.

Lemma withdraw_requests_sub_balance u a d :
  withdraw_requests (sub_balance u a d) = withdraw_requests d.
Proof. apply users_only_sub_balance. Qed.

Lemma approve_deposit_effect ADMINS sender rid d r :
  is_admin ADMINS sender = true ->
  find_request rid (deposit_requests d) = Some r ->
  let d1 := callback_query_handler ADMINS sender (approve_deposit rid) d in
  find_request rid (deposit_requests d1) = Some (decided Approved sender r) /\
  balance_of (user_id r) d1 = balance_of (user_id r) d + req_amount r.
Proof.
  intros Hadm Hfind. cbn zeta. unfold callback_query_handler. rewrite Hadm. cbn [negb].
  pose proof (decide_first_find rid Approved sender (deposit_requests d)) as Hf.
  pose proof (find_after_decide rid Approved sender (deposit_requests d)) as Ha.
  destruct (decide_first rid Approved sender (deposit_requests d)) as [found l].
  cbn [fst snd] in *. rewrite Hfind in Hf, Ha. subst found. split.
  - rewrite deposit_requests_add_balance. exact Ha.
  - rewrite !balance_of_account, account_add_balance.
    destruct (decide (user_id r = user_id r)); [reflexivity | contradiction].
Qed.

Lemma approve_withdraw_effect ADMINS sender rid d r :
  is_admin ADMINS sender = true ->
  find_request rid (withdraw_requests d) = Some r ->
  let d1 := callback_query_handler ADMINS sender (approve_withdraw rid) d in
  find_request rid (withdraw_requests d1) = Some (decided Approved sender r) /\
  balance_of (user_id r) d1 = balance_of (user_id r) d - req_amount r.
Proof.
  intros Hadm Hfind. cbn zeta. unfold callback_query_handler. rewrite Hadm. cbn [negb].
  pose proof (decide_first_find rid Approved sender (withdraw_requests d)) as Hf.
  pose proof (find_after_decide rid Approved sender (withdraw_requests d)) as Ha.
  destruct (decide_first rid Approved sender (withdraw_requests d)) as [found l].
  cbn [fst snd] in *. rewrite Hfind in Hf, Ha. subst found. split.
  - rewrite withdraw_requests_sub_balance. exact Ha.
  - rewrite !balance_of_account, account_sub_balance.
    destruct (decide (user_id r = user_id r)); [reflexivity | contradiction].
Qed.

(** C6 (amended). An admin decision is applied each time it is made: the
    handler looks a request up by id and never reads its status.  Approving
    a deposit (withdraw) request that is found credits (debits) its amount,
    whatever state the request is in, and leaves it in place to be decided
    again; approving it twice credits (debits) the amount twice. *)
Theorem decision_applied_every_time (ADMINS : list Z) (sender rid : Z) (d : data) (r : request) :
  is_admin ADMINS sender = true ->
  (find_request rid (deposit_requests d) = Some r ->
   let d1 := callback_query_handler ADMINS sender (approve_deposit rid) d in
   let d2 := callback_query_handler ADMINS sender (approve_deposit rid) d1 in
   find_request rid (deposit_requests d1) = Some (decided Approved sender r) /\
   balance_of (user_id r) d1 = balance_of (user_id r) d + req_amount r /\
   balance_of (user_id r) d2 = balance_of (user_id r) d + 2 * req_amount r) /\
  (find_request rid (withdraw_requests d) = Some r ->
   let d1 := callback_query_handler ADMINS sender (approve_withdraw rid) d in
   let d2 := callback_query_handler ADMINS sender (approve_withdraw rid) d1 in
   find_request rid (withdraw_requests d1) = Some (decided Approved sender r) /\
   balance_of (user_id r) d1 = balance_of (user_id r) d - req_amount r /\
   balance_of (user_id r) d2 = balance_of (user_id r) d - 2 * req_amount r).
Proof.
  intros Hadm. split; intros Hfind; cbn zeta.
  - destruct (approve_deposit_effect ADMINS sender rid d r Hadm Hfind) as (Hf1 & Hb1).
    destruct (approve_deposit_effect ADMINS sender rid _ _ Hadm Hf1) as (_ & Hb2).
    cbn [user_id req_amount decided] in Hb2.
    split; [exact Hf1|]. split; [exact Hb1|]. rewrite Hb2, Hb1. lia.
  - destruct (approve_withdraw_effect ADMINS sender rid d r Hadm Hfind) as (Hf1 & Hb1).
    destruct (approve_withdraw_effect ADMINS sender rid _ _ Hadm Hf1) as (_ & Hb2).
    cbn [user_id req_amount decided] in Hb2.
    split; [exact Hf1|]. split; [exact Hb1|]. rewrite Hb2, Hb1. lia.
Qed.

Lemma decision_applied_every_time_witness :
  is_admin [1] 1 = true /\
  find_request 1001 (deposit_requests deposit_pending) = Some (new_request 1001 7 500 1) /\
  balance_of 7 (run [1] 60 [OpCallback 1 (approve_deposit 1001);
                            OpCallback 1 (approve_deposit 1001)] deposit_pending)
  = balance_of 7 deposit_pending + 2 * 500 /\
  find_request 1001 (withdraw_requests two_withdrawals_pending)
  = Some (new_request 1001 7 100000 1) /\
  balance_of 7 (run [1] 60 [OpCallback 1 (approve_withdraw 1001);
                            OpCallback 1 (approve_withdraw 1001)] two_withdrawals_pending)
  = balance_of 7 two_withdrawals_pending - 2 * 100000.
Proof.
  assert (Hadm : is_admin [1] 1 = true) by reflexivity.
  assert (Hdep : find_request 1001 (deposit_requests deposit_pending)
                 = Some (new_request 1001 7 500 1)) by reflexivity.
  assert (Hwd : find_request 1001 (withdraw_requests two_withdrawals_pending)
                = Some (new_request 1001 7 100000 1)) by reflexivity.
  split; [exact Hadm|]. split; [exact Hdep|]. split; [|split; [exact Hwd|]].
  - exact (proj2 (proj2 (proj1
      (decision_applied_every_time [1] 1 1001 deposit_pending _ Hadm) Hdep))).
  - exact (proj2 (proj2 (proj2
      (decision_applied_every_time [1] 1 1001 two_withdrawals_pending _ Hadm) Hwd))).
Defined.

(** C6 as stated fails: request 1001 is approved, and approving it again is
    not rejected but credits user 7 a second time. *)
Lemma second_approval_credits_again :
  let d1 := callback_query_handler [1] 1 (approve_deposit 1001) deposit_pending in
  let d2 := callback_query_handler [1] 1 (approve_deposit 1001) d1 in
  List.map req_status (deposit_requests d1) = [Approved] /\
  balance_of 7 d1 = 500 /\
  balance_of 7 d2 = 1000 /\
  d2 <> d1.
Proof.
  cbn zeta. repeat (split; [vm_compute; reflexivity|]).
  intros H. apply (f_equal (balance_of 7)) in H. vm_compute in H. discriminate.
Qed.

(** ** Bet sets are dictionaries

    The statements above about a resolved round ask that no user id occurs
    twice in its bet set.  That holds in every state the program reaches. *)

Lemma keys_dict_set {V} k (v : V) d :
  keys (dict_set k v d) = if bool_decide (k ∈ keys d) then keys d else keys d ++ [k].
Proof.
  induction d as [|[k' v'] d IH]; cbn; [reflexivity|].
  destruct (Z.eqb_spec k' k) as [->|Hne]; cbn.
  - rewrite bool_decide_eq_true_2 by (left). reflexivity.
  - change (map fst (dict_set k v d)) with (keys (dict_set k v d)).
    change (map fst d) with (keys d).
    rewrite IH. destruct (bool_decide (k ∈ keys d)) eqn:Hk.
    + apply bool_decide_eq_true_1 in Hk.
      rewrite bool_decide_eq_true_2 by (right; exact Hk). reflexivity.
    + apply bool_decide_eq_false_1 in Hk.
      rewrite bool_decide_eq_false_2; [reflexivity|].
      intros Hin. apply elem_of_cons in Hin as [->|Hin]; [congruence | contradiction].
Qed.

Lemma dict_set_NoDup {V} k (v : V) d : NoDup (keys d) -> NoDup (keys (dict_set k v d)).
Proof.
  intros Hnd. rewrite keys_dict_set.
  destruct (bool_decide (k ∈ keys d)) eqn:Hk; [exact Hnd|].
  apply bool_decide_eq_false_1 in Hk.
  apply NoDup_app. split; [exact Hnd|]. split; [|apply NoDup_singleton].
  intros x Hx Hx'. apply list_elem_of_singleton in Hx'. subst x. contradiction.
Qed.

Lemma wf_bets_same d d' : bets d' = bets d -> wf_bets d -> wf_bets d'.
Proof. unfold wf_bets. intros ->. auto. Qed.

Lemma wf_bets_users_only d d' : users_only d d' -> wf_bets d -> wf_bets d'.
Proof. intros (Hb & _). apply wf_bets_same. exact Hb. Qed.

Lemma wf_bets_insert rid bs d :
  NoDup (keys bs) -> wf_bets d -> wf_bets (with_bets (insert rid bs) d).
Proof.
  unfold wf_bets. intros Hnd Hwf rid' bs'. cbn.
  rewrite lookup_insert. destruct (decide (rid = rid')).
  - intros [= <-]. exact Hnd.
  - apply Hwf.
Qed.

Lemma wf_bets_delete rid d : wf_bets d -> wf_bets (with_bets (delete rid) d).
Proof.
  unfold wf_bets. intros Hwf rid' bs'. cbn.
  rewrite lookup_delete. destruct (decide (rid = rid')); [discriminate | apply Hwf].
Qed.

Lemma wf_bets_open_new_round ROLL_INTERVAL now d :
  wf_bets d -> wf_bets (snd (open_new_round ROLL_INTERVAL now d)).
Proof.
  intros Hwf. unfold open_new_round. cbn [snd].
  apply wf_bets_insert; [constructor|]. exact Hwf.
Qed.

Lemma wf_bets_handle_bet uid sd amt d :
  wf_bets d -> wf_bets (snd (handle_bet_command uid sd amt d)).
Proof.
  intros Hwf. unfold handle_bet_command.
  destruct (negb (status_eqb (status (round d)) StOpen)); [exact Hwf|].
  unfold get_balance.
  assert (Hwf2 : wf_bets (ensure_user uid (ensure_user uid d))).
  { eapply wf_bets_users_only; [apply users_only_ensure_user|].
    eapply wf_bets_users_only; [apply users_only_ensure_user | exact Hwf]. }
  repeat match goal with
         | |- context [if ?c then _ else _] => destruct c; [exact Hwf2|]
         end.
  cbn [snd].
  eapply wf_bets_users_only; [apply users_only_ensure_user|].
  assert (Hwf3 : wf_bets (sub_balance uid amt (ensure_user uid (ensure_user uid d)))).
  { eapply wf_bets_users_only; [apply users_only_sub_balance | exact Hwf2]. }
  apply wf_bets_insert; [|exact Hwf3].
  apply dict_set_NoDup.
  destruct (bets _ !! round_id (round d)) as [bs|] eqn:Hbs; cbn [default].
  - exact (Hwf3 _ _ Hbs).
  - constructor.
Qed.

Lemma close_bets g now d :
  bets (snd (close_betting_and_roll g now d)) = bets d \/
  bets (snd (close_betting_and_roll g now d)) = delete (round_id (round d)) (bets d).
Proof.
  unfold close_betting_and_roll.
  destruct (negb (status_eqb (status (round d)) StOpen)); [left; reflexivity|].
  destruct (roll_dice (round (with_round (set_status StClosed) d)) g) as [dice g'].
  change (bets (with_round (set_status StClosed) d)) with (bets d).
  set (side := side_of_total (Py.sum dice)).
  set (bs0 := default [] (bets d !! round_id (round d))).
  destruct (basic_payouts side bs0 []) as [payouts|]; [|left; reflexivity].
  destruct (profit_sum (PAY_MULTI - 1)%float side bs0) as [wp|]; [|left; reflexivity].
  destruct (round_mul wp 0.30) as [cut|]; [|left; reflexivity].
  fold (settled d side bs0 payouts cut).
  pose proof (jackpot_frame dice (winners_of side bs0) bs0 (settled d side bs0 payouts cut))
    as (Hb & _ & _).
  assert (Hs : bets (settled d side bs0 payouts cut) = bets d).
  { unfold settled.
    pose proof (users_only_credit_payouts payouts
      (with_pot (fun p => p + cut)
         (with_pot (fun p => p + total_stake (is_loser side) bs0)
            (with_round (set_status StClosed) d)))) as (Hb' & _).
    rewrite Hb'. reflexivity. }
  rewrite Hs in Hb.
  destruct (jackpot dice (winners_of side bs0) bs0 (settled d side bs0 payouts cut))
    as [[dist|] dj]; cbn [snd] in *; [|left; exact Hb].
  destruct (bets dj !! round_id (round d)); cbn [snd]; [|left; exact Hb].
  right. cbn. rewrite Hb. reflexivity.
Qed.

Lemma wf_bets_close g now d :
  wf_bets d -> wf_bets (snd (close_betting_and_roll g now d)).
Proof.
  intros Hwf. destruct (close_bets g now d) as [Hb | Hb].
  - eapply wf_bets_same; eassumption.
  - unfold wf_bets. rewrite Hb. intros rid bs.
    rewrite lookup_delete. destruct (decide _); [discriminate | apply Hwf].
Qed.

Lemma wf_bets_callback ADMINS sender cb d :
  wf_bets d -> wf_bets (callback_query_handler ADMINS sender cb d).
Proof.
  intros Hwf. unfold callback_query_handler.
  destruct (negb (is_admin ADMINS sender)); [exact Hwf|].
  destruct cb as [rid|rid|rid|rid|val|]; try exact Hwf.
  - destruct (decide_first rid Approved sender (deposit_requests d)) as [[r|] l];
      [|exact Hwf].
    eapply wf_bets_users_only; [apply users_only_add_balance | exact Hwf].
  - destruct (decide_first rid Denied sender (deposit_requests d)) as [[r|] l]; exact Hwf.
  - destruct (decide_first rid Approved sender (withdraw_requests d)) as [[r|] l];
      [|exact Hwf].
    eapply wf_bets_users_only; [apply users_only_sub_balance | exact Hwf].
  - destruct (decide_first rid Denied sender (withdraw_requests d)) as [[r|] l]; exact Hwf.
Qed.

Lemma wf_bets_step ADMINS ROLL_INTERVAL o d :
  wf_bets d -> wf_bets (step ADMINS ROLL_INTERVAL o d).
Proof.
  intros Hwf. destruct o; cbn [step].
  - unfold start_cmd, give_first_bonus_if_needed.
    rewrite ensure_user_lookup.
    assert (Hwf2 : wf_bets (ensure_user uid (ensure_user uid d))).
    { eapply wf_bets_users_only; [apply users_only_ensure_user|].
      eapply wf_bets_users_only; [apply users_only_ensure_user | exact Hwf]. }
    destruct (negb _); cbn [snd]; exact Hwf2.
  - unfold balance_cmd, get_balance. cbn [snd].
    eapply wf_bets_users_only; [apply users_only_ensure_user|].
    eapply wf_bets_users_only; [apply users_only_ensure_user | exact Hwf].
  - apply wf_bets_handle_bet. exact Hwf.
  - unfold open_bet_cmd. destruct (negb (is_admin ADMINS sender)); [exact Hwf|].
    apply (wf_bets_open_new_round ROLL_INTERVAL now d Hwf).
  - exact Hwf.
  - unfold withdraw_cmd. destruct (amt <? 100000); [exact Hwf|].
    unfold get_balance.
    assert (Hwf1 : wf_bets (ensure_user uid d))
      by (eapply wf_bets_users_only; [apply users_only_ensure_user | exact Hwf]).
    destruct (_ <? amt); cbn [snd]; exact Hwf1.
  - apply wf_bets_callback. exact Hwf.
  - unfold admin_setnext. destruct (negb (is_admin ADMINS sender)); [exact Hwf|].
    destruct val as [[]|]; exact Hwf.
  - unfold admin_setbias. destruct (negb (is_admin ADMINS sender)); [exact Hwf|].
    destruct (_ || _); exact Hwf.
  - unfold admin_credit. destruct (negb (is_admin ADMINS sender)); [exact Hwf|].
    eapply wf_bets_users_only; [apply users_only_add_balance | exact Hwf].
  - unfold scheduler_open. destruct (status_eqb _ _); [|exact Hwf].
    apply (wf_bets_open_new_round ROLL_INTERVAL now d Hwf).
  - apply wf_bets_close. exact Hwf.
Qed.

(** Every state reached from the initial one keeps its bet sets dictionaries. *)
Lemma wf_bets_run ADMINS ROLL_INTERVAL ops :
  wf_bets (run ADMINS ROLL_INTERVAL ops default_data).
Proof.
  unfold run.
  assert (H0 : wf_bets default_data).
  { intros rid bs H. cbn in H. rewrite lookup_empty in H. discriminate. }
  revert H0. generalize default_data.
  induction ops as [|o ops IH]; intros d Hwf; cbn [fold_left]; [exact Hwf|].
  apply IH, wf_bets_step, Hwf.
Qed.

(** So the record of a round resolved in a reachable state has distinct keys. *)
Lemma resolved_record_keys g now d d' rec :
  wf_bets d ->
  close_betting_and_roll g now d = (Return (Some rec), d') ->
  NoDup (keys (h_bets rec)).
Proof.
  intros Hwf H.
  destruct (close_resolved_inv _ _ _ _ _ H)
    as (bs & payouts & wp & cut & dist & dj & _ & Hbs & _ & _ & _ & _ & Hrec & _).
  assert (Hb : h_bets rec = bs) by (rewrite Hrec; reflexivity).
  rewrite Hb. exact (Hwf _ _ Hbs).
Qed.

(** * Further properties of the code *)

(** ** The first bonus *)

Lemma users_lookup_update_ensured f u d :
  users (update_user f u (ensure_user u d)) !! u = Some (f (account u d)).
Proof.
  unfold update_user. cbn [users with_users].
  rewrite lookup_alter_eq, ensure_user_lookup. reflexivity.
Qed.

Lemma ensure_user_present u d i : users d !! u = Some i -> ensure_user u d = d.
Proof. intros H. unfold ensure_user. rewrite H. reflexivity. Qed.

Lemma ensure_user_idem u d : ensure_user u (ensure_user u d) = ensure_user u d.
Proof. eapply ensure_user_present, ensure_user_lookup. Qed.

(** [/start] read as one conditional on the bonus flag of the sender. *)
Lemma start_cmd_cases u d :
  start_cmd u d =
  if negb (first_bonus_given (account u d)) then
    (true, update_user (set_first_bonus_given true) u
             (update_user (fun i => set_balance (balance i + INITIAL_BONUS) i) u
                (ensure_user u d)))
  else (false, ensure_user u d).
Proof.
  unfold start_cmd, give_first_bonus_if_needed.
  rewrite !ensure_user_idem, ensure_user_lookup. reflexivity.
Qed.

Lemma balance_start_self u d :
  balance_of u (snd (start_cmd u d)) =
  balance_of u d + (if first_bonus_given (account u d) then 0 else INITIAL_BONUS).
Proof.
  rewrite start_cmd_cases, !balance_of_account.
  destruct (first_bonus_given (account u d)); cbn [negb snd].
  - rewrite account_ensure_user. lia.
  - erewrite account_update_user_eq by apply users_lookup_update_ensured.
    reflexivity.
Qed.

(** X1. [/start] grants the bonus of 10000 to a user who has not had it and
    reports so; a user who has had it gets nothing.  After any [/start] a
    further [/start] by the same user reports no bonus and changes nothing. *)
Theorem start_grants_bonus_once (u : Z) (d : data) :
  fst (start_cmd u d) = negb (first_bonus_given (account u d)) /\
  balance_of u (snd (start_cmd u d)) =
    balance_of u d + (if first_bonus_given (account u d) then 0 else INITIAL_BONUS) /\
  first_bonus_given (account u (snd (start_cmd u d))) = true /\
  start_cmd u (snd (start_cmd u d)) = (false, snd (start_cmd u d)).
Proof.
  pose proof (start_cmd_cases u) as Hstep.
  assert (Hgiven : first_bonus_given (account u (snd (start_cmd u d))) = true).
  { rewrite Hstep. destruct (first_bonus_given (account u d)) eqn:Hb; cbn [negb snd].
    - rewrite account_ensure_user. exact Hb.
    - erewrite account_update_user_eq; [reflexivity|].
      apply users_lookup_update_ensured. }
  assert (Hpresent : exists i, users (snd (start_cmd u d)) !! u = Some i).
  { rewrite Hstep. destruct (negb (first_bonus_given (account u d))); cbn [snd].
    - eexists. unfold update_user at 1. cbn [users with_users].
      rewrite lookup_alter_eq, users_lookup_update_ensured. reflexivity.
    - eexists. apply ensure_user_lookup. }
  split; [|split; [|split]].
  - rewrite Hstep. destruct (negb (first_bonus_given (account u d))); reflexivity.
  - apply balance_start_self.
  - exact Hgiven.
  - destruct Hpresent as (i & Hi).
    rewrite (Hstep (snd (start_cmd u d))), Hgiven. cbn [negb].
    rewrite (ensure_user_present _ _ _ Hi). reflexivity.
Qed.

(** ** Placing bets: refusals and acceptance *)

Lemma dict_get_set {V} k k' (v : V) d :
  dict_get k' (dict_set k v d) = if k =? k' then Some v else dict_get k' d.
Proof.
  induction d as [|[k0 v0] d IH]; cbn.
  - destruct (k =? k'); reflexivity.
  - destruct (Z.eqb_spec k0 k) as [->|Hne]; cbn.
    + destruct (Z.eqb_spec k k'); reflexivity.
    + rewrite IH. destruct (Z.eqb_spec k0 k') as [->|Hne'].
      * destruct (Z.eqb_spec k k'); [congruence | reflexivity].
      * reflexivity.
Qed.

(** X2. A bet is taken only while a round is open: in any other state the
    handler answers that betting is closed and changes nothing.  This is the
    case after every call of [close_betting_and_roll], whatever it did. *)
Theorem bet_needs_open_round (uid : Z) (sd : side) (amt : Z) (d : data) :
  (status (round d) <> StOpen ->
   handle_bet_command uid sd amt d = (BettingClosed, d)) /\
  (forall g now,
     handle_bet_command uid sd amt (snd (close_betting_and_roll g now d)) =
     (BettingClosed, snd (close_betting_and_roll g now d))).
Proof.
  assert (H : forall d0, status (round d0) <> StOpen ->
            handle_bet_command uid sd amt d0 = (BettingClosed, d0)).
  { intros d0 Hst. unfold handle_bet_command.
    destruct (status (round d0)); try reflexivity. congruence. }
  split; [apply H|]. intros g now. apply H, close_leaves_not_open.
Qed.

Lemma bet_needs_open_round_witness :
  handle_bet_command 7 T 100 default_data = (BettingClosed, default_data) /\
  handle_bet_command 7 T 100 one_bet_resolved = (BettingClosed, one_bet_resolved).
Proof.
  split.
  - apply (proj1 (bet_needs_open_round 7 T 100 default_data)). discriminate.
  - exact (proj2 (bet_needs_open_round 7 T 100 one_bet_open) (constant_rng 3) 5).
Defined.

(** The one path through [handle_bet_command] that ends in an acceptance. *)
Lemma accepted_bet_inv uid sd amt d d' rid bal :
  handle_bet_command uid sd amt d = (Accepted rid bal, d') ->
  status (round d) = StOpen /\
  0 < amt <= balance (account uid d) /\
  rid = round_id (round d) /\
  bal = balance_of uid d' /\
  d' = ensure_user uid
         (with_bets (insert (round_id (round d))
            (dict_set uid {| bet_side := sd; amount := amt |}
               (default [] (bets (sub_balance uid amt (ensure_user uid d))
                              !! round_id (round d)))))
            (sub_balance uid amt (ensure_user uid d))).
Proof.
  unfold handle_bet_command, get_balance. cbv beta iota zeta.
  destruct (status_eqb (status (round d)) StOpen) eqn:Hst; cbn [negb]; [|discriminate].
  rewrite !ensure_user_idem, ensure_user_lookup.
  destruct (_ && _); [discriminate|].
  destruct (Z.leb_spec amt 0) as [|Hpos]; [discriminate|].
  destruct (Z.ltb_spec (balance (account uid d)) amt) as [|Hle]; [discriminate|].
  intros H. injection H as <- <- <-.
  split. { destruct (status (round d)); simpl in Hst; congruence. }
  split; [lia|]. repeat split.
Qed.

(** X3. An accepted bet was placed in an open round, for that round, with a
    stake that is positive and within the balance; the reply carries the new
    balance, which is the old one less the stake; the bet set of the round
    then holds exactly this bet for the user; nobody else's account or
    recorded bet, and not the pot, is touched. *)
Theorem accepted_bet_effect (uid : Z) (sd : side) (amt : Z) (d d' : data) (rid bal : Z) :
  handle_bet_command uid sd amt d = (Accepted rid bal, d') ->
  status (round d) = StOpen /\
  rid = round_id (round d) /\
  0 < amt <= balance_of uid d /\
  bal = balance_of uid d - amt /\
  balance_of uid d' = bal /\
  dict_get uid (current_bets d') = Some {| bet_side := sd; amount := amt |} /\
  (forall v, v <> uid ->
     account v d' = account v d /\
     dict_get v (current_bets d') = dict_get v (current_bets d)) /\
  pot d' = pot d /\ round d' = round d /\ history d' = history d.
Proof.
  intros H.
  destruct (accepted_bet_inv _ _ _ _ _ _ _ H) as (Hopen & Hamt & -> & -> & ->).
  clear H.
  set (d3 := sub_balance uid amt (ensure_user uid d)).
  set (d4 := with_bets (insert (round_id (round d))
               (dict_set uid {| bet_side := sd; amount := amt |}
                  (default [] (bets d3 !! round_id (round d))))) d3).
  assert (Hacc : forall v, account v (ensure_user uid d4)
            = if decide (uid = v)
              then set_balance (balance (account v d) - amt) (account v d)
              else account v d).
  { intros v. rewrite account_ensure_user.
    change (account v d4) with (account v d3).
    unfold d3. rewrite account_sub_balance, account_ensure_user. reflexivity. }
  assert (Hcur : current_bets (ensure_user uid d4)
            = dict_set uid {| bet_side := sd; amount := amt |} (current_bets d)).
  { unfold current_bets. autorewrite with frame. unfold d4. cbn [bets round with_bets].
    unfold d3. autorewrite with frame. rewrite lookup_insert_eq. reflexivity. }
  rewrite Hcur, !balance_of_account.
  split; [exact Hopen|].
  split; [reflexivity|]. split; [lia|].
  split.
  { rewrite Hacc. destruct (decide (uid = uid)); [reflexivity | contradiction]. }
  split.
  { rewrite !Hacc. destruct (decide (uid = uid)); [reflexivity | contradiction]. }
  split. { rewrite dict_get_set, Z.eqb_refl. reflexivity. }
  split.
  { intros v Hv. split.
    - rewrite Hacc. destruct (decide (uid = v)); [congruence | reflexivity].
    - rewrite dict_get_set. destruct (Z.eqb_spec uid v); [congruence | reflexivity]. }
  pose proof (users_only_ensure_user uid d4) as (_ & Hr & Hh & Hp & _).
  pose proof (users_only_sub_balance uid amt (ensure_user uid d)) as (_ & Hr3 & Hh3 & Hp3 & _).
  pose proof (users_only_ensure_user uid d) as (_ & Hr1 & Hh1 & Hp1 & _).
  fold d3 in Hr3, Hh3, Hp3.
  rewrite Hp, Hr, Hh. unfold d4. cbn [pot round history with_bets].
  rewrite Hp3, Hr3, Hh3, Hp1, Hr1, Hh1. auto.
Qed.

Lemma accepted_bet_effect_witness :
  balance_of 7 (snd (handle_bet_command 7 T 100 funded_open)) = 900 /\
  dict_get 7 (current_bets (snd (handle_bet_command 7 T 100 funded_open)))
  = Some {| bet_side := T; amount := 100 |}.
Proof.
  assert (H : handle_bet_command 7 T 100 funded_open
              = (Accepted 1 900, snd (handle_bet_command 7 T 100 funded_open)))
    by (vm_compute; reflexivity).
  destruct (accepted_bet_effect _ _ _ _ _ _ _ H) as (_ & _ & _ & _ & Hb & Hg & _).
  split; [exact Hb | exact Hg].
Defined.

(** ** The three ways out of [close_betting_and_roll] *)

Lemma settled_frame d side bs payouts cut :
  bets (settled d side bs payouts cut) = bets d /\
  round (settled d side bs payouts cut) = set_status StClosed (round d) /\
  history (settled d side bs payouts cut) = history d /\
  withdraw_requests (settled d side bs payouts cut) = withdraw_requests d /\
  deposit_requests (settled d side bs payouts cut) = deposit_requests d.
Proof.
  unfold settled.
  pose proof (users_only_credit_payouts payouts
    (with_pot (fun p => p + cut)
       (with_pot (fun p => p + total_stake (is_loser side) bs)
          (with_round (set_status StClosed) d)))) as (Hb & Hr & Hh & _ & Hw & Hd).
  rewrite Hb, Hr, Hh, Hw, Hd. repeat split.
Qed.

Lemma jackpot_requests dice ws bs d :
  withdraw_requests (snd (jackpot dice ws bs d)) = withdraw_requests d /\
  deposit_requests (snd (jackpot dice ws bs d)) = deposit_requests d.
Proof.
  unfold jackpot. destruct (is_triple dice); [|split; reflexivity].
  destruct ws as [|w ws]; [split; reflexivity|].
  destruct (stakes_of bs (w :: ws)) as [stakes|]; [|split; reflexivity].
  pose proof (users_only_distribute (pot d) (Py.sum stakes)
                (Z.of_nat (length (w :: ws))) bs (w :: ws) d) as (_ & _ & _ & _ & Hw & Hd).
  destruct (distribute (pot d) (Py.sum stakes) (Z.of_nat (length (w :: ws))) bs (w :: ws) d)
    as [[[]|] dj]; cbn [snd] in *; split; assumption.
Qed.

(** A call finds no open round and returns [None]; or it is left by an
    exception, with the round closed and everything but users and pot as it
    was; or it returns the record of the round. *)
Lemma close_outcomes g now d :
  (status (round d) <> StOpen /\ close_betting_and_roll g now d = (Return None, d)) \/
  (status (round d) = StOpen /\
   fst (close_betting_and_roll g now d) = Raise /\
   round (snd (close_betting_and_roll g now d)) = set_status StClosed (round d) /\
   bets (snd (close_betting_and_roll g now d)) = bets d /\
   history (snd (close_betting_and_roll g now d)) = history d /\
   withdraw_requests (snd (close_betting_and_roll g now d)) = withdraw_requests d /\
   deposit_requests (snd (close_betting_and_roll g now d)) = deposit_requests d) \/
  (status (round d) = StOpen /\
   exists rec, fst (close_betting_and_roll g now d) = Return (Some rec)).
Proof.
  destruct (status_eqb (status (round d)) StOpen) eqn:Hst.
  2:{ left. assert (Hne : status (round d) <> StOpen)
        by (destruct (status (round d)); simpl in Hst; congruence).
      split; [exact Hne | apply close_not_open; exact Hne]. }
  right.
  assert (Hopen : status (round d) = StOpen)
    by (destruct (status (round d)); simpl in Hst; congruence).
  unfold close_betting_and_roll. rewrite Hst. cbn [negb].
  destruct (roll_dice (round (with_round (set_status StClosed) d)) g) as [dice g'].
  change (bets (with_round (set_status StClosed) d)) with (bets d).
  set (side := side_of_total (Py.sum dice)).
  set (bs0 := default [] (bets d !! round_id (round d))).
  destruct (basic_payouts side bs0 []) as [payouts|];
    [|left; repeat split; assumption].
  destruct (profit_sum (PAY_MULTI - 1)%float side bs0) as [wp|];
    [|left; repeat split; assumption].
  destruct (round_mul wp 0.30) as [cut|]; [|left; repeat split; assumption].
  fold (settled d side bs0 payouts cut).
  pose proof (settled_frame d side bs0 payouts cut) as (Hsb & Hsr & Hsh & Hsw & Hsd).
  pose proof (jackpot_frame dice (winners_of side bs0) bs0 (settled d side bs0 payouts cut))
    as (Hb & Hr & Hh).
  pose proof (jackpot_requests dice (winners_of side bs0) bs0 (settled d side bs0 payouts cut))
    as (Hw & Hd).
  rewrite Hsb in Hb. rewrite Hsr in Hr. rewrite Hsh in Hh. rewrite Hsw in Hw.
  rewrite Hsd in Hd.
  destruct (jackpot dice (winners_of side bs0) bs0 (settled d side bs0 payouts cut))
    as [[dist|] dj]; cbn [snd] in *.
  - destruct (bets dj !! round_id (round d)) as [recorded|].
    + right. split; [exact Hopen|]. eexists. reflexivity.
    + left. cbn [fst snd]. repeat split; assumption.
  - left. cbn [fst snd]. repeat split; assumption.
Qed.

(** ** What a resolved round leaves behind *)

(** What a call that returns a record does to the fields other than users
    and pot. *)
Lemma close_resolved_fields g now d d' rec :
  close_betting_and_roll g now d = (Return (Some rec), d') ->
  history d' = history d ++ [rec] /\
  h_id rec = round_id (round d) /\
  h_timestamp rec = now /\
  bets d' = delete (round_id (round d)) (bets d) /\
  round d' = set_forced_next None (set_status StIdle (round d)) /\
  withdraw_requests d' = withdraw_requests d /\
  deposit_requests d' = deposit_requests d.
Proof.
  intros H.
  destruct (close_resolved_inv _ _ _ _ _ H)
    as (bs & payouts & wp & cut & dist & dj & Hst & Hbs & Hpay & Hwp & Hcut & Hj & Hrec & Hd').
  pose proof (settled_frame d (h_side rec) bs payouts cut) as (Hsb & Hsr & Hsh & Hsw & Hsd).
  pose proof (jackpot_frame (h_dice rec) (winners_of (h_side rec) bs) bs
                (settled d (h_side rec) bs payouts cut)) as (Hb & Hr & Hh).
  pose proof (jackpot_requests (h_dice rec) (winners_of (h_side rec) bs) bs
                (settled d (h_side rec) bs payouts cut)) as (Hw & Hd).
  rewrite Hj in Hb, Hr, Hh, Hw, Hd. cbn [snd] in *.
  rewrite Hd'. cbn [history bets round withdraw_requests deposit_requests
                    with_round with_bets with_history].
  rewrite Hh, Hsh, Hb, Hsb, Hr, Hsr, Hw, Hsw, Hd, Hsd.
  split; [reflexivity|].
  rewrite Hrec. cbn. repeat split; reflexivity.
Qed.

(** X4. A call that returns a record appends exactly that record to the
    history, stamped with the round id and the time of the call; it removes
    the round's bet set, sets the status to idle and clears the forced side;
    the round id, the bias and the request queues stay as they were; total
    and side in the record are those of its dice. *)
Theorem resolved_round_bookkeeping (g : rng) (now : Z) (d d' : data) (rec : hist_rec) :
  close_betting_and_roll g now d = (Return (Some rec), d') ->
  history d' = history d ++ [rec] /\
  h_id rec = round_id (round d) /\
  h_timestamp rec = now /\
  h_total rec = Py.sum (h_dice rec) /\
  h_side rec = side_of_total (h_total rec) /\
  bets d' = delete (round_id (round d)) (bets d) /\
  round d' = set_forced_next None (set_status StIdle (round d)) /\
  withdraw_requests d' = withdraw_requests d /\
  deposit_requests d' = deposit_requests d.
Proof.
  intros H.
  destruct (close_resolved_fields _ _ _ _ _ H) as (Hh & Hid & Hts & Hb & Hr & Hw & Hd).
  destruct (close_resolved_inv _ _ _ _ _ H)
    as (bs & payouts & wp & cut & dist & dj & _ & _ & _ & _ & _ & _ & Hrec & _).
  assert (Htot : h_total rec = Py.sum (h_dice rec)) by (rewrite Hrec; reflexivity).
  assert (Hside : h_side rec = side_of_total (h_total rec)) by (rewrite Hrec; reflexivity).
  repeat (split; [assumption|]). assumption.
Qed.

Lemma resolved_round_bookkeeping_witness :
  history three_bets_resolved = history three_bets_open ++ [three_bets_record] /\
  bets three_bets_resolved = delete (round_id (round three_bets_open)) (bets three_bets_open).
Proof.
  destruct (resolved_round_bookkeeping _ _ _ _ _ three_bets_resolve)
    as (Hh & _ & _ & _ & _ & Hb & _).
  split; [exact Hh | exact Hb].
Defined.

(** ** Fields of a user record that only the settlement writes *)

Section Untouched.

Context {A : Type} (p : user -> A).
Hypothesis p_balance : forall b i, p (set_balance b i) = p i.
Hypothesis p_bonus : forall b i, p (set_first_bonus_given b i) = p i.

Lemma field_add_balance v a u d : p (account u (add_balance v a d)) = p (account u d).
Proof. rewrite account_add_balance. destruct (decide (v = u)); [apply p_balance | reflexivity]. Qed.

Lemma field_sub_balance v a u d : p (account u (sub_balance v a d)) = p (account u d).
Proof. rewrite account_sub_balance. destruct (decide (v = u)); [apply p_balance | reflexivity]. Qed.

Lemma field_start v u d : p (account u (snd (start_cmd v d))) = p (account u d).
Proof.
  unfold start_cmd, give_first_bonus_if_needed.
  rewrite !ensure_user_idem, ensure_user_lookup.
  destruct (negb (first_bonus_given (account v d))); cbn [snd].
  - destruct (decide (v = u)) as [->|Hne].
    + erewrite account_update_user_eq by apply users_lookup_update_ensured.
      rewrite p_bonus, p_balance. reflexivity.
    + rewrite !account_update_user_ne, account_ensure_user by assumption. reflexivity.
  - rewrite account_ensure_user. reflexivity.
Qed.

Lemma field_handle_bet uid sd amt u d :
  p (account u (snd (handle_bet_command uid sd amt d))) = p (account u d).
Proof.
  unfold handle_bet_command, get_balance. cbv beta iota zeta.
  destruct (negb (status_eqb (status (round d)) StOpen)); [reflexivity|].
  repeat match goal with
         | |- context [if ?c then _ else _] =>
             destruct c; [cbn [snd]; rewrite !account_ensure_user; reflexivity|]
         end.
  cbn [snd]. rewrite account_ensure_user.
  change (account u (with_bets ?f ?x)) with (account u x).
  rewrite field_sub_balance, !account_ensure_user. reflexivity.
Qed.

Lemma field_callback ADMINS sender cb u d :
  p (account u (callback_query_handler ADMINS sender cb d)) = p (account u d).
Proof.
  unfold callback_query_handler.
  destruct (negb (is_admin ADMINS sender)); [reflexivity|].
  destruct cb as [rid|rid|rid|rid|val|]; try reflexivity.
  - destruct (decide_first rid Approved sender (deposit_requests d)) as [[r|] l];
      [|reflexivity]. rewrite field_add_balance. reflexivity.
  - destruct (decide_first rid Denied sender (deposit_requests d)) as [[r|] l]; reflexivity.
  - destruct (decide_first rid Approved sender (withdraw_requests d)) as [[r|] l];
      [|reflexivity]. rewrite field_sub_balance. reflexivity.
  - destruct (decide_first rid Denied sender (withdraw_requests d)) as [[r|] l]; reflexivity.
Qed.

Lemma field_distribute pa total n bs ws u : forall d,
  p (account u (snd (distribute pa total n bs ws d))) = p (account u d).
Proof.
  induction ws as [|w ws IH]; intros d; cbn [distribute]; [reflexivity|].
  destruct (dict_get w bs) as [b|]; [|reflexivity].
  destruct (jackpot_share pa (amount b) total n); [|reflexivity].
  rewrite IH. apply field_add_balance.
Qed.

Lemma field_jackpot dice ws bs u d :
  p (account u (snd (jackpot dice ws bs d))) = p (account u d).
Proof.
  unfold jackpot. destruct (is_triple dice); [|reflexivity].
  destruct ws as [|w ws]; [reflexivity|].
  destruct (stakes_of bs (w :: ws)) as [stakes|]; [|reflexivity].
  pose proof (field_distribute (pot d) (Py.sum stakes) (Z.of_nat (length (w :: ws)))
                bs (w :: ws) u d) as H.
  destruct (distribute (pot d) (Py.sum stakes) (Z.of_nat (length (w :: ws))) bs (w :: ws) d)
    as [[[]|] dj]; cbn [snd] in *; exact H.
Qed.

(** No entry point but the settlement writes such a field. *)
Lemma field_step_other ADMINS ROLL_INTERVAL o u d :
  (forall g now, o <> OpSchedulerClose g now) ->
  p (account u (step ADMINS ROLL_INTERVAL o d)) = p (account u d).
Proof.
  intros Hno. destruct o; cbn [step].
  - apply field_start.
  - unfold balance_cmd, get_balance. cbn [snd]. rewrite !account_ensure_user. reflexivity.
  - apply field_handle_bet.
  - unfold open_bet_cmd. destruct (negb (is_admin ADMINS sender)); reflexivity.
  - reflexivity.
  - unfold withdraw_cmd. destruct (amt <? 100000); [reflexivity|].
    unfold get_balance. destruct (_ <? amt); cbn [snd];
      change (account u (with_withdraw_requests ?f ?x)) with (account u x);
      rewrite account_ensure_user; reflexivity.
  - apply field_callback.
  - unfold admin_setnext. destruct (negb (is_admin ADMINS sender)); [reflexivity|].
    destruct val as [[]|]; reflexivity.
  - unfold admin_setbias. destruct (negb (is_admin ADMINS sender)); [reflexivity|].
    destruct (_ || _); reflexivity.
  - unfold admin_credit. destruct (negb (is_admin ADMINS sender)); [reflexivity|].
    apply field_add_balance.
  - unfold scheduler_open. destruct (status_eqb _ _); reflexivity.
  - exfalso. eapply Hno. reflexivity.
Qed.

End Untouched.

(** ** Streaks *)

Lemma streak_pair_credit_one u d up :
  0 <= streak (account u d) <= best_streak (account u d) ->
  0 <= streak (account u (credit_one d up)) <= best_streak (account u (credit_one d up)).
Proof.
  destruct up as [v pay]. rewrite account_credit_one.
  destruct (decide (v = u)); [destruct (0 <? pay)|]; cbn; lia.
Qed.

Lemma streak_pair_credit_payouts u ps : forall d,
  0 <= streak (account u d) <= best_streak (account u d) ->
  0 <= streak (account u (credit_payouts ps d))
    <= best_streak (account u (credit_payouts ps d)).
Proof.
  unfold credit_payouts. induction ps as [|up ps IH]; intros d H; cbn [fold_left];
    [exact H|].
  apply IH, streak_pair_credit_one, H.
Qed.

Lemma streak_pair_close g now u d :
  0 <= streak (account u d) <= best_streak (account u d) ->
  0 <= streak (account u (snd (close_betting_and_roll g now d)))
    <= best_streak (account u (snd (close_betting_and_roll g now d))).
Proof.
  intros H. unfold close_betting_and_roll.
  destruct (negb (status_eqb (status (round d)) StOpen)); [exact H|].
  destruct (roll_dice (round (with_round (set_status StClosed) d)) g) as [dice g'].
  change (bets (with_round (set_status StClosed) d)) with (bets d).
  set (side := side_of_total (Py.sum dice)).
  set (bs0 := default [] (bets d !! round_id (round d))).
  destruct (basic_payouts side bs0 []) as [payouts|]; [|exact H].
  destruct (profit_sum (PAY_MULTI - 1)%float side bs0) as [wp|]; [|exact H].
  destruct (round_mul wp 0.30) as [cut|]; [|exact H].
  fold (settled d side bs0 payouts cut).
  assert (Hs : 0 <= streak (account u (settled d side bs0 payouts cut))
               <= best_streak (account u (settled d side bs0 payouts cut))).
  { unfold settled. apply streak_pair_credit_payouts. exact H. }
  pose proof (field_jackpot (fun i => (streak i, best_streak i))
                (fun _ _ => eq_refl) dice (winners_of side bs0) bs0 u
                (settled d side bs0 payouts cut)) as Hj.
  injection Hj as Hj1 Hj2.
  destruct (jackpot dice (winners_of side bs0) bs0 (settled d side bs0 payouts cut))
    as [[dist|] dj]; cbn [snd] in *.
  - destruct (bets dj !! round_id (round d)); cbn [snd].
    + change (0 <= streak (account u dj) <= best_streak (account u dj)). lia.
    + lia.
  - lia.
Qed.

(** X5. In every state the program reaches, every user's current streak is
    at least 0 and at most their best streak; every entry point keeps it so. *)
Theorem streaks_within_best (ADMINS : list Z) (ROLL_INTERVAL : Z) :
  (forall o d, streaks_ok d -> streaks_ok (step ADMINS ROLL_INTERVAL o d)) /\
  (forall ops, streaks_ok (run ADMINS ROLL_INTERVAL ops default_data)).
Proof.
  assert (Hstep : forall o d, streaks_ok d -> streaks_ok (step ADMINS ROLL_INTERVAL o d)).
  { intros o d Hok u. specialize (Hok u).
    rewrite streak_of_account, best_streak_of_account in *.
    destruct o;
      try (rewrite (field_step_other streak (fun _ _ => eq_refl) (fun _ _ => eq_refl))
             by discriminate;
           rewrite (field_step_other best_streak (fun _ _ => eq_refl) (fun _ _ => eq_refl))
             by discriminate;
           exact Hok).
    apply streak_pair_close. exact Hok. }
  split; [exact Hstep|].
  intros ops. unfold run.
  assert (H0 : streaks_ok default_data).
  { intros u. unfold streak_of, best_streak_of. cbn [users default_data].
    rewrite lookup_empty. lia. }
  revert H0. generalize default_data.
  induction ops as [|o ops IH]; intros d Hok; cbn [fold_left]; [exact Hok|].
  apply IH, Hstep, Hok.
Qed.

Lemma streaks_within_best_witness :
  streaks_ok one_bet_resolved /\ streak_of 7 one_bet_resolved = 1.
Proof.
  split; [|reflexivity].
  apply (proj1 (streaks_within_best [1] 60) (OpSchedulerClose (constant_rng 3) 5) one_bet_open).
  apply (proj2 (streaks_within_best [1] 60)
           [OpCredit 1 7 5000; OpSchedulerOpen 0; OpBet 7 T 1000]).
Defined.

(** One turn of the crediting loop per user: the streak goes up by one on a
    positive payout and back to 0 otherwise. *)
Lemma credit_payouts_streak u pay ps : forall d,
  NoDup (keys ps) -> In (u, pay) ps ->
  streak_of u (credit_payouts ps d) = if 0 <? pay then streak_of u d + 1 else 0.
Proof.
  induction ps as [|[v q] ps IH]; intros d Hnd Hin; [contradiction|].
  cbn in Hnd. apply NoDup_cons in Hnd as [Hv Hnd].
  change (credit_payouts ((v, q) :: ps) d) with (credit_payouts ps (credit_one d (v, q))).
  destruct Hin as [Heq|Hin].
  - injection Heq as -> ->.
    rewrite !streak_of_account, credit_payouts_account_notin
      by (intros Hin; apply Hv, list_elem_of_In; exact Hin).
    rewrite account_credit_one. destruct (decide (u = u)) as [_|Hne]; [|contradiction].
    destruct (0 <? pay); reflexivity.
  - rewrite (IH _ Hnd Hin). rewrite !streak_of_account, account_credit_one.
    destruct (decide (v = u)) as [->|_]; [|reflexivity].
    exfalso. apply Hv, list_elem_of_In. change u with (fst (u, pay)). apply in_map. exact Hin.
Qed.

(** X6. In a resolved round every bettor's streak is rewritten: a bet with a
    positive payout adds one to the streak, any other bet, and so every bet
    on the losing side, resets it to 0. *)
Theorem resolved_round_streaks (g : rng) (now : Z) (d d' : data) (rec : hist_rec) :
  close_betting_and_roll g now d = (Return (Some rec), d') ->
  NoDup (keys (h_bets rec)) ->
  forall u b, In (u, b) (h_bets rec) ->
    exists pay,
      dict_get u (h_payouts rec) = Some pay /\
      streak_of u d' = (if 0 <? pay then streak_of u d + 1 else 0) /\
      (bet_side b <> h_side rec -> pay = 0 /\ streak_of u d' = 0).
Proof.
  intros H Hnd u b Hin.
  destruct (close_resolved_inv _ _ _ _ _ H)
    as (bs & payouts & wp & cut & dist & dj & Hst & Hbs & Hpay & Hwp & Hcut & Hj & Hrec & Hd').
  assert (Hb : h_bets rec = bs) by (rewrite Hrec; reflexivity).
  assert (Hp : h_payouts rec = payouts) by (rewrite Hrec; reflexivity).
  rewrite Hb in *. rewrite Hp.
  set (side := h_side rec) in *.
  pose proof (basic_payouts_entries _ _ _ Hnd Hpay) as Hall.
  assert (Hndp : NoDup (keys payouts)) by (rewrite (entries_keys _ _ _ Hall); exact Hnd).
  destruct (entries_lookup _ _ _ u b Hall Hnd Hin) as (pay & Hinp & Hget & Hpo).
  assert (Hs : streak_of u d' = if 0 <? pay then streak_of u d + 1 else 0).
  { assert (Hd1 : streak_of u d' = streak_of u dj) by (rewrite Hd'; reflexivity).
    rewrite Hd1.
    pose proof (field_jackpot streak (fun _ _ => eq_refl) (h_dice rec)
                  (winners_of side bs) bs u (settled d side bs payouts cut)) as Hf.
    rewrite Hj in Hf. cbn [snd] in Hf.
    rewrite !streak_of_account, Hf, <- streak_of_account.
    unfold settled. rewrite (credit_payouts_streak u pay payouts _ Hndp Hinp).
    unfold streak_of, account. cbn [users with_pot with_round].
    destruct (users d !! u); reflexivity. }
  exists pay. split; [exact Hget|]. split; [exact Hs|].
  intros Hlose. unfold payout_of in Hpo.
  destruct (side_eqb (bet_side b) side) eqn:Hside.
  - apply side_eqb_eq in Hside. contradiction.
  - subst pay. split; [reflexivity | exact Hs].
Qed.

Lemma resolved_round_streaks_witness :
  streak_of 7 three_bets_resolved = 0 /\
  streak_of 8 three_bets_resolved = streak_of 8 three_bets_open + 1.
Proof.
  assert (Hnd : NoDup (keys (h_bets three_bets_record)))
    by (apply (bool_decide_unpack _); vm_compute; exact I).
  pose proof (resolved_round_streaks _ _ _ _ _ three_bets_resolve Hnd) as H.
  split.
  - destruct (H 7 {| bet_side := T; amount := 100 |}) as (pay & _ & _ & Hl).
    { left. reflexivity. }
    apply Hl. discriminate.
  - destruct (H 8 {| bet_side := X; amount := 300 |}) as (pay & Hp & Hs & _).
    { right. left. reflexivity. }
    vm_compute in Hp. assert (pay = 591) as -> by congruence. exact Hs.
Defined.

(** ** Users without a bet in the round *)

Lemma basic_payouts_keys s bs : forall acc r u,
  basic_payouts s bs acc = Some r ->
  In u (keys r) -> In u (keys acc) \/ In u (keys bs).
Proof.
  assert (Hset : forall (k : Z) (v : Z) (acc : dict Z) u,
            In u (keys (dict_set k v acc)) -> u = k \/ In u (keys acc)).
  { intros k v acc u Hin. rewrite keys_dict_set in Hin.
    destruct (bool_decide (k ∈ keys acc)); [right; exact Hin|].
    apply in_app_or in Hin as [Hin|[<-|[]]]; [right; exact Hin | left; reflexivity]. }
  induction bs as [|[v b] bs IH]; intros acc r u H Hin; cbn in H.
  - injection H as <-. left. exact Hin.
  - destruct (side_eqb (bet_side b) s).
    + destruct (round_mul (amount b) PAY_MULTI) as [pay|]; [|discriminate].
      destruct (IH _ _ _ H Hin) as [Ha|Hb]; [|right; right; exact Hb].
      destruct (Hset _ _ _ _ Ha) as [->|Ha']; [right; left; reflexivity | left; exact Ha'].
    + destruct (IH _ _ _ H Hin) as [Ha|Hb]; [|right; right; exact Hb].
      destruct (Hset _ _ _ _ Ha) as [->|Ha']; [right; left; reflexivity | left; exact Ha'].
Qed.

Lemma jackpot_account_notin dice ws bs u d :
  ~ In u ws -> account u (snd (jackpot dice ws bs d)) = account u d.
Proof.
  intros Hn. unfold jackpot. destruct (is_triple dice); [|reflexivity].
  destruct ws as [|w ws]; [reflexivity|].
  destruct (stakes_of bs (w :: ws)) as [stakes|]; [|reflexivity].
  pose proof (distribute_account_notin (pot d) (Py.sum stakes)
                (Z.of_nat (length (w :: ws))) bs u (w :: ws) d Hn) as H.
  destruct (distribute (pot d) (Py.sum stakes) (Z.of_nat (length (w :: ws))) bs (w :: ws) d)
    as [[[]|] dj]; cbn [snd] in *; exact H.
Qed.

(** X7. The settlement never touches a user who has no bet in the round:
    balance, bonus flag, streak and best streak of such a user are the same
    after [close_betting_and_roll], however the call ends. *)
Theorem settlement_spares_non_bettors (g : rng) (now : Z) (d : data) (u : Z) :
  ~ In u (keys (current_bets d)) ->
  account u (snd (close_betting_and_roll g now d)) = account u d /\
  balance_of u (snd (close_betting_and_roll g now d)) = balance_of u d.
Proof.
  intros Hn.
  assert (Hacc : account u (snd (close_betting_and_roll g now d)) = account u d).
  { unfold close_betting_and_roll.
    destruct (negb (status_eqb (status (round d)) StOpen)); [reflexivity|].
    destruct (roll_dice (round (with_round (set_status StClosed) d)) g) as [dice g'].
    change (bets (with_round (set_status StClosed) d)) with (bets d).
    change (round (with_round (set_status StClosed) d)) with (set_status StClosed (round d)).
    set (side := side_of_total (Py.sum dice)).
    fold (current_bets d). set (bs0 := current_bets d) in *.
    destruct (basic_payouts side bs0 []) as [payouts|] eqn:Hpay; [|reflexivity].
    destruct (profit_sum (PAY_MULTI - 1)%float side bs0) as [wp|]; [|reflexivity].
    destruct (round_mul wp 0.30) as [cut|]; [|reflexivity].
    fold (settled d side bs0 payouts cut).
    assert (Hs : account u (settled d side bs0 payouts cut) = account u d).
    { unfold settled. rewrite credit_payouts_account_notin; [reflexivity|].
      intros Hin. destruct (basic_payouts_keys _ _ _ _ _ Hpay Hin) as [[]|Hb].
      contradiction. }
    assert (Hw : ~ In u (winners_of side bs0)).
    { intros Hin. apply Hn. eapply keys_filter_in. exact Hin. }
    pose proof (jackpot_account_notin dice (winners_of side bs0) bs0 u
                  (settled d side bs0 payouts cut) Hw) as Hj.
    rewrite Hs in Hj.
    destruct (jackpot dice (winners_of side bs0) bs0 (settled d side bs0 payouts cut))
      as [[dist|] dj]; cbn [snd] in *; [|exact Hj].
    destruct (bets dj !! round_id (round d)); cbn [snd]; exact Hj. }
  split; [exact Hacc|]. rewrite !balance_of_account, Hacc. reflexivity.
Qed.

Lemma settlement_spares_non_bettors_witness :
  balance_of 9 (snd (close_betting_and_roll (constant_rng 3) 5 one_bet_open))
  = balance_of 9 one_bet_open.
Proof.
  apply (settlement_spares_non_bettors (constant_rng 3) 5 one_bet_open 9).
  vm_compute. intros [H|[]]. discriminate.
Defined.

(** ** What each entry point leaves alone *)

Lemma history_ensure_user u d : history (ensure_user u d) = history d.
Proof. apply users_only_ensure_user. Qed.

Lemma pot_ensure_user u d : pot (ensure_user u d) = pot d.
Proof. apply users_only_ensure_user. Qed.

Lemma withdraw_requests_ensure_user u d : withdraw_requests (ensure_user u d) = withdraw_requests d.
Proof. apply users_only_ensure_user. Qed.

Lemma deposit_requests_ensure_user u d : deposit_requests (ensure_user u d) = deposit_requests d.
Proof. apply users_only_ensure_user. Qed.

Lemma bets_add_balance u a d : bets (add_balance u a d) = bets d.
Proof. apply users_only_add_balance. Qed.

Lemma round_add_balance u a d : round (add_balance u a d) = round d.
Proof. apply users_only_add_balance. Qed.

Lemma history_add_balance u a d : history (add_balance u a d) = history d.
Proof. apply users_only_add_balance. Qed.

Lemma pot_add_balance u a d : pot (add_balance u a d) = pot d.
Proof. apply users_only_add_balance. Qed.

Lemma withdraw_requests_add_balance u a d : withdraw_requests (add_balance u a d) = withdraw_requests d.
Proof. apply users_only_add_balance. Qed.

Lemma history_sub_balance u a d : history (sub_balance u a d) = history d.
Proof. apply users_only_sub_balance. Qed.

Lemma pot_sub_balance u a d : pot (sub_balance u a d) = pot d.
Proof. apply users_only_sub_balance. Qed.

Lemma deposit_requests_sub_balance u a d : deposit_requests (sub_balance u a d) = deposit_requests d.
Proof. apply users_only_sub_balance. Qed.

#[local] Hint Rewrite history_ensure_user pot_ensure_user withdraw_requests_ensure_user deposit_requests_ensure_user bets_add_balance round_add_balance history_add_balance pot_add_balance withdraw_requests_add_balance deposit_requests_add_balance history_sub_balance pot_sub_balance withdraw_requests_sub_balance deposit_requests_sub_balance : frame.

Lemma decide_first_cores rid st admin l :
  List.map req_core (snd (decide_first rid st admin l)) = List.map req_core l.
Proof.
  induction l as [|r l IH]; cbn; [reflexivity|].
  destruct (req_id r =? rid); cbn; [reflexivity|].
  destruct (decide_first rid st admin l) as [found l']. cbn in *. rewrite IH. reflexivity.
Qed.

Ltac frame_same :=
  unfold same_frame, update_user;
  cbn [snd history pot round bets withdraw_requests deposit_requests with_users];
  autorewrite with frame;
  cbn [snd history pot round bets withdraw_requests deposit_requests with_users];
  repeat split; reflexivity.

(** What an entry point other than the settlement may change besides users:
    the round configuration, with the id kept or advanced by one into an open
    round; bet sets from the current round id on; request queues, by a
    decision in place or a request added at the end. *)
Lemma step_other_frame ADMINS ROLL_INTERVAL o d :
  (forall g now, o <> OpSchedulerClose g now) ->
  history (step ADMINS ROLL_INTERVAL o d) = history d /\
  pot (step ADMINS ROLL_INTERVAL o d) = pot d /\
  ((round_id (round (step ADMINS ROLL_INTERVAL o d)) = round_id (round d) /\
    status (round (step ADMINS ROLL_INTERVAL o d)) = status (round d)) \/
   (round_id (round (step ADMINS ROLL_INTERVAL o d)) = round_id (round d) + 1 /\
    status (round (step ADMINS ROLL_INTERVAL o d)) = StOpen)) /\
  (forall r, r < round_id (round d) ->
     bets (step ADMINS ROLL_INTERVAL o d) !! r = bets d !! r) /\
  (exists k, List.map req_core (withdraw_requests (step ADMINS ROLL_INTERVAL o d))
             = List.map req_core (withdraw_requests d) ++ k) /\
  (exists k, List.map req_core (deposit_requests (step ADMINS ROLL_INTERVAL o d))
             = List.map req_core (deposit_requests d) ++ k).
Proof.
  intros Hno.
  assert (Hsame : forall d', same_frame d d' ->
    history d' = history d /\ pot d' = pot d /\
    ((round_id (round d') = round_id (round d) /\ status (round d') = status (round d)) \/
     (round_id (round d') = round_id (round d) + 1 /\ status (round d') = StOpen)) /\
    (forall r, r < round_id (round d) -> bets d' !! r = bets d !! r) /\
    (exists k, List.map req_core (withdraw_requests d')
               = List.map req_core (withdraw_requests d) ++ k) /\
    (exists k, List.map req_core (deposit_requests d')
               = List.map req_core (deposit_requests d) ++ k)).
  { intros d' (Hh & Hp & Hr & Hb & Hw & Hd). rewrite Hh, Hp, Hr, Hb, Hw, Hd.
    repeat split; try reflexivity; [left; split; reflexivity | |];
      exists []; rewrite app_nil_r; reflexivity. }
  assert (Hopen : forall now,
    let d' := snd (open_new_round ROLL_INTERVAL now d) in
    history d' = history d /\ pot d' = pot d /\
    ((round_id (round d') = round_id (round d) /\ status (round d') = status (round d)) \/
     (round_id (round d') = round_id (round d) + 1 /\ status (round d') = StOpen)) /\
    (forall r, r < round_id (round d) -> bets d' !! r = bets d !! r) /\
    (exists k, List.map req_core (withdraw_requests d')
               = List.map req_core (withdraw_requests d) ++ k) /\
    (exists k, List.map req_core (deposit_requests d')
               = List.map req_core (deposit_requests d) ++ k)).
  { intros now. cbn zeta. unfold open_new_round. cbn [snd].
    split; [reflexivity|]. split; [reflexivity|].
    split; [right; split; reflexivity|].
    split; [|split; exists []; rewrite app_nil_r; reflexivity].
    intros r Hr. cbn. apply lookup_insert_ne. lia. }
  destruct o; cbn [step].
  - apply Hsame. unfold start_cmd, give_first_bonus_if_needed.
    rewrite !ensure_user_idem, ensure_user_lookup.
    destruct (negb _); frame_same.
  - apply Hsame. unfold balance_cmd, get_balance. frame_same.
  - unfold handle_bet_command, get_balance. cbv beta iota zeta.
    destruct (negb (status_eqb (status (round d)) StOpen));
      [apply Hsame; frame_same|].
    repeat match goal with
           | |- context [if ?c then _ else _] => destruct c; [apply Hsame; frame_same|]
           end.
    cbn [snd]. autorewrite with frame.
    cbn [history pot round bets withdraw_requests deposit_requests with_bets].
    autorewrite with frame.
    split; [reflexivity|]. split; [reflexivity|].
    split; [left; split; reflexivity|].
    split; [|split; exists []; rewrite app_nil_r; reflexivity].
    intros r Hr. apply lookup_insert_ne. lia.
  - unfold open_bet_cmd. destruct (negb (is_admin ADMINS sender));
      [apply Hsame; frame_same|].
    exact (Hopen now).
  - unfold deposit_cmd. cbn.
    split; [reflexivity|]. split; [reflexivity|].
    split; [left; split; reflexivity|]. split; [reflexivity|].
    split; [exists []; rewrite app_nil_r; reflexivity|].
    eexists. apply map_app.
  - unfold withdraw_cmd, get_balance. cbv beta iota zeta.
    destruct (amt <? 100000); [apply Hsame; frame_same|].
    destruct (_ <? amt); [apply Hsame; frame_same|].
    cbn [snd history pot round bets withdraw_requests deposit_requests
         with_withdraw_requests].
    autorewrite with frame.
    split; [reflexivity|]. split; [reflexivity|].
    split; [left; split; reflexivity|]. split; [reflexivity|].
    split; [eexists; apply map_app | exists []; rewrite app_nil_r; reflexivity].
  - unfold callback_query_handler.
    destruct (negb (is_admin ADMINS sender)); [apply Hsame; frame_same|].
    destruct cb as [rid|rid|rid|rid|val|]; try (apply Hsame; frame_same).
    + pose proof (decide_first_cores rid Approved sender (deposit_requests d)) as Hc.
      destruct (decide_first rid Approved sender (deposit_requests d)) as [[r|] l];
        [|apply Hsame; frame_same].
      cbn [snd] in Hc. autorewrite with frame.
      cbn [history pot round bets withdraw_requests deposit_requests with_deposit_requests].
      rewrite Hc.
      repeat split; try reflexivity; [left; split; reflexivity | |];
        exists []; rewrite app_nil_r; reflexivity.
    + pose proof (decide_first_cores rid Denied sender (deposit_requests d)) as Hc.
      destruct (decide_first rid Denied sender (deposit_requests d)) as [[r|] l];
        [|apply Hsame; frame_same].
      cbn [snd] in Hc.
      cbn [history pot round bets withdraw_requests deposit_requests with_deposit_requests].
      rewrite Hc.
      repeat split; try reflexivity; [left; split; reflexivity | |];
        exists []; rewrite app_nil_r; reflexivity.
    + pose proof (decide_first_cores rid Approved sender (withdraw_requests d)) as Hc.
      destruct (decide_first rid Approved sender (withdraw_requests d)) as [[r|] l];
        [|apply Hsame; frame_same].
      cbn [snd] in Hc. autorewrite with frame.
      cbn [history pot round bets withdraw_requests deposit_requests with_withdraw_requests].
      rewrite Hc.
      repeat split; try reflexivity; [left; split; reflexivity | |];
        exists []; rewrite app_nil_r; reflexivity.
    + pose proof (decide_first_cores rid Denied sender (withdraw_requests d)) as Hc.
      destruct (decide_first rid Denied sender (withdraw_requests d)) as [[r|] l];
        [|apply Hsame; frame_same].
      cbn [snd] in Hc.
      cbn [history pot round bets withdraw_requests deposit_requests with_withdraw_requests].
      rewrite Hc.
      repeat split; try reflexivity; [left; split; reflexivity | |];
        exists []; rewrite app_nil_r; reflexivity.
    + cbn. repeat split; try reflexivity; [left; split; reflexivity | |];
        exists []; rewrite app_nil_r; reflexivity.
  - unfold admin_setnext. destruct (negb (is_admin ADMINS sender));
      [apply Hsame; frame_same|].
    destruct val as [[]|]; cbn;
      (repeat split; try reflexivity; [left; split; reflexivity | |];
       exists []; rewrite app_nil_r; reflexivity).
  - unfold admin_setbias. destruct (negb (is_admin ADMINS sender));
      [apply Hsame; frame_same|].
    destruct (_ || _); [apply Hsame; frame_same|].
    cbn. repeat split; try reflexivity; [left; split; reflexivity | |];
      exists []; rewrite app_nil_r; reflexivity.
  - unfold admin_credit. destruct (negb (is_admin ADMINS sender));
      apply Hsame; frame_same.
  - unfold scheduler_open. destruct (status_eqb _ _);
      [exact (Hopen now) | apply Hsame; frame_same].
  - exfalso. eapply Hno. reflexivity.
Qed.

(** The same for the settlement, however it ends. *)
Lemma close_frame g now d :
  round_id (round (snd (close_betting_and_roll g now d))) = round_id (round d) /\
  status (round (snd (close_betting_and_roll g now d))) <> StOpen /\
  (forall r, r <> round_id (round d) ->
     bets (snd (close_betting_and_roll g now d)) !! r = bets d !! r) /\
  withdraw_requests (snd (close_betting_and_roll g now d)) = withdraw_requests d /\
  deposit_requests (snd (close_betting_and_roll g now d)) = deposit_requests d /\
  (history (snd (close_betting_and_roll g now d)) = history d \/
   exists rec,
     fst (close_betting_and_roll g now d) = Return (Some rec) /\
     status (round d) = StOpen /\
     h_id rec = round_id (round d) /\
     history (snd (close_betting_and_roll g now d)) = history d ++ [rec]).
Proof.
  split; [|split; [apply close_leaves_not_open|]].
  - destruct (close_outcomes g now d) as [(_ & ->) | [(_ & _ & Hr & _) | (_ & rec & Hrec)]].
    + reflexivity.
    + rewrite Hr. reflexivity.
    + destruct (close_resolved_fields g now d _ rec
                  (eq_trans (surjective_pairing _) (f_equal2 pair Hrec eq_refl)))
        as (_ & _ & _ & _ & Hr & _).
      rewrite Hr. reflexivity.
  - destruct (close_outcomes g now d)
      as [(_ & ->) | [(_ & _ & _ & Hb & Hh & Hw & Hd) | (Hopen & rec & Hrec)]].
    + cbn [snd]. auto.
    + rewrite Hb, Hh, Hw, Hd. auto.
    + destruct (close_resolved_fields g now d _ rec
                  (eq_trans (surjective_pairing _) (f_equal2 pair Hrec eq_refl)))
        as (Hh & Hid & _ & Hb & _ & Hw & Hd).
      rewrite Hb, Hw, Hd. split; [|split; [reflexivity|split; [reflexivity|]]].
      * intros r Hr. apply lookup_delete_ne. congruence.
      * right. exists rec. auto.
Qed.

(** ** Round ids *)

Lemma round_id_step ADMINS ROLL_INTERVAL o d :
  round_id (round d) <= round_id (round (step ADMINS ROLL_INTERVAL o d))
    <= round_id (round d) + 1.
Proof.
  destruct o;
    try (match goal with
         | |- context [step _ _ ?o' _] =>
             destruct (step_other_frame ADMINS ROLL_INTERVAL o' d
                         ltac:(intros; discriminate))
               as (_ & _ & [(-> & _) | (-> & _)] & _)
         end; lia).
  cbn [step]. destruct (close_frame g now d) as (-> & _). lia.
Qed.

(** X8. The round id never goes down: an entry point keeps it or, when it
    opens a round, raises it by one; along any run it only grows. *)
Theorem round_id_only_grows (ADMINS : list Z) (ROLL_INTERVAL : Z) (d : data) :
  (forall o,
     round_id (round d) <= round_id (round (step ADMINS ROLL_INTERVAL o d))
       <= round_id (round d) + 1) /\
  (forall ops, round_id (round d) <= round_id (round (run ADMINS ROLL_INTERVAL ops d))).
Proof.
  split; [intros o; apply round_id_step|].
  intros ops. unfold run. revert d.
  induction ops as [|o ops IH]; intros d; cbn [fold_left]; [lia|].
  specialize (IH (step ADMINS ROLL_INTERVAL o d)).
  pose proof (round_id_step ADMINS ROLL_INTERVAL o d). lia.
Qed.

(** ** The history *)

(** X9. The history is append-only and, with the pot, written by the
    settlement alone: no other entry point changes either, a settlement adds
    at most one record at the end, and along any run the old history stays a
    prefix of the new one. *)
Theorem history_append_only (ADMINS : list Z) (ROLL_INTERVAL : Z) (d : data) :
  (forall o, (forall g now, o <> OpSchedulerClose g now) ->
     history (step ADMINS ROLL_INTERVAL o d) = history d /\
     pot (step ADMINS ROLL_INTERVAL o d) = pot d) /\
  (forall o, exists l,
     history (step ADMINS ROLL_INTERVAL o d) = history d ++ l /\ (length l <= 1)%nat) /\
  (forall ops, exists l, history (run ADMINS ROLL_INTERVAL ops d) = history d ++ l).
Proof.
  assert (Hother : forall o d0, (forall g now, o <> OpSchedulerClose g now) ->
     history (step ADMINS ROLL_INTERVAL o d0) = history d0 /\
     pot (step ADMINS ROLL_INTERVAL o d0) = pot d0).
  { intros o d0 Hno.
    destruct (step_other_frame ADMINS ROLL_INTERVAL o d0 Hno) as (Hh & Hp & _). auto. }
  assert (Hstep : forall o d0, exists l,
     history (step ADMINS ROLL_INTERVAL o d0) = history d0 ++ l /\ (length l <= 1)%nat).
  { intros o d0. destruct o;
      try (exists []; rewrite app_nil_r; split;
           [apply Hother; intros; discriminate | cbn; lia]).
    cbn [step]. destruct (close_frame g now d0) as (_ & _ & _ & _ & _ & [Hh | (rec & _ & _ & _ & Hh)]).
    - exists []. rewrite app_nil_r. split; [exact Hh | cbn; lia].
    - exists [rec]. split; [exact Hh | cbn; lia]. }
  split; [intros o; apply Hother|]. split; [intros o; apply Hstep|].
  intros ops. unfold run. revert d.
  induction ops as [|o ops IH]; intros d; cbn [fold_left].
  - exists []. rewrite app_nil_r. reflexivity.
  - destruct (IH (step ADMINS ROLL_INTERVAL o d)) as (l2 & Hl2).
    destruct (Hstep o d) as (l1 & Hl1 & _).
    exists (l1 ++ l2). rewrite Hl2, Hl1, app_assoc. reflexivity.
Qed.

Lemma history_append_only_witness :
  history (step [1] 60 (OpBet 7 X 200) one_bet_resolved) = history one_bet_resolved /\
  pot (step [1] 60 (OpCredit 1 7 5) one_bet_resolved) = pot one_bet_resolved.
Proof.
  destruct (history_append_only [1] 60 one_bet_resolved) as (H & _).
  split.
  - apply (H (OpBet 7 X 200)). intros g now. discriminate.
  - apply (H (OpCredit 1 7 5)). intros g now. discriminate.
Defined.

Lemma history_ok_step ADMINS ROLL_INTERVAL o d :
  history_ok d -> history_ok (step ADMINS ROLL_INTERVAL o d).
Proof.
  intros (Hs & Hf).
  assert (Hlt : status (round d) = StOpen ->
                Forall (fun r => h_id r < round_id (round d)) (history d)).
  { intros Hopen. eapply Forall_impl; [exact Hf|].
    intros r [Hr | (_ & Hne)]; [exact Hr | contradiction]. }
  assert (Hle : Forall (fun r => h_id r <= round_id (round d)) (history d)).
  { eapply Forall_impl; [exact Hf|]. intros r [Hr | (Hr & _)]; lia. }
  destruct o;
    try (match goal with
         | |- context [step _ _ ?o' _] =>
             destruct (step_other_frame ADMINS ROLL_INTERVAL o' d
                         ltac:(intros; discriminate))
               as (Hh & _ & [(Hid & Hst) | (Hid & Hst)] & _)
         end;
         unfold history_ok; rewrite Hh, Hid, Hst;
         (split; [exact Hs|]);
         [ exact Hf
         | eapply Forall_impl; [exact Hle|]; intros r Hr; cbn beta in *; left; lia ]).
  cbn [step].
  destruct (close_frame g now d)
    as (Hid & Hst & _ & _ & _ & [Hh | (rec & _ & Hopen & Hrid & Hh)]).
  - unfold history_ok. rewrite Hh, Hid. split; [exact Hs|].
    eapply Forall_impl; [exact Hf|].
    intros r [Hr | (Hr & Hne)]; [left; exact Hr | right; split; assumption].
  - unfold history_ok. rewrite Hh, Hid. split.
    + rewrite map_app. cbn [List.map]. rewrite Hrid.
      specialize (Hlt Hopen). clear - Hs Hlt.
      induction (history d) as [|r l IH]; cbn.
      * constructor; constructor.
      * apply StronglySorted_inv in Hs as [Hs Hall].
        apply Forall_cons in Hlt as [Hr Hlt].
        constructor; [apply IH; assumption|].
        apply Forall_app. split; [exact Hall|]. constructor; [exact Hr | constructor].
    + apply Forall_app. split.
      * eapply Forall_impl; [exact (Hlt Hopen)|]. intros r Hr. left. exact Hr.
      * constructor; [|constructor]. right. split; assumption.
Qed.

(** X10. In every state the program reaches the history lists rounds by
    strictly increasing id, so a round is recorded at most once; no record is
    ahead of the current round id, and none carries the id of a round that is
    still open. *)
Theorem history_ids_increase (ADMINS : list Z) (ROLL_INTERVAL : Z) (ops : list op) :
  history_ok (run ADMINS ROLL_INTERVAL ops default_data).
Proof.
  unfold run.
  assert (H0 : history_ok default_data) by (split; constructor).
  revert H0. generalize default_data.
  induction ops as [|o ops IH]; intros d Hok; cbn [fold_left]; [exact Hok|].
  apply IH, history_ok_step, Hok.
Qed.

(** ** Bet sets of past rounds *)

Lemma past_bets_step ADMINS ROLL_INTERVAL o d r :
  r < round_id (round d) ->
  bets (step ADMINS ROLL_INTERVAL o d) !! r = bets d !! r.
Proof.
  intros Hr. destruct o;
    try (match goal with
         | |- context [step _ _ ?o' _] =>
             destruct (step_other_frame ADMINS ROLL_INTERVAL o' d
                         ltac:(intros; discriminate)) as (_ & _ & _ & Hb & _)
         end; apply Hb; exact Hr).
  cbn [step]. destruct (close_frame g now d) as (_ & _ & Hb & _). apply Hb. lia.
Qed.

(** X11. The bet set stored under a round id below the current one is never
    read or written again, by any run: no later bet, opening or settlement
    touches it.  Bets left behind when a round is opened over an open one
    are therefore never settled. *)
Theorem past_round_bets_frozen (ADMINS : list Z) (ROLL_INTERVAL : Z)
    (ops : list op) (d : data) (r : Z) :
  r < round_id (round d) ->
  bets (run ADMINS ROLL_INTERVAL ops d) !! r = bets d !! r.
Proof.
  unfold run. revert d. induction ops as [|o ops IH]; intros d Hr; cbn [fold_left];
    [reflexivity|].
  rewrite IH.
  - apply past_bets_step. exact Hr.
  - pose proof (round_id_step ADMINS ROLL_INTERVAL o d). lia.
Qed.

Lemma past_round_bets_frozen_witness :
  round_id (round reopened) = 2 /\
  bets (run [1] 60 [OpBet 7 T 50; OpSchedulerClose (constant_rng 3) 70;
                    OpSchedulerOpen 71; OpSchedulerClose (constant_rng 0) 140] reopened) !! 1
  = Some [(7, {| bet_side := T; amount := 1000 |})].
Proof.
  split; [reflexivity|].
  rewrite (past_round_bets_frozen [1] 60 _ reopened 1); [reflexivity|].
  vm_compute. reflexivity.
Defined.

(** ** Request queues *)

(** X12. A request queue only grows at its end: along any run every request
    keeps its position, id, user, amount and time; decisions change nothing
    but status and deciding admin. *)
Theorem requests_append_only (ADMINS : list Z) (ROLL_INTERVAL : Z) (ops : list op) (d : data) :
  (exists k, List.map req_core (withdraw_requests (run ADMINS ROLL_INTERVAL ops d))
             = List.map req_core (withdraw_requests d) ++ k) /\
  (exists k, List.map req_core (deposit_requests (run ADMINS ROLL_INTERVAL ops d))
             = List.map req_core (deposit_requests d) ++ k).
Proof.
  assert (Hstep : forall o d0,
    (exists k, List.map req_core (withdraw_requests (step ADMINS ROLL_INTERVAL o d0))
               = List.map req_core (withdraw_requests d0) ++ k) /\
    (exists k, List.map req_core (deposit_requests (step ADMINS ROLL_INTERVAL o d0))
               = List.map req_core (deposit_requests d0) ++ k)).
  { intros o d0. destruct o;
      try (match goal with
           | |- context [step _ _ ?o' _] =>
               destruct (step_other_frame ADMINS ROLL_INTERVAL o' d0
                           ltac:(intros; discriminate)) as (_ & _ & _ & _ & Hw & Hd)
           end; split; assumption).
    cbn [step]. destruct (close_frame g now d0) as (_ & _ & _ & -> & -> & _).
    split; exists []; rewrite app_nil_r; reflexivity. }
  unfold run. revert d. induction ops as [|o ops IH]; intros d; cbn [fold_left].
  - split; exists []; rewrite app_nil_r; reflexivity.
  - destruct (IH (step ADMINS ROLL_INTERVAL o d)) as ((k2 & Hw2) & (k2' & Hd2)).
    destruct (Hstep o d) as ((k1 & Hw1) & (k1' & Hd1)).
    split.
    + exists (k1 ++ k2). rewrite Hw2, Hw1, app_assoc. reflexivity.
    + exists (k1' ++ k2'). rewrite Hd2, Hd1, app_assoc. reflexivity.
Qed.

(** ** Users are never removed *)

Lemma present_ensure_user v u d :
  is_Some (users d !! u) -> is_Some (users (ensure_user v d) !! u).
Proof.
  intros H. unfold ensure_user. destruct (users d !! v) eqn:Hv; [exact H|].
  cbn. rewrite lookup_insert. destruct (decide (v = u)); [eauto | exact H].
Qed.

Lemma present_update_user f v u d :
  is_Some (users d !! u) -> is_Some (users (update_user f v d) !! u).
Proof.
  intros H. unfold update_user. cbn. apply lookup_alter_is_Some. exact H.
Qed.

Lemma present_add_balance v a u d :
  is_Some (users d !! u) -> is_Some (users (add_balance v a d) !! u).
Proof. intros H. apply present_update_user, present_ensure_user, H. Qed.

Lemma present_sub_balance v a u d :
  is_Some (users d !! u) -> is_Some (users (sub_balance v a d) !! u).
Proof. intros H. apply present_update_user, present_ensure_user, H. Qed.

Lemma present_credit_payouts u ps : forall d,
  is_Some (users d !! u) -> is_Some (users (credit_payouts ps d) !! u).
Proof.
  unfold credit_payouts. induction ps as [|[v pay] ps IH]; intros d H; cbn [fold_left];
    [exact H|].
  apply IH. unfold credit_one. destruct (0 <? pay).
  - do 2 apply present_update_user. apply present_ensure_user, present_add_balance, H.
  - apply present_update_user, present_ensure_user, H.
Qed.

Lemma present_distribute pa total n bs u ws : forall d,
  is_Some (users d !! u) -> is_Some (users (snd (distribute pa total n bs ws d)) !! u).
Proof.
  induction ws as [|w ws IH]; intros d H; cbn [distribute]; [exact H|].
  destruct (dict_get w bs) as [b|]; [|exact H].
  destruct (jackpot_share pa (amount b) total n); [|exact H].
  apply IH, present_add_balance, H.
Qed.

Lemma present_close g now u d :
  is_Some (users d !! u) -> is_Some (users (snd (close_betting_and_roll g now d)) !! u).
Proof.
  intros H. unfold close_betting_and_roll.
  destruct (negb (status_eqb (status (round d)) StOpen)); [exact H|].
  destruct (roll_dice (round (with_round (set_status StClosed) d)) g) as [dice g'].
  change (bets (with_round (set_status StClosed) d)) with (bets d).
  set (side := side_of_total (Py.sum dice)).
  set (bs0 := default [] (bets d !! round_id (round d))).
  destruct (basic_payouts side bs0 []) as [payouts|]; [|exact H].
  destruct (profit_sum (PAY_MULTI - 1)%float side bs0) as [wp|]; [|exact H].
  destruct (round_mul wp 0.30) as [cut|]; [|exact H].
  fold (settled d side bs0 payouts cut).
  assert (Hs : is_Some (users (settled d side bs0 payouts cut) !! u))
    by (unfold settled; apply present_credit_payouts; exact H).
  assert (Hj : is_Some (users (snd (jackpot dice (winners_of side bs0) bs0
                                     (settled d side bs0 payouts cut))) !! u)).
  { unfold jackpot. destruct (is_triple dice); [|exact Hs].
    destruct (winners_of side bs0) as [|w ws]; [exact Hs|].
    destruct (stakes_of bs0 (w :: ws)) as [stakes|]; [|exact Hs].
    pose proof (present_distribute (pot (settled d side bs0 payouts cut)) (Py.sum stakes)
                  (Z.of_nat (length (w :: ws))) bs0 u (w :: ws) _ Hs) as Hd.
    destruct (distribute _ _ _ bs0 (w :: ws) _) as [[[]|] dj]; cbn [snd] in *; exact Hd. }
  destruct (jackpot dice (winners_of side bs0) bs0 (settled d side bs0 payouts cut))
    as [[dist|] dj]; cbn [snd] in *; [|exact Hj].
  destruct (bets dj !! round_id (round d)); cbn [snd]; exact Hj.
Qed.

Lemma present_step ADMINS ROLL_INTERVAL o u d :
  is_Some (users d !! u) -> is_Some (users (step ADMINS ROLL_INTERVAL o d) !! u).
Proof.
  intros H. destruct o; cbn [step].
  - unfold start_cmd, give_first_bonus_if_needed.
    rewrite !ensure_user_idem, ensure_user_lookup.
    destruct (negb _); cbn [snd];
      repeat first [apply present_update_user | apply present_ensure_user]; exact H.
  - unfold balance_cmd, get_balance. cbn [snd].
    do 2 apply present_ensure_user. exact H.
  - unfold handle_bet_command, get_balance. cbv beta iota zeta.
    destruct (negb (status_eqb (status (round d)) StOpen)); [exact H|].
    repeat match goal with
           | |- context [if ?c then _ else _] =>
               destruct c; [cbn [snd]; do 2 apply present_ensure_user; exact H|]
           end.
    cbn [snd]. apply present_ensure_user.
    change (users (with_bets ?f ?x)) with (users x).
    apply present_sub_balance. do 2 apply present_ensure_user. exact H.
  - unfold open_bet_cmd. destruct (negb (is_admin ADMINS sender)); exact H.
  - exact H.
  - unfold withdraw_cmd, get_balance. cbv beta iota zeta.
    destruct (amt <? 100000); [exact H|].
    destruct (_ <? amt); cbn [snd];
      [|change (users (with_withdraw_requests ?f ?x)) with (users x)];
      apply present_ensure_user; exact H.
  - unfold callback_query_handler.
    destruct (negb (is_admin ADMINS sender)); [exact H|].
    destruct cb as [rid|rid|rid|rid|val|]; try exact H.
    + destruct (decide_first rid Approved sender (deposit_requests d)) as [[r|] l];
        [|exact H]. apply present_add_balance. exact H.
    + destruct (decide_first rid Denied sender (deposit_requests d)) as [[r|] l]; exact H.
    + destruct (decide_first rid Approved sender (withdraw_requests d)) as [[r|] l];
        [|exact H]. apply present_sub_balance. exact H.
    + destruct (decide_first rid Denied sender (withdraw_requests d)) as [[r|] l]; exact H.
  - unfold admin_setnext. destruct (negb (is_admin ADMINS sender)); [exact H|].
    destruct val as [[]|]; exact H.
  - unfold admin_setbias. destruct (negb (is_admin ADMINS sender)); [exact H|].
    destruct (_ || _); exact H.
  - unfold admin_credit. destruct (negb (is_admin ADMINS sender)); [exact H|].
    apply present_add_balance. exact H.
  - unfold scheduler_open. destruct (status_eqb _ _); exact H.
  - apply present_close. exact H.
Qed.

(** X13. A user record, once created, is never removed: whoever is in the
    users table stays in it along every run. *)
Theorem users_never_removed (ADMINS : list Z) (ROLL_INTERVAL : Z)
    (ops : list op) (d : data) (u : Z) :
  is_Some (users d !! u) -> is_Some (users (run ADMINS ROLL_INTERVAL ops d) !! u).
Proof.
  unfold run. revert d. induction ops as [|o ops IH]; intros d H; cbn [fold_left];
    [exact H|].
  apply IH, present_step, H.
Qed.

Lemma users_never_removed_witness :
  is_Some (users (run [1] 60 [OpSchedulerClose (constant_rng 0) 5; OpSchedulerOpen 6]
                    one_bet_open) !! 7).
Proof.
  apply users_never_removed. vm_compute. eauto.
Defined.

(** ** What a plain user can do *)

Lemma account_start_other v u d : v <> u -> account u (snd (start_cmd v d)) = account u d.
Proof.
  intros Hne. unfold start_cmd, give_first_bonus_if_needed.
  rewrite !ensure_user_idem, ensure_user_lookup.
  destruct (negb _); cbn [snd].
  - rewrite !account_update_user_ne, account_ensure_user by assumption. reflexivity.
  - apply account_ensure_user.
Qed.

(** X14. An admin command sent by somebody who is not an admin changes
    nothing.  And nothing a plain user can send raises anybody's balance,
    except a first [/start], which adds the bonus to the sender's own. *)
Theorem plain_user_cannot_credit (ADMINS : list Z) (ROLL_INTERVAL : Z) (o : op) (d : data) :
  (forall s, admin_command o = Some s -> is_admin ADMINS s = false ->
     step ADMINS ROLL_INTERVAL o d = d) /\
  (unprivileged ADMINS o = true ->
   forall u,
     balance_of u (step ADMINS ROLL_INTERVAL o d) <= balance_of u d \/
     (o = OpStart u /\ first_bonus_given (account u d) = false /\
      balance_of u (step ADMINS ROLL_INTERVAL o d) = balance_of u d + INITIAL_BONUS)).
Proof.
  assert (Hadm : forall s, admin_command o = Some s -> is_admin ADMINS s = false ->
            step ADMINS ROLL_INTERVAL o d = d).
  { intros s Hs Hno. destruct o; try discriminate; injection Hs as ->; cbn [step].
    - unfold open_bet_cmd. rewrite Hno. reflexivity.
    - unfold callback_query_handler. rewrite Hno. reflexivity.
    - unfold admin_setnext. rewrite Hno. reflexivity.
    - unfold admin_setbias. rewrite Hno. reflexivity.
    - unfold admin_credit. rewrite Hno. reflexivity. }
  split; [exact Hadm|].
  intros Hun u.
  destruct o; cbn [unprivileged] in Hun; try discriminate;
    try (left; erewrite Hadm;
         [lia | reflexivity | destruct (is_admin ADMINS sender); [discriminate | reflexivity]]).
  - cbn [step]. destruct (decide (uid = u)) as [->|Hne].
    + pose proof (balance_start_self u d) as Hb.
      destruct (first_bonus_given (account u d)) eqn:Hg.
      * left. lia.
      * right. split; [reflexivity|]. split; [reflexivity | exact Hb].
    + left. rewrite !balance_of_account, account_start_other by assumption. lia.
  - left. cbn [step]. unfold balance_cmd, get_balance. cbn [snd].
    rewrite !balance_of_account, !account_ensure_user. lia.
  - left. cbn [step].
    destruct (handle_bet_command uid sd amt d) as [[| | | |rid bal] d'] eqn:Hbet;
      try (rewrite <- (refused_bet_keeps_balance uid sd amt d u);
           [rewrite Hbet; cbn [snd]; lia | rewrite Hbet; cbn [fst]; discriminate]).
    cbn [snd].
    destruct (accepted_bet_inv _ _ _ _ _ _ _ Hbet) as (_ & Hamt & _ & _ & ->).
    rewrite !balance_of_account, account_ensure_user.
    change (account u (with_bets ?f ?x)) with (account u x).
    rewrite account_sub_balance, account_ensure_user.
    destruct (decide (uid = u)); cbn [balance set_balance]; lia.
  - left. cbn [step]. unfold deposit_cmd, balance_of.
    cbn [users with_deposit_requests]. lia.
  - left. cbn [step]. unfold withdraw_cmd, get_balance. cbv beta iota zeta.
    destruct (amt <? 100000); [cbn [snd]; lia|].
    destruct (_ <? amt); cbn [snd]; rewrite !balance_of_account;
      [|change (account u (with_withdraw_requests ?f ?x)) with (account u x)];
      rewrite account_ensure_user; lia.
Qed.

Lemma plain_user_cannot_credit_witness :
  step [1] 60 (OpCredit 7 7 1000000) one_bet_open = one_bet_open /\
  balance_of 7 (step [1] 60 (OpDeposit 7 1000000 1001 1) one_bet_open)
    <= balance_of 7 one_bet_open.
Proof.
  split.
  - apply (proj1 (plain_user_cannot_credit [1] 60 (OpCredit 7 7 1000000) one_bet_open) 7);
      reflexivity.
  - destruct (proj2 (plain_user_cannot_credit [1] 60 (OpDeposit 7 1000000 1001 1)
                       one_bet_open) eq_refl 7) as [H | (H & _)];
      [exact H | discriminate].
Defined.

(** ** Filing and deciding requests *)

(** X15. A withdraw request is filed exactly when the amount is at least
    100000 and within the user's balance; it goes to the end of the queue as
    pending; filing debits nobody.  A deposit request is always filed. *)
Theorem filing_requests (uid amt now_ms now : Z) (d : data) :
  fst (withdraw_cmd uid amt now_ms now d)
    = (100000 <=? amt) && (amt <=? balance_of uid d) /\
  withdraw_requests (snd (withdraw_cmd uid amt now_ms now d))
    = withdraw_requests d ++
      (if fst (withdraw_cmd uid amt now_ms now d)
       then [new_request now_ms uid amt now] else []) /\
  (forall u, balance_of u (snd (withdraw_cmd uid amt now_ms now d)) = balance_of u d) /\
  deposit_requests (deposit_cmd uid amt now_ms now d)
    = deposit_requests d ++ [new_request now_ms uid amt now] /\
  (forall u, balance_of u (deposit_cmd uid amt now_ms now d) = balance_of u d).
Proof.
  unfold withdraw_cmd, get_balance. cbv beta iota zeta.
  rewrite ensure_user_lookup, <- balance_of_account.
  destruct (Z.ltb_spec amt 100000) as [Hlow|Hhigh].
  - cbn [fst snd]. rewrite (proj2 (Z.leb_gt 100000 amt)) by lia. cbn [andb].
    rewrite app_nil_r. repeat split; reflexivity.
  - rewrite (proj2 (Z.leb_le 100000 amt)) by lia. cbn [andb].
    destruct (Z.ltb_spec (balance_of uid d) amt) as [Hlt|Hge]; cbn [fst snd].
    + rewrite (proj2 (Z.leb_gt amt (balance_of uid d))) by lia.
      rewrite app_nil_r, withdraw_requests_ensure_user.
      split; [reflexivity|]. split; [reflexivity|]. split; [|split; reflexivity].
      intros u. rewrite !balance_of_account, account_ensure_user. reflexivity.
    + rewrite (proj2 (Z.leb_le amt (balance_of uid d))) by lia.
      cbn [withdraw_requests with_withdraw_requests].
      rewrite withdraw_requests_ensure_user.
      split; [reflexivity|]. split; [reflexivity|]. split; [|split; reflexivity].
      intros u. rewrite !balance_of_account.
      change (account u (with_withdraw_requests ?f ?x)) with (account u x).
      rewrite account_ensure_user. reflexivity.
Qed.

(** X16. A decision on an id that is in neither queue changes nothing.  A
    denial of a request that is found leaves every user record as it was and
    marks the request denied by the deciding admin. *)
Theorem unknown_id_and_denial (ADMINS : list Z) (sender rid : Z) (d : data) :
  is_admin ADMINS sender = true ->
  (find_request rid (deposit_requests d) = None ->
   callback_query_handler ADMINS sender (approve_deposit rid) d = d /\
   callback_query_handler ADMINS sender (deny_deposit rid) d = d) /\
  (find_request rid (withdraw_requests d) = None ->
   callback_query_handler ADMINS sender (approve_withdraw rid) d = d /\
   callback_query_handler ADMINS sender (deny_withdraw rid) d = d) /\
  (forall r, find_request rid (deposit_requests d) = Some r ->
     users (callback_query_handler ADMINS sender (deny_deposit rid) d) = users d /\
     find_request rid
       (deposit_requests (callback_query_handler ADMINS sender (deny_deposit rid) d))
     = Some (decided Denied sender r)) /\
  (forall r, find_request rid (withdraw_requests d) = Some r ->
     users (callback_query_handler ADMINS sender (deny_withdraw rid) d) = users d /\
     find_request rid
       (withdraw_requests (callback_query_handler ADMINS sender (deny_withdraw rid) d))
     = Some (decided Denied sender r)).
Proof.
  intros Hadm. unfold callback_query_handler. rewrite Hadm. cbn [negb].
  split; [|split; [|split]].
  - intros Hnone.
    pose proof (decide_first_find rid Approved sender (deposit_requests d)) as Ha.
    pose proof (decide_first_find rid Denied sender (deposit_requests d)) as Hd.
    rewrite Hnone in Ha, Hd.
    destruct (decide_first rid Approved sender (deposit_requests d)) as [fa la].
    destruct (decide_first rid Denied sender (deposit_requests d)) as [fd ld].
    cbn [fst] in *. subst. split; reflexivity.
  - intros Hnone.
    pose proof (decide_first_find rid Approved sender (withdraw_requests d)) as Ha.
    pose proof (decide_first_find rid Denied sender (withdraw_requests d)) as Hd.
    rewrite Hnone in Ha, Hd.
    destruct (decide_first rid Approved sender (withdraw_requests d)) as [fa la].
    destruct (decide_first rid Denied sender (withdraw_requests d)) as [fd ld].
    cbn [fst] in *. subst. split; reflexivity.
  - intros r Hfind.
    pose proof (decide_first_find rid Denied sender (deposit_requests d)) as Hf.
    pose proof (find_after_decide rid Denied sender (deposit_requests d)) as Ha.
    destruct (decide_first rid Denied sender (deposit_requests d)) as [found l].
    cbn [fst snd] in *. rewrite Hfind in Hf, Ha. subst found.
    split; [reflexivity | exact Ha].
  - intros r Hfind.
    pose proof (decide_first_find rid Denied sender (withdraw_requests d)) as Hf.
    pose proof (find_after_decide rid Denied sender (withdraw_requests d)) as Ha.
    destruct (decide_first rid Denied sender (withdraw_requests d)) as [found l].
    cbn [fst snd] in *. rewrite Hfind in Hf, Ha. subst found.
    split; [reflexivity | exact Ha].
Qed.

Lemma unknown_id_and_denial_witness :
  callback_query_handler [1] 1 (approve_deposit 42) deposit_pending = deposit_pending /\
  users (callback_query_handler [1] 1 (deny_deposit 1001) deposit_pending)
  = users deposit_pending.
Proof.
  destruct (unknown_id_and_denial [1] 1 42 deposit_pending eq_refl) as (H42 & _).
  destruct (unknown_id_and_denial [1] 1 1001 deposit_pending eq_refl) as (_ & _ & Hd & _).
  split.
  - apply H42. reflexivity.
  - apply (Hd (new_request 1001 7 500 1)). reflexivity.
Defined.

(** ** The dice of a round *)

Lemma generate_dice_wf s g :
  length (fst (generate_dice_for_side s g)) = 3%nat /\
  Forall (fun x => 1 <= x <= 6) (fst (generate_dice_for_side s g)).
Proof.
  unfold generate_dice_for_side.
  pose proof (generate_loop_spec 200 s g) as H.
  destruct (generate_loop 200 s g) as [[d|] g'].
  - destruct H as (k & _ & _ & _ & Hl & Hf & _). split; assumption.
  - pose proof (roll3_spec g') as (Hl & Hf & _). split; assumption.
Qed.

Lemma roll_dice_wf r g :
  length (fst (roll_dice r g)) = 3%nat /\
  Forall (fun x => 1 <= x <= 6) (fst (roll_dice r g)).
Proof.
  assert (Hplain : match bias r with
                   | Some pT =>
                       let '(x, g0) := random g in
                       generate_dice_for_side (if (x <? pT)%float then T else X) g0
                   | None => roll3 g
                   end = roll_dice (set_forced_next None r) g) by reflexivity.
  assert (Hwf : length (fst (roll_dice (set_forced_next None r) g)) = 3%nat /\
                Forall (fun x => 1 <= x <= 6) (fst (roll_dice (set_forced_next None r) g))).
  { unfold roll_dice. cbn [forced_next set_forced_next bias].
    destruct (bias r) as [pT|].
    - destruct (random g) as [x g0]. apply generate_dice_wf.
    - pose proof (roll3_spec g) as (Hl & Hf & _). split; assumption. }
  unfold roll_dice. rewrite Hplain.
  destruct (forced_next r) as [f|]; [|exact Hwf].
  destruct f as [|a f]; [exact Hwf|].
  destruct a as [[] [] [] [] [] [] [] []]; try exact Hwf;
    destruct f; try exact Hwf; apply generate_dice_wf.
Qed.

Lemma triple_dice a b c :
  is_triple [a; b; c] = true -> (a = 1 /\ b = 1 /\ c = 1) \/ (a = 6 /\ b = 6 /\ c = 6).
Proof.
  unfold is_triple, Py.count. cbn [List.filter].
  destruct (Z.eqb_spec a 1), (Z.eqb_spec b 1), (Z.eqb_spec c 1);
    destruct (Z.eqb_spec a 6), (Z.eqb_spec b 6), (Z.eqb_spec c 6);
    cbn; intros H; try discriminate; subst; auto; lia.
Qed.

(** X17. The record of a round always carries three dice, each from 1 to 6,
    so the total is from 3 to 18.  A triple of 1s or 6s totals 3 or 18 and
    resolves to X: whatever the jackpot distributes goes to bets on X. *)
Theorem record_dice (g : rng) (now : Z) (d d' : data) (rec : hist_rec) :
  close_betting_and_roll g now d = (Return (Some rec), d') ->
  length (h_dice rec) = 3%nat /\
  Forall (fun x => 1 <= x <= 6) (h_dice rec) /\
  3 <= h_total rec <= 18 /\
  (is_triple (h_dice rec) = true ->
   h_side rec = X /\ (h_total rec = 3 \/ h_total rec = 18)).
Proof.
  intros H.
  destruct (close_resolved_inv _ _ _ _ _ H)
    as (bs & payouts & wp & cut & dist & dj & _ & _ & _ & _ & _ & _ & Hrec & _).
  pose proof (roll_dice_wf (round d) g) as (Hl & Hf).
  rewrite Hrec. cbn [h_dice h_total h_side].
  destruct (fst (roll_dice (round d) g)) as [|a [|b [|c [|? ?]]]]; try discriminate.
  split; [reflexivity|]. split; [exact Hf|].
  apply Forall_cons in Hf as [Ha Hf]. apply Forall_cons in Hf as [Hb Hf].
  apply Forall_cons in Hf as [Hc _].
  split; [unfold Py.sum; cbn; lia|].
  intros Htr. destruct (triple_dice a b c Htr) as [(-> & -> & ->) | (-> & -> & ->)];
    split; (reflexivity || (left; reflexivity) || (right; reflexivity)).
Qed.

Lemma record_dice_witness :
  h_side three_bets_record = X /\ 3 <= h_total three_bets_record <= 18.
Proof.
  destruct (record_dice _ _ _ _ _ three_bets_resolve) as (_ & _ & Ht & Htr).
  split; [|exact Ht]. apply Htr. reflexivity.
Defined.

(** X18. A side forced by an admin is the side of the round, unless all 200
    constrained attempts missed it, in which case the dice are one more
    unconstrained roll. *)
Theorem forced_side_honoured (g : rng) (now : Z) (d d' : data) (rec : hist_rec) (s : side) :
  close_betting_and_roll g now d = (Return (Some rec), d') ->
  forced_next (round d) = Some (forced_string s) ->
  h_side rec = s \/
  (fst (generate_loop 200 s g) = None /\
   h_dice rec = fst (roll3 (snd (generate_loop 200 s g)))).
Proof.
  intros H Hforced.
  destruct (close_resolved_inv _ _ _ _ _ H)
    as (bs & payouts & wp & cut & dist & dj & _ & _ & _ & _ & _ & _ & Hrec & _).
  rewrite Hrec. cbn [h_dice h_side].
  assert (Hroll : roll_dice (round d) g = generate_dice_for_side s g).
  { unfold roll_dice. rewrite Hforced. destruct s; reflexivity. }
  rewrite Hroll. unfold generate_dice_for_side.
  pose proof (generate_loop_spec 200 s g) as Hl.
  destruct (generate_loop 200 s g) as [[dice|] g'].
  - left. destruct Hl as (k & _ & _ & _ & _ & _ & Hs). exact Hs.
  - right. split; reflexivity.
Qed.

Lemma forced_side_honoured_witness :
  exists rec, fst (close_betting_and_roll counting_rng 5 bonus_bet_forced) = Return (Some rec) /\
              h_side rec = X.
Proof.
  assert (H : close_betting_and_roll counting_rng 5 bonus_bet_forced
              = (Return (Some {| h_id := 1; h_timestamp := 5; h_dice := [1; 2; 3];
                                 h_total := 6; h_side := X;
                                 h_bets := [(7, {| bet_side := T; amount := 500 |})];
                                 h_payouts := [(7, 0)];
                                 h_pot_before := 0; h_pot_after := 500;
                                 h_distributed_from_pot := 0 |}),
                 snd (close_betting_and_roll counting_rng 5 bonus_bet_forced)))
    by (vm_compute; reflexivity).
  eexists. split; [rewrite H; reflexivity|].
  destruct (forced_side_honoured _ _ _ _ _ X H eq_refl) as [Hs | (Hnone & _)];
    [exact Hs | vm_compute in Hnone; discriminate].
Defined.

(** ** An empty round, and a round that cannot be settled *)

(** X19. From an idle state one turn of the scheduler with no bet placed
    always resolves: it records the next round id with empty bets and
    payouts, and leaves users and pot as they were, also on a triple. *)
Theorem empty_round_resolves (ROLL_INTERVAL : Z) (g : rng) (now_open now_close : Z) (d : data) :
  status (round d) = StIdle ->
  exists rec,
    fst (scheduler_turn ROLL_INTERVAL g now_open now_close d) = Return (Some rec) /\
    h_id rec = round_id (round d) + 1 /\
    h_bets rec = [] /\ h_payouts rec = [] /\ h_distributed_from_pot rec = 0 /\
    users (snd (scheduler_turn ROLL_INTERVAL g now_open now_close d)) = users d /\
    pot (snd (scheduler_turn ROLL_INTERVAL g now_open now_close d)) = pot d /\
    history (snd (scheduler_turn ROLL_INTERVAL g now_open now_close d)) = history d ++ [rec] /\
    status (round (snd (scheduler_turn ROLL_INTERVAL g now_open now_close d))) = StIdle.
Proof.
  intros Hidle. unfold scheduler_turn, scheduler_open. rewrite Hidle. cbn [status_eqb].
  set (d1 := snd (let '(rid, d0) := open_new_round ROLL_INTERVAL now_open d in (Some rid, d0))).
  assert (Hst : status (round d1) = StOpen) by reflexivity.
  assert (Hid : round_id (round d1) = round_id (round d) + 1) by reflexivity.
  assert (Hb : bets d1 !! round_id (round d1) = Some []) by apply lookup_insert_eq.
  assert (Hu : users d1 = users d) by reflexivity.
  assert (Hp : pot d1 = pot d) by reflexivity.
  assert (Hh : history d1 = history d) by reflexivity.
  clearbody d1. rewrite <- Hid, <- Hu, <- Hp, <- Hh. clear Hid Hu Hp Hh Hidle d.
  unfold close_betting_and_roll. rewrite Hst. cbn [status_eqb negb].
  destruct (roll_dice _ g) as [dice g'].
  change (bets (with_round (set_status StClosed) d1)) with (bets d1).
  rewrite Hb. change (default [] (Some [])) with ([] : dict bet).
  cbn [basic_payouts profit_sum].
  rewrite round_mul_zero by reflexivity.
  cbn [winners_of List.filter List.map credit_payouts fold_left].
  assert (Hj : forall d0, jackpot dice [] [] d0 = (Return 0, d0))
    by (intros d0; unfold jackpot; destruct (is_triple dice); reflexivity).
  rewrite Hj. cbn [bets with_pot with_round with_bets].
  repeat match goal with
         | |- context [@lookup ?a ?b ?c ?i (round_id (round d1)) (bets d1)] =>
             replace (@lookup a b c i (round_id (round d1)) (bets d1))
               with (Some ([] : dict bet)) by (symmetry; exact Hb)
         end.
  eexists. cbn [fst snd]. split; [reflexivity|].
  cbn. repeat split; try reflexivity. unfold total_stake. cbn. lia.
Qed.

Lemma empty_round_resolves_witness :
  pot (snd (scheduler_turn 60 (constant_rng 5) 0 60 one_bet_lost)) = pot one_bet_lost /\
  users (snd (scheduler_turn 60 (constant_rng 5) 0 60 one_bet_lost)) = users one_bet_lost.
Proof.
  destruct (empty_round_resolves 60 (constant_rng 5) 0 60 one_bet_lost eq_refl)
    as (rec & _ & _ & _ & _ & _ & Hu & Hp & _).
  split; [exact Hp | exact Hu].
Defined.

Lemma overflow_bet_raises :
  fst (close_betting_and_roll (constant_rng 3) 5 overflow_bet_open) = Raise.
Proof. vm_compute. reflexivity. Qed.

(** X20. When [close_betting_and_roll] is left by an exception the round
    stays closed with its bet set in place, and the scheduler alone never
    moves on: it opens nothing, since the status is not idle, and its next
    calls of [close_betting_and_roll] find no open round. *)
Theorem exception_wedges_scheduler (ROLL_INTERVAL : Z) (g : rng) (now : Z) (d : data) :
  fst (close_betting_and_roll g now d) = Raise ->
  let d' := snd (close_betting_and_roll g now d) in
  status (round d') = StClosed /\
  bets d' = bets d /\
  history d' = history d /\
  (forall t, scheduler_open ROLL_INTERVAL t d' = (None, d')) /\
  (forall g' t, close_betting_and_roll g' t d' = (Return None, d')) /\
  (forall g' t t', scheduler_turn ROLL_INTERVAL g' t t' d' = (Return None, d')).
Proof.
  intros Hraise. cbn zeta.
  destruct (close_outcomes g now d)
    as [(_ & Heq) | [(_ & _ & Hr & Hb & Hh & _) | (_ & rec & Hrec)]].
  - rewrite Heq in Hraise. discriminate.
  - assert (Hst : status (round (snd (close_betting_and_roll g now d))) = StClosed)
      by (rewrite Hr; reflexivity).
    assert (Hopen : forall t, scheduler_open ROLL_INTERVAL t
                                (snd (close_betting_and_roll g now d))
                              = (None, snd (close_betting_and_roll g now d)))
      by (intros t; unfold scheduler_open; rewrite Hst; reflexivity).
    assert (Hclose : forall g' t, close_betting_and_roll g' t
                                    (snd (close_betting_and_roll g now d))
                                  = (Return None, snd (close_betting_and_roll g now d)))
      by (intros g' t; apply close_not_open; rewrite Hst; discriminate).
    repeat split; try assumption.
    intros g' t t'. unfold scheduler_turn. rewrite Hopen. cbn [snd]. apply Hclose.
  - rewrite Hrec in Hraise. discriminate.
Qed.

Lemma exception_wedges_scheduler_witness :
  status (round (snd (close_betting_and_roll (constant_rng 3) 5 overflow_bet_open)))
    = StClosed /\
  scheduler_turn 60 (constant_rng 0) 6 66
    (snd (close_betting_and_roll (constant_rng 3) 5 overflow_bet_open))
  = (Return None, snd (close_betting_and_roll (constant_rng 3) 5 overflow_bet_open)).
Proof.
  destruct (exception_wedges_scheduler 60 (constant_rng 3) 5 overflow_bet_open
              overflow_bet_raises) as (Hst & _ & _ & _ & _ & Hturn).
  split; [exact Hst | apply Hturn].
Defined.

(** ** The masked user id *)

(** X21. A user id of five characters or more is shown as eight characters:
    its first two, then three dots, then its last three, so ids that agree on
    those five characters are shown alike; a shorter id is shown in full. *)
Theorem user_display_mask_shape (s : list ascii) :
  ((length s < 5)%nat -> user_display_mask s = s) /\
  ((5 <= length s)%nat ->
   length (user_display_mask s) = 8%nat /\
   firstn 2 (user_display_mask s) = firstn 2 s /\
   firstn 3 (skipn 2 (user_display_mask s)) = ["."; "."; "."]%char /\
   skipn 5 (user_display_mask s) = skipn (length s - 3) s /\
   forall t, (5 <= length t)%nat ->
     firstn 2 t = firstn 2 s -> skipn (length t - 3) t = skipn (length s - 3) s ->
     user_display_mask t = user_display_mask s).
Proof.
  unfold user_display_mask. split.
  - intros H. rewrite (proj2 (Nat.leb_gt 5 (length s))) by lia. reflexivity.
  - intros H. rewrite (proj2 (Nat.leb_le 5 (length s))) by lia.
    assert (H2 : length (firstn 2 s) = 2%nat) by (rewrite List.length_firstn; lia).
    split; [|split; [|split; [|split]]].
    + rewrite !List.length_app, H2, List.length_skipn. cbn. lia.
    + destruct s as [|a [|b s]]; cbn in H; try lia. reflexivity.
    + destruct s as [|a [|b s]]; cbn in H; try lia. reflexivity.
    + destruct s as [|a [|b s]]; cbn in H; try lia. reflexivity.
    + intros t Ht Hf Hl. rewrite (proj2 (Nat.leb_le 5 (length t))) by lia.
      rewrite Hf, Hl. reflexivity.
Qed.

Lemma user_display_mask_shape_witness :
  firstn 3 (skipn 2 (user_display_mask (list_ascii_of_string "123456789")))
    = ["."; "."; "."]%char /\
  user_display_mask (list_ascii_of_string "987654321")
    = user_display_mask (list_ascii_of_string "98000321") /\
  user_display_mask (list_ascii_of_string "1234") = list_ascii_of_string "1234".
Proof.
  split; [|split].
  - destruct (proj2 (user_display_mask_shape (list_ascii_of_string "123456789")))
      as (_ & _ & Hdots & _); [cbn; lia | exact Hdots].
  - destruct (proj2 (user_display_mask_shape (list_ascii_of_string "98000321")))
      as (_ & _ & _ & _ & Hsame); [cbn; lia|].
    apply Hsame; [cbn; lia | reflexivity | reflexivity].
  - apply (proj1 (user_display_mask_shape (list_ascii_of_string "1234"))). cbn. lia.
Defined.

(** ** The leaderboard *)

Lemma insert_row_perm x l : Permutation (x :: l) (insert_row x l).
Proof.
  induction l as [|y l IH]; cbn; [reflexivity|].
  destruct (row_streak y <=? row_streak x); [reflexivity|].
  rewrite perm_swap. apply perm_skip. exact IH.
Qed.

Lemma sort_rows_perm l : Permutation l (sort_rows l).
Proof.
  induction l as [|x l IH]; cbn; [reflexivity|].
  rewrite <- insert_row_perm. apply perm_skip. exact IH.
Qed.

Lemma insert_row_sorted x l :
  StronglySorted (fun a b => row_streak b <= row_streak a) l ->
  StronglySorted (fun a b => row_streak b <= row_streak a) (insert_row x l).
Proof.
  induction l as [|y l IH]; intros Hs; cbn.
  - constructor; constructor.
  - apply StronglySorted_inv in Hs as [Hs Hall].
    destruct (Z.leb_spec (row_streak y) (row_streak x)) as [Hle|Hgt].
    + constructor; [constructor; assumption|].
      constructor; [exact Hle|].
      eapply Forall_impl; [exact Hall|]. cbn. intros z Hz. lia.
    + constructor; [apply IH; exact Hs|].
      eapply Permutation_Forall; [apply insert_row_perm|].
      constructor; [lia | exact Hall].
Qed.

Lemma sort_rows_sorted l :
  StronglySorted (fun a b => row_streak b <= row_streak a) (sort_rows l).
Proof.
  induction l as [|x l IH]; cbn; [constructor|]. apply insert_row_sorted, IH.
Qed.

Lemma sorted_app_cross {A} (R : A -> A -> Prop) l1 l2 :
  StronglySorted R (l1 ++ l2) ->
  StronglySorted R l1 /\ forall a b, In a l1 -> In b l2 -> R a b.
Proof.
  induction l1 as [|x l1 IH]; cbn; intros Hs.
  - split; [constructor | intros a b []].
  - apply StronglySorted_inv in Hs as [Hs Hall].
    destruct (IH Hs) as (Hs1 & Hcross).
    apply Forall_app in Hall as [Hall1 Hall2].
    split; [constructor; assumption|].
    intros a b [<-|Ha] Hb.
    + rewrite Forall_forall in Hall2. apply Hall2, list_elem_of_In, Hb.
    + apply Hcross; assumption.
Qed.

Example sort_rows_keeps_ties_in_order :
  sort_rows [(1, 5, 0); (2, 7, 0); (3, 5, 0); (4, 7, 0)]
  = [(2, 7, 0); (4, 7, 0); (1, 5, 0); (3, 5, 0)].
Proof. reflexivity. Qed.

(** X22. The leaderboard shows the ten rows with the best streaks, or all of
    them when there are fewer, from the best down: the rows shown and the rows
    left out make up the input, and no row left out has a better streak than
    a row shown. *)
Theorem leaderboard_shows_top_ten (rows : list row) :
  length (leaderboard_cmd rows) = Nat.min 10 (length rows) /\
  StronglySorted (fun a b => row_streak b <= row_streak a) (leaderboard_cmd rows) /\
  exists rest,
    Permutation rows (leaderboard_cmd rows ++ rest) /\
    forall a b, In a (leaderboard_cmd rows) -> In b rest -> row_streak b <= row_streak a.
Proof.
  unfold leaderboard_cmd.
  pose proof (sort_rows_perm rows) as Hperm.
  pose proof (sort_rows_sorted rows) as Hsorted.
  rewrite <- (List.firstn_skipn 10 (sort_rows rows)) in Hsorted.
  destruct (sorted_app_cross _ _ _ Hsorted) as (Hs1 & Hcross).
  split.
  - rewrite List.length_firstn, <- (Permutation_length Hperm). reflexivity.
  - split; [exact Hs1|].
    exists (skipn 10 (sort_rows rows)). split; [|exact Hcross].
    rewrite List.firstn_skipn. exact Hperm.
Qed.

(** ** The history shown *)

(** X23. [/history] answers that there is none when the history is empty and
    otherwise shows the ten most recent rounds, or all of them when there are
    fewer, newest first; right after a round is resolved its record is the
    first one shown. *)
Theorem show_history_newest_first (d : data) :
  (history d = [] -> show_history_cmd d = None) /\
  (history d <> [] -> show_history_cmd d = Some (firstn 10 (rev (history d)))) /\
  (forall g now d' rec,
     close_betting_and_roll g now d = (Return (Some rec), d') ->
     show_history_cmd d' = Some (rec :: firstn 9 (rev (history d)))).
Proof.
  assert (Hne : forall d0, history d0 <> [] ->
            show_history_cmd d0 = Some (firstn 10 (rev (history d0)))).
  { intros d0 Hne. unfold show_history_cmd. rewrite List.firstn_rev.
    destruct (skipn (length (history d0) - 10) (history d0)) as [|r l] eqn:Hskip;
      [|reflexivity].
    exfalso. apply (f_equal (@length hist_rec)) in Hskip.
    rewrite List.length_skipn in Hskip. cbn in Hskip.
    destruct (history d0); [congruence | cbn in Hskip; lia]. }
  split; [|split].
  - intros Hnil. unfold show_history_cmd. rewrite Hnil. reflexivity.
  - apply Hne.
  - intros g now d' rec H.
    destruct (close_resolved_fields _ _ _ _ _ H) as (Hh & _).
    rewrite Hne by (rewrite Hh; intros Hnil; apply app_eq_nil in Hnil as [_ Hnil]; discriminate).
    rewrite Hh, rev_app_distr. reflexivity.
Qed.

Lemma show_history_newest_first_witness :
  show_history_cmd default_data = None /\
  show_history_cmd one_bet_resolved = Some [one_bet_record].
Proof.
  split.
  - apply (proj1 (show_history_newest_first default_data)). reflexivity.
  - exact (proj2 (proj2 (show_history_newest_first one_bet_open)) _ _ _ _ one_bet_resolves).
Defined.

(** ** The crash monitor *)

(** X24. The crash monitor raises no alarm while the history is empty.  Once
    a round has been resolved at time [now], it raises the alarm exactly when
    more than three roll intervals have passed since, and no entry point
    other than the next settlement changes that. *)
Theorem crash_alert_after_three_intervals (ADMINS : list Z) (ROLL_INTERVAL : Z) (d : data) :
  (history d = [] -> forall t, crash_alert ROLL_INTERVAL t d = false) /\
  (forall g now d' rec,
     close_betting_and_roll g now d = (Return (Some rec), d') ->
     forall t, crash_alert ROLL_INTERVAL t d' = (ROLL_INTERVAL * 3 <? t - now)) /\
  (forall o t, (forall g now, o <> OpSchedulerClose g now) ->
     crash_alert ROLL_INTERVAL t (step ADMINS ROLL_INTERVAL o d)
     = crash_alert ROLL_INTERVAL t d).
Proof.
  split; [|split].
  - intros Hnil t. unfold crash_alert. rewrite Hnil. reflexivity.
  - intros g now d' rec H t.
    destruct (close_resolved_fields _ _ _ _ _ H) as (Hh & _ & Hts & _).
    unfold crash_alert. rewrite Hh, last_snoc, Hts. reflexivity.
  - intros o t Hno.
    destruct (step_other_frame ADMINS ROLL_INTERVAL o d Hno) as (Hh & _).
    unfold crash_alert. rewrite Hh. reflexivity.
Qed.

Lemma crash_alert_after_three_intervals_witness :
  crash_alert 60 100 default_data = false /\
  crash_alert 60 185 one_bet_resolved = false /\
  crash_alert 60 186 one_bet_resolved = true.
Proof.
  destruct (crash_alert_after_three_intervals [1] 60 default_data) as (H0 & _).
  destruct (crash_alert_after_three_intervals [1] 60 one_bet_open) as (_ & H1 & _).
  split; [apply H0; reflexivity|].
  split; rewrite (H1 _ _ _ _ one_bet_resolves); reflexivity.
Defined.

(** ** When a bet is accepted *)

(** X25. In an open round a bet is accepted exactly when the stake is
    positive and within the balance and the bonus ceiling does not apply; the
    ceiling applies only to a user who has received the bonus, whose
    balance is exactly the bonus amount, and who stakes more than 1000. *)
Theorem bet_acceptance (uid : Z) (sd : side) (amt : Z) (d : data) :
  status (round d) = StOpen ->
  ((exists rid bal, fst (handle_bet_command uid sd amt d) = Accepted rid bal) <->
   (0 < amt <= balance_of uid d /\
    ~ (first_bonus_given (account uid d) = true /\
       balance_of uid d = INITIAL_BONUS /\ MAX_BONUS_BET < amt))) /\
  (fst (handle_bet_command uid sd amt d) = BonusLimit <->
   (first_bonus_given (account uid d) = true /\
    balance_of uid d = INITIAL_BONUS /\ MAX_BONUS_BET < amt)).
Proof.
  intros Hopen. unfold handle_bet_command, get_balance. cbv beta iota zeta.
  rewrite Hopen. cbn [status_eqb negb].
  rewrite !ensure_user_idem, ensure_user_lookup, <- balance_of_account.
  assert (Hc : first_bonus_given (account uid d) && (balance_of uid d =? INITIAL_BONUS)
               && (MAX_BONUS_BET <? amt) = true <->
               (first_bonus_given (account uid d) = true /\
                balance_of uid d = INITIAL_BONUS /\ MAX_BONUS_BET < amt)).
  { rewrite !andb_true_iff, Z.eqb_eq, Z.ltb_lt. tauto. }
  destruct (first_bonus_given (account uid d) && (balance_of uid d =? INITIAL_BONUS)
            && (MAX_BONUS_BET <? amt)) eqn:Hceil.
  - assert (Hyes := proj1 Hc eq_refl). cbn [fst]. split.
    + split; [intros (rid & bal & H); discriminate | intros (_ & Hn); contradiction].
    + split; auto.
  - assert (Hnot : ~ (first_bonus_given (account uid d) = true /\
                      balance_of uid d = INITIAL_BONUS /\ MAX_BONUS_BET < amt))
      by (intros H; apply Hc in H; discriminate).
    destruct (Z.leb_spec amt 0) as [Hz|Hz].
    + cbn [fst]. split.
      * split; [intros (rid & bal & H); discriminate | intros (Hr & _); lia].
      * split; [discriminate | intros H; contradiction].
    + destruct (Z.ltb_spec (balance_of uid d) amt) as [Hlt|Hge]; cbn [fst]; split.
      * split; [intros (rid & bal & H); discriminate | intros (Hr & _); lia].
      * split; [discriminate | intros H; contradiction].
      * split; [intros _; split; [lia | exact Hnot] | intros _; eauto].
      * split; [discriminate | intros H; contradiction].
Qed.

Lemma bet_acceptance_witness :
  fst (handle_bet_command 7 T 1500 (run [1] 60 [OpStart 7; OpSchedulerOpen 0] default_data))
    = BonusLimit /\
  exists rid bal,
    fst (handle_bet_command 7 T 9500
           (run [1] 60 [OpStart 7; OpSchedulerOpen 0; OpBet 7 T 500] default_data))
    = Accepted rid bal.
Proof.
  split.
  - apply (proj2 (bet_acceptance 7 T 1500
                    (run [1] 60 [OpStart 7; OpSchedulerOpen 0] default_data) eq_refl)).
    repeat split.
  - apply (proj1 (bet_acceptance 7 T 9500
                    (run [1] 60 [OpStart 7; OpSchedulerOpen 0; OpBet 7 T 500] default_data)
                    eq_refl)).
    split.
    + vm_compute. split; [reflexivity | discriminate].
    + intros (_ & H & _). vm_compute in H. discriminate.
Defined.

(** ** What an approval touches *)

(** X26. The approval of a deposit or withdraw request that is found changes
    the balance of the requesting user and the decided request, and nothing
    else: every other user record, the pot, the round, the bet sets and the
    history stay as they were. *)
Theorem approval_touches_only_requester (ADMINS : list Z) (sender rid : Z)
    (d : data) (r : request) :
  is_admin ADMINS sender = true ->
  (find_request rid (deposit_requests d) = Some r ->
   let d' := callback_query_handler ADMINS sender (approve_deposit rid) d in
   (forall u, u <> user_id r -> account u d' = account u d) /\
   pot d' = pot d /\ round d' = round d /\ bets d' = bets d /\ history d' = history d /\
   withdraw_requests d' = withdraw_requests d) /\
  (find_request rid (withdraw_requests d) = Some r ->
   let d' := callback_query_handler ADMINS sender (approve_withdraw rid) d in
   (forall u, u <> user_id r -> account u d' = account u d) /\
   pot d' = pot d /\ round d' = round d /\ bets d' = bets d /\ history d' = history d /\
   deposit_requests d' = deposit_requests d).
Proof.
  intros Hadm. unfold callback_query_handler. rewrite Hadm. cbn [negb].
  split; intros Hfind; cbn zeta.
  - pose proof (decide_first_find rid Approved sender (deposit_requests d)) as Hf.
    destruct (decide_first rid Approved sender (deposit_requests d)) as [found l].
    cbn [fst] in Hf. rewrite Hfind in Hf. subst found.
    autorewrite with frame. split; [|repeat split].
    intros u Hne. rewrite account_add_balance.
    destruct (decide (user_id r = u)); [congruence | reflexivity].
  - pose proof (decide_first_find rid Approved sender (withdraw_requests d)) as Hf.
    destruct (decide_first rid Approved sender (withdraw_requests d)) as [found l].
    cbn [fst] in Hf. rewrite Hfind in Hf. subst found.
    autorewrite with frame. split; [|repeat split].
    intros u Hne. rewrite account_sub_balance.
    destruct (decide (user_id r = u)); [congruence | reflexivity].
Qed.

Lemma approval_touches_only_requester_witness :
  account 8 (callback_query_handler [1] 1 (approve_deposit 1001) deposit_pending)
  = account 8 deposit_pending /\
  pot (callback_query_handler [1] 1 (approve_deposit 1001) deposit_pending)
  = pot deposit_pending.
Proof.
  destruct (proj1 (approval_touches_only_requester [1] 1 1001 deposit_pending
                     (new_request 1001 7 500 1) eq_refl) eq_refl) as (Hu & Hp & _).
  split; [apply Hu; discriminate | exact Hp].
Defined.
